(** * 2mpeg-dash: the encoding ladder, the codec tables and the drivers

    A shallow embedding of [src/main.py].  Python [int] is [Z]; [str] is
    [string], read as the bytes of its UTF-8 encoding (the text of the script
    itself is ASCII, but for the check mark of one message; the output of a
    probe is any text); a [dict] with
    integer keys is a [gmap Z _]; [float] is the binary64 instance of
    [spec_float].  Code that talks to the outside (sub-processes, the file
    system, the console) is a computation over an explicit trace of events,
    with an environment whose answers may depend on the trace so far. *)

From Stdlib Require Import ZArith Lia String Ascii Sorted.
From Stdlib Require Import SpecFloat.
From stdpp Require Import gmap strings list pretty.

Local Open Scope string_scope.
Local Open Scope list_scope.
Local Open Scope Z_scope.

(** ** Python built-ins used by the script *)

(** [str(n)] for an [int]: decimal digits, a leading minus sign when
    negative. *)
Definition str_int (n : Z) : string := pretty n.

(** [d.get(k, dflt)] on a dictionary. *)
Definition dict_get {V : Type} (d : gmap Z V) (k : Z) (dflt : V) : V :=
  default dflt (d !! k).

(** ** Config defaults *)

Definition DEFAULT_LADDER : list Z := [2160; 1440; 1080; 720; 480].

Record h264_params : Type := mk_h264
  { br : string; maxrate : string; bufsize : string; crf : Z }.

Definition H264_PARAMS : gmap Z h264_params :=
  list_to_map
    [ (2160, mk_h264 "12000k" "12840k" "24000k" 19);
      (1440, mk_h264 "7000k"  "7490k"  "14000k" 20);
      (1080, mk_h264 "5000k"  "5350k"  "10000k" 20);
      (720,  mk_h264 "2800k"  "2996k"  "5600k"  21);
      (480,  mk_h264 "1400k"  "1498k"  "2800k"  22) ].

Definition AV1_CRF : gmap Z Z :=
  list_to_map [ (2160, 30); (1440, 31); (1080, 32); (720, 33); (480, 34) ].

(** ** Ladder selection (the comprehension and its fallback in [main]) *)

(** The guard of the comprehension:
    [h <= h_src and (args.max_height == 0 or h <= args.max_height)]. *)
Definition ladder_guard (h_src max_height h : Z) : bool :=
  (h <=? h_src) && ((max_height =? 0) || (h <=? max_height)).

(** [ladder = [h for h in DEFAULT_LADDER if ...]; if not ladder: ladder = [h_src]]. *)
Definition ladder (h_src max_height : Z) : list Z :=
  match List.filter (ladder_guard h_src max_height) DEFAULT_LADDER with
  | [] => [h_src]
  | l => l
  end.

(** The selection as the specification words it: the cap applies only when
    it is positive. *)
Definition selectLadder_spec (H C : Z) : list Z :=
  match List.filter (fun h => (h <=? H) && (if 0 <? C then h <=? C else true))
                    DEFAULT_LADDER with
  | [] => [H]
  | l => l
  end.

(** Strictly descending lists of heights. *)
Definition strictly_descending (l : list Z) : Prop := StronglySorted Z.gt l.

(** What it means for a canonical height to qualify under the code's guard. *)
Definition qualifies (H C h : Z) : Prop := h <= H /\ (C <> 0 -> h <= C).

(** ** Exceptions and results *)

(** The exceptions the script can meet.  [SystemExit] is the only one that
    is not a subclass of [Exception]. *)
Inductive exn : Type :=
  | ValueError | IndexError | ZeroDivisionError | OverflowError
  | CalledProcessError | OSError
  | SystemExit (msg : string).

Definition is_Exception (e : exn) : bool :=
  match e with SystemExit _ => false | _ => true end.

Inductive result (A : Type) : Type :=
  | Ok (a : A)
  | Raise (e : exn).
Arguments Ok {A} a.
Arguments Raise {A} e.

(** ** Strings *)

Definition chr (n : nat) : ascii := ascii_of_nat n.

(** [sep.join(parts)]. *)
Fixpoint join (sep : string) (parts : list string) : string :=
  match parts with
  | [] => ""
  | [p] => p
  | p :: ps => p +:+ sep +:+ join sep ps
  end.

(** [c in s] for a one-character [c]. *)
Fixpoint has_char (c : ascii) (s : string) : bool :=
  match s with
  | EmptyString => false
  | String d s' => Ascii.eqb d c || has_char c s'
  end.

Fixpoint starts_with (p s : string) : bool :=
  match p, s with
  | EmptyString, _ => true
  | String a p', String b s' => Ascii.eqb a b && starts_with p' s'
  | String _ _, EmptyString => false
  end.

(** [needle in hay]. *)
Fixpoint contains (needle hay : string) : bool :=
  starts_with needle hay ||
  match hay with
  | EmptyString => false
  | String _ hay' => contains needle hay'
  end.

(** [s.split(c)] for a one-character separator. *)
Fixpoint split_on (c : ascii) (s : string) : list string :=
  match s with
  | EmptyString => [""]
  | String d s' =>
      if Ascii.eqb d c then "" :: split_on c s'
      else match split_on c s' with
           | [] => [String d ""]
           | w :: ws => String d w :: ws
           end
  end.

(** *** White space and line boundaries

    A [str] is held as the bytes of its UTF-8 encoding, so a character of
    [str.strip()] or [str.splitlines()] is recognised by its encoding.  In
    UTF-8 no character's encoding starts inside another's, so a scan byte by
    byte finds the characters where they are. *)

Definition byte (c : ascii) : nat := nat_of_ascii c.

(** The white-space characters below 128: U+0009 to U+000D, U+001C to
    U+0020. *)
Definition ascii_space (c : ascii) : bool :=
  ((9 <=? byte c) && (byte c <=? 13) || (28 <=? byte c) && (byte c <=? 32))%nat.

(** U+0085 and U+00A0. *)
Definition space2 (a b : ascii) : bool :=
  ((byte a =? 194) && ((byte b =? 133) || (byte b =? 160)))%nat.

(** U+1680; U+2000 to U+200A, U+2028, U+2029, U+202F; U+205F; U+3000. *)
Definition space3 (a b c : ascii) : bool :=
  ((byte a =? 225) && (byte b =? 154) && (byte c =? 128)
   || (byte a =? 226) && (byte b =? 128)
      && ((128 <=? byte c) && (byte c <=? 138)
          || (byte c =? 168) || (byte c =? 169) || (byte c =? 175))
   || (byte a =? 226) && (byte b =? 129) && (byte c =? 159)
   || (byte a =? 227) && (byte b =? 128) && (byte c =? 128))%nat.

(** The number of bytes of the white-space character at the head of [s]; 0
    when [s] does not start with one ([str.isspace] of a character). *)
Definition space_width (s : string) : nat :=
  match s with
  | EmptyString => 0
  | String a r =>
      if ascii_space a then 1
      else match r with
           | EmptyString => 0
           | String b r' =>
               if space2 a b then 2
               else match r' with
                    | EmptyString => 0
                    | String c _ => if space3 a b c then 3 else 0
                    end
           end
  end%nat.

(** The number of bytes of the line boundary at the head of [s]; 0 when
    [s] does not start with one.  The boundaries of [str.splitlines] are
    U+000A to U+000D, U+001C to U+001E, U+0085, U+2028 and U+2029, and a
    carriage return followed by a line feed is one boundary. *)
Definition break_width (s : string) : nat :=
  match s with
  | EmptyString => 0
  | String a r =>
      if (byte a =? 13)%nat then
        match r with
        | String b _ => if (byte b =? 10)%nat then 2 else 1
        | EmptyString => 1
        end
      else if ((10 <=? byte a) && (byte a <=? 12)
               || (28 <=? byte a) && (byte a <=? 30))%nat then 1
      else match r with
           | EmptyString => 0
           | String b r' =>
               if ((byte a =? 194) && (byte b =? 133))%nat then 2
               else match r' with
                    | EmptyString => 0
                    | String c _ =>
                        if ((byte a =? 226) && (byte b =? 128)
                            && ((byte c =? 168) || (byte c =? 169)))%nat
                        then 3 else 0
                    end
           end
  end%nat.

(** [s.lstrip()]; [skip] counts the bytes still to drop of the white-space
    character being removed. *)
Fixpoint lstrip_skip (skip : nat) (s : string) : string :=
  match s with
  | EmptyString => ""
  | String _ s' =>
      match skip with
      | S k => lstrip_skip k s'
      | O => match space_width s with
             | O => s
             | S k => lstrip_skip k s'
             end
      end
  end.

Definition lstrip (s : string) : string := lstrip_skip 0 s.

(** [s] is made of white space only, once [skip] bytes are passed. *)
Fixpoint all_space_skip (skip : nat) (s : string) : bool :=
  match s with
  | EmptyString => match skip with O => true | S _ => false end
  | String _ s' =>
      match skip with
      | S k => all_space_skip k s'
      | O => match space_width s with
             | O => false
             | S k => all_space_skip k s'
             end
      end
  end.

Definition all_space (s : string) : bool := all_space_skip 0 s.

(** [s.rstrip()]: [s] up to the point from which only white space follows. *)
Fixpoint rstrip (s : string) : string :=
  match s with
  | EmptyString => ""
  | String c s' => if all_space s then "" else String c (rstrip s')
  end.

Definition strip (s : string) : string := rstrip (lstrip s).

(** [s.splitlines()]; [skip] counts the bytes still to pass of the line
    boundary being crossed. *)
Fixpoint splitlines_skip (skip : nat) (s : string) : list string :=
  match s with
  | EmptyString => []
  | String c s' =>
      match skip with
      | S k => splitlines_skip k s'
      | O => match break_width s with
             | S k => "" :: splitlines_skip k s'
             | O => match splitlines_skip 0 s' with
                    | [] => [String c ""]
                    | w :: ws => String c w :: ws
                    end
             end
      end
  end.

Definition splitlines (s : string) : list string := splitlines_skip 0 s.

(** ** Floats (binary64) *)

Definition prec : Z := 53.
Definition emax : Z := 1024.

Definition fmul : spec_float -> spec_float -> spec_float := SFmul prec emax.
Definition fdiv : spec_float -> spec_float -> spec_float := SFdiv prec emax.

(** [float(n)] for an [int] of moderate size: the nearest double. *)
Definition float_of_Z (n : Z) : spec_float := binary_normalize prec emax n 0 false.

Definition is_zero (x : spec_float) : bool :=
  match x with S754_zero _ => true | _ => false end.

Definition is_finite (x : spec_float) : bool :=
  match x with S754_zero _ | S754_finite _ _ _ => true | _ => false end.

(** [x != 0] for a float [x]. *)
Definition float_ne_0 (x : spec_float) : bool := negb (SFeqb x (S754_zero false)).

(** [x / y] on floats: a zero divisor raises. *)
Definition truediv (x y : spec_float) : result spec_float :=
  if is_zero y then Raise ZeroDivisionError else Ok (fdiv x y).

(** [n / d] rounded to the nearest integer, ties to the even one ([d > 0]). *)
Definition div_half_even (n d : Z) : Z :=
  let q := n / d in
  match (2 * (n mod d) ?= d) with
  | Lt => q
  | Gt => q + 1
  | Eq => if Z.even q then q else q + 1
  end.

(** [n * 2^e] rounded to the nearest integer, ties to the even one. *)
Definition round_scaled (n e : Z) : Z :=
  if 0 <=? e then n * 2 ^ e else div_half_even n (2 ^ (- e)).

(** [round(x)] with one argument: an [int], ties to even; [nan] and the
    infinities raise. *)
Definition py_round (x : spec_float) : result Z :=
  match x with
  | S754_zero _ => Ok 0
  | S754_nan => Raise ValueError
  | S754_infinity _ => Raise OverflowError
  | S754_finite s m e =>
      let a := round_scaled (Z.pos m) e in
      Ok (if s then - a else a)
  end.

(** [gop = max(1, round(get_avg_fps(src)*2))], as a function of the frame
    rate. *)
Definition gop (fps : spec_float) : result Z :=
  match py_round (fmul fps (float_of_Z 2)) with
  | Ok r => Ok (Z.max 1 r)
  | Raise e => Raise e
  end.

(** The double nearest to 23.976, and 25.0. *)
Definition f23_976 : spec_float := fdiv (float_of_Z 23976) (float_of_Z 1000).
Definition f25 : spec_float := float_of_Z 25.
Definition f1 : spec_float := float_of_Z 1.

(** ** The outside world *)

(** A [pathlib.Path] is represented by its [str()]. *)
Definition path : Type := string.

(** The operations of [pathlib] the script uses. *)
Class PathOps : Type := {
  Path : string -> path;           (* Path(s) *)
  path_div : path -> string -> path;  (* p / name *)
  path_stem : path -> string;      (* p.stem *)
  path_parent : path -> path       (* p.parent *)
}.

(** The parsers [int(s)] and [float(s)]; [None] is their [ValueError]. *)
Class PyParse : Type := {
  py_int : string -> option Z;
  py_float : string -> option spec_float
}.

(** How a captured sub-process ends: it could not be started (an
    [OSError]); its output could not be decoded (a [UnicodeDecodeError],
    which is a [ValueError], whatever the exit status); or it ran, with an
    exit status and a standard output. *)
Inductive capture_outcome : Type :=
  | CaptureFailed
  | CaptureUndecodable
  | Captured (exit_ok : bool) (stdout : string).

(** How a plain sub-process ends. *)
Inductive run_outcome : Type :=
  | RunFailed      (* could not be started *)
  | Exited (exit_ok : bool).

Inductive event : Type :=
  | EWhich (tool : string) (found : bool)
  | EPrint (line : string)
  | ERun (cmd : list string) (o : run_outcome)
  | ECapture (cmd : list string) (o : capture_outcome)
  | EMkdir (p : path) (ok : bool)
  | EExists (p : path) (o : option bool)
  | EIsFile (p : path) (o : option bool)
  | EGlob (dir : path) (pattern : string) (found : list path).

Definition trace : Type := list event.

(** The answers of the environment; each may depend on everything that
    happened before. *)
Record world : Type := {
  w_which : trace -> string -> bool;
  w_run : trace -> list string -> run_outcome;
  w_capture : trace -> list string -> capture_outcome;
  w_mkdir : trace -> path -> bool;
  w_exists : trace -> path -> option bool;
  w_is_file : trace -> path -> option bool;
  w_glob : trace -> path -> string -> list path
}.

(** Computations: they read the world, extend the trace, and return or
    raise. *)
Definition M (A : Type) : Type := world -> trace -> result A * trace.

#[global] Instance M_ret : MRet M := fun A a _ t => (Ok a, t).

#[global] Instance M_bind : MBind M := fun A B f m w t =>
  match m w t with
  | (Ok a, t') => f a w t'
  | (Raise e, t') => (Raise e, t')
  end.

Definition raise {A : Type} (e : exn) : M A :=
  fun (_ : world) (t : trace) => (Raise e, t).

Definition lift {A : Type} (r : result A) : M A :=
  fun (_ : world) (t : trace) => (r, t).

(** [try: body / except Exception: handler]. *)
Definition try_except {A : Type} (body handler : M A) : M A := fun w t =>
  match body w t with
  | (Raise e, t') => if is_Exception e then handler w t' else (Raise e, t')
  | r => r
  end.

(** [for x in l: body x]. *)
Fixpoint for_each {A : Type} (l : list A) (body : A -> M unit) : M unit :=
  match l with
  | [] => mret tt
  | x :: l' => body x ;; for_each l' body
  end.

(** A comprehension whose element expression has effects. *)
Fixpoint map_M {A B : Type} (f : A -> M B) (l : list A) : M (list B) :=
  match l with
  | [] => mret []
  | x :: l' => y ← f x; ys ← map_M f l'; mret (y :: ys)
  end.

(** A comprehension whose guard has effects. *)
Fixpoint filter_M {A : Type} (f : A -> M bool) (l : list A) : M (list A) :=
  match l with
  | [] => mret []
  | x :: l' => b ← f x; ys ← filter_M f l'; mret (if (b : bool) then x :: ys else ys)
  end.

(** *** Primitive actions *)

Definition shutil_which (tool : string) : M bool := fun w t =>
  let b := w_which w t tool in (Ok b, t ++ [EWhich tool b]).

Definition print (line : string) : M unit := fun (_ : world) (t : trace) =>
  (Ok tt, t ++ [EPrint line]).

(** [subprocess.run(cmd, check=True)]. *)
Definition subprocess_run_check (cmd : list string) : M unit := fun w t =>
  let o := w_run w t cmd in
  (match o with
   | RunFailed => Raise OSError
   | Exited true => Ok tt
   | Exited false => Raise CalledProcessError
   end, t ++ [ERun cmd o]).

(** [subprocess.run(cmd, capture_output=True, text=True, check=check).stdout]. *)
Definition subprocess_capture (check : bool) (cmd : list string) : M string :=
  fun w t =>
  let o := w_capture w t cmd in
  (match o with
   | CaptureFailed => Raise OSError
   | CaptureUndecodable => Raise ValueError
   | Captured ok out =>
       if check && negb ok then Raise CalledProcessError else Ok out
   end, t ++ [ECapture cmd o]).

Definition mkdir (p : path) : M unit := fun w t =>
  let ok := w_mkdir w t p in
  (if ok then Ok tt else Raise OSError, t ++ [EMkdir p ok]).

(** [p.exists()] and [p.is_file()]: an answer, or the [OSError] of the
    file system when it is none of those the two methods take for a plain
    no ([None] in the world and in the event). *)
Definition path_exists (p : path) : M bool := fun w t =>
  let o := w_exists w t p in
  (match o with Some b => Ok b | None => Raise OSError end, t ++ [EExists p o]).

Definition path_is_file (p : path) : M bool := fun w t =>
  let o := w_is_file w t p in
  (match o with Some b => Ok b | None => Raise OSError end, t ++ [EIsFile p o]).

Definition path_glob (dir : path) (pattern : string) : M (list path) := fun w t =>
  let l := w_glob w t dir pattern in (Ok l, t ++ [EGlob dir pattern l]).

(** [sorted(l)] on paths. *)
Fixpoint insert_sorted (x : path) (l : list path) : list path :=
  match l with
  | [] => [x]
  | y :: l' => if String.leb x y then x :: l else y :: insert_sorted x l'
  end.

Definition sorted (l : list path) : list path := foldr insert_sorted [] l.

(** ** The script *)

(** The parsed command line ([argparse] is outside the model). *)
Record cli_args : Type := {
  arg_input : string;
  arg_out : string;
  arg_work : string;
  arg_seg : Z;
  arg_audio_bitrate : string;
  arg_preset264 : string;
  arg_av1_encoder : string;
  arg_cpu_used : Z;
  arg_max_height : Z
}.

(** [str(l)] for a list of [int]. *)
Definition str_list (l : list Z) : string :=
  "[" +:+ join ", " (str_int <$> l) +:+ "]".

(** [enumerate(l)]. *)
Definition enumerate {A : Type} (l : list A) : list (nat * A) :=
  imap (fun i x => (i, x)) l.

(** *** Encoding: the filter graph *)

Definition split_labels (n : nat) (label_prefix : string) : list string :=
  (fun i => label_prefix +:+ str_int (Z.of_nat i)) <$> seq 0 n.

(** The body of the loop of [build_filter]: the scale filter and the output
    label of the [i]-th height.  The index [i] comes from [enumerate] and is
    always below the number of split labels, so [split_labels[i]] never
    raises. *)
Definition scale_of (labels : list string) (label_prefix : string)
    (ih : nat * Z) : string * string :=
  let out_label := label_prefix +:+ str_int ih.2 in
  ("[" +:+ nth ih.1 labels "" +:+ "]scale=-2:" +:+ str_int ih.2
     +:+ ":flags=bicubic[" +:+ out_label +:+ "]",
   out_label).

Definition build_filter (heights : list Z) (label_prefix : string)
    : string * list string :=
  let n := length heights in
  let labels := split_labels n label_prefix in
  let split := "[0:v]split=" +:+ str_int (Z.of_nat n)
               +:+ join "" ((fun l => "[" +:+ l +:+ "]") <$> labels) +:+ ";" in
  let per_height := scale_of labels label_prefix <$> enumerate heights in
  let scales := per_height.*1 in
  let out_labels := per_height.*2 in
  let filter_complex := split +:+ join "" ((fun s => s +:+ ";") <$> scales) in
  (filter_complex, out_labels).


Section Script.
Context `{PathOps} `{PyParse}.

(** *** Utils *)

Definition have (tool : string) : M bool := shutil_which tool.

Definition run (cmd : list string) : M unit :=
  print (">> " +:+ join " " cmd) ;; subprocess_run_check cmd.

Definition ffprobe_value (src : path) (entries : list string)
    (stream_sel : string) : M (list string) :=
  let cmd := ["ffprobe"; "-v"; "error";
              "-select_streams"; stream_sel;
              "-show_entries"; join "," entries;
              "-of"; "default=nw=1:nk=1";
              src] in
  stdout ← subprocess_capture true cmd;
  let out := splitlines (strip stdout) in
  mret (strip <$> List.filter (fun x => negb (String.eqb (strip x) "")) out).

(** [vals[0]]. *)
Definition first_of (vals : list string) : M string :=
  match vals with
  | [] => raise IndexError
  | v :: _ => mret v
  end.

(** [int(s)] and [float(s)] as computations. *)
Definition int_of (s : string) : M Z :=
  match py_int s with Some n => mret n | None => raise ValueError end.

Definition float_of (s : string) : M spec_float :=
  match py_float s with Some x => mret x | None => raise ValueError end.

(** The body of the [try] of [get_src_height]. *)
Definition get_src_height_body (src : path) : M Z :=
  vals ← ffprobe_value src ["stream=height"] "v:0";
  v ← first_of vals;
  int_of v.

Definition get_src_height (src : path) : M Z :=
  try_except (get_src_height_body src) (mret 1080).

(** The body of the [try] of [get_avg_fps]. *)
Definition get_avg_fps_body (src : path) : M spec_float :=
  vals ← ffprobe_value src ["stream=avg_frame_rate"] "v:0";
  frac ← first_of vals;
  if has_char "/" frac then
    match split_on "/" frac with
    | [num; den] =>
        d ← float_of den;
        den' ← (if float_ne_0 d then float_of den else mret f1);
        n ← float_of num;
        lift (truediv n den')
    | _ => raise ValueError
    end
  else float_of frac.

Definition get_avg_fps (src : path) : M spec_float :=
  try_except (get_avg_fps_body src) (mret f25).

(** The body of the [try] of [has_audio]. *)
Definition has_audio_body (src : path) : M bool :=
  vals ← ffprobe_value src ["stream=index"] "a";
  mret (0 <? length vals)%nat.

Definition has_audio (src : path) : M bool :=
  try_except (has_audio_body src) (mret false).

Definition ensure_dir (p : path) : M unit := mkdir p.

(** *** Encoding *)

(** The arguments one rung adds in the loop of [encode_h264]. *)
Definition h264_rung_args (outdir : path) (gop : Z) (preset : string)
    (h : Z) (label : string) : list string :=
  let p := dict_get H264_PARAMS h (mk_h264 "2500k" "2680k" "5000k" 21) in
  ["-map"; "[" +:+ label +:+ "]";
   "-c:v"; "libx264"; "-preset"; preset; "-pix_fmt"; "yuv420p";
   "-crf"; str_int (crf p); "-profile:v"; "high";
   "-g"; str_int gop; "-keyint_min"; str_int gop; "-sc_threshold"; "0";
   "-b:v"; br p; "-maxrate"; maxrate p; "-bufsize"; bufsize p;
   "-movflags"; "+faststart";
   path_div outdir ("h264_" +:+ str_int h +:+ ".mp4")].

Definition encode_h264_args (src outdir : path) (heights : list Z) (gop : Z)
    (preset : string) : list string :=
  let '(filt, out_labels) := build_filter heights "s" in
  ["ffmpeg"; "-y"; "-i"; src; "-filter_complex"; filt]
  ++ concat (zip_with (h264_rung_args outdir gop preset) heights out_labels).

Definition encode_h264 (src outdir : path) (heights : list Z) (gop : Z)
    (preset : string) : M unit :=
  ensure_dir outdir ;;
  run (encode_h264_args src outdir heights gop preset).

(** The arguments one rung adds in the loop of [encode_av1]. *)
Definition av1_rung_args (outdir : path) (gop : Z) (encoder : string)
    (cpu_used : Z) (h : Z) (label : string) : list string :=
  let crf := dict_get AV1_CRF h 32 in
  if String.eqb encoder "svt" then
    ["-map"; "[" +:+ label +:+ "]";
     "-c:v"; "libsvtav1"; "-pix_fmt"; "yuv420p";
     "-crf"; str_int crf; "-g"; str_int gop;
     "-preset"; "8";
     "-movflags"; "+faststart";
     path_div outdir ("av1_" +:+ str_int h +:+ ".mp4")]
  else
    ["-map"; "[" +:+ label +:+ "]";
     "-c:v"; "libaom-av1"; "-pix_fmt"; "yuv420p";
     "-crf"; str_int crf; "-b:v"; "0";
     "-g"; str_int gop; "-row-mt"; "1"; "-cpu-used"; str_int cpu_used;
     "-tile-columns"; "1"; "-tile-rows"; "1";
     "-movflags"; "+faststart";
     path_div outdir ("av1_" +:+ str_int h +:+ ".mp4")].

Definition encode_av1_args (src outdir : path) (heights : list Z) (gop : Z)
    (encoder : string) (cpu_used : Z) : list string :=
  let '(filt, out_labels) := build_filter heights "t" in
  ["ffmpeg"; "-y"; "-i"; src; "-filter_complex"; filt]
  ++ concat (zip_with (av1_rung_args outdir gop encoder cpu_used) heights out_labels).

Definition encode_av1 (src outdir : path) (heights : list Z) (gop : Z)
    (encoder : string) (cpu_used : Z) : M unit :=
  ensure_dir outdir ;;
  run (encode_av1_args src outdir heights gop encoder cpu_used).

Definition extract_audio_cmd (src out_m4a : path) (aac_bitrate : string)
    : list string :=
  ["ffmpeg"; "-y"; "-i"; src; "-vn"; "-c:a"; "aac"; "-b:a"; aac_bitrate;
   "-ac"; "2"; out_m4a].

Definition extract_audio (src out_m4a : path) (aac_bitrate : string)
    : M (option path) :=
  audio ← has_audio src;
  if negb audio then mret None
  else
    ensure_dir (path_parent out_m4a) ;;
    run (extract_audio_cmd src out_m4a aac_bitrate) ;;
    mret (Some out_m4a).

(** *** Packaging *)

(** The body of the two video loops of [package_shaka]; [family] is
    [h264] in the first and [av1] in the second. *)
Definition shaka_video_arg (outdash : path) (family : string)
    (hp : Z * path) : M string :=
  let segdir := path_div outdash (family +:+ "_" +:+ str_int hp.1) in
  ensure_dir segdir ;;
  mret ("in=" +:+ hp.2 +:+ ",stream=video,init_segment="
        +:+ path_div segdir "init.mp4" +:+ ",segment_template="
        +:+ path_div segdir "seg_$Number$.m4s").

Definition shaka_audio_arg (outdash : path) (audio_file : option path)
    : M (list string) :=
  match audio_file with
  | None => mret []
  | Some a =>
      present ← path_exists a;
      if (present : bool) then
        let asegdir := path_div outdash "audio" in
        ensure_dir asegdir ;;
        mret ["in=" +:+ a +:+ ",stream=audio,lang=und,init_segment="
              +:+ path_div asegdir "init.mp4" +:+ ",segment_template="
              +:+ path_div asegdir "seg_$Number$.m4s"]
      else mret []
  end.

Definition package_shaka (outdash : path) (seg_dur : Z)
    (v264_files vav1_files : list (Z * path)) (audio_file : option path)
    : M unit :=
  ensure_dir outdash ;;
  a264 ← map_M (shaka_video_arg outdash "h264") v264_files;
  aav1 ← map_M (shaka_video_arg outdash "av1") vav1_files;
  aaud ← shaka_audio_arg outdash audio_file;
  run (["packager"] ++ (a264 ++ aav1 ++ aaud)
       ++ ["--segment_duration"; str_int seg_dur;
           "--generate_static_mpd";
           "--mpd_output"; path_div outdash "manifest.mpd"]).

Definition mp4box_video_arg (family : string) (hp : Z * path) : string :=
  hp.2 +:+ "#video:id=" +:+ family +:+ "_" +:+ str_int hp.1.

Definition mp4box_audio_arg (audio_file : option path) : M (list string) :=
  match audio_file with
  | None => mret []
  | Some a =>
      present ← path_exists a;
      mret (if (present : bool) then [a +:+ "#audio:id=audio"] else [])
  end.

Definition package_mp4box (outdash : path) (seg_dur : Z)
    (v264_files vav1_files : list (Z * path)) (audio_file : option path)
    : M unit :=
  ensure_dir outdash ;;
  aaud ← mp4box_audio_arg audio_file;
  run (["MP4Box";
        "-dash"; str_int (seg_dur * 1000);
        "-rap"; "-frag"; str_int (seg_dur * 1000);
        "-profile"; "live";
        "-segment-name"; "$RepresentationID$/";
        "-segment-ext"; "m4s";
        "-init-segment-ext"; "mp4";
        "-no-frags-default";
        "-out"; path_div outdash "manifest.mpd"]
       ++ ((mp4box_video_arg "h264" <$> v264_files)
           ++ (mp4box_video_arg "av1" <$> vav1_files) ++ aaud)).

(** *** Main *)

(** The selection of the packager: [shaka], [mp4box] or the empty
    string. *)
Definition pick_packager : M string :=
  shaka ← have "packager";
  if (shaka : bool) then mret "shaka"
  else
    mp4box ← have "MP4Box";
    mret (if (mp4box : bool) then "mp4box" else "").

Definition pick_av1_encoder (args : cli_args) : M string :=
  if String.eqb (arg_av1_encoder args) "auto" then
    encs ← subprocess_capture false ["ffmpeg"; "-hide_banner"; "-encoders"];
    mret (if contains "libsvtav1" encs then "svt"
          else if contains "libaom-av1" encs then "aom"
          else "none")
  else mret (arg_av1_encoder args).

(** The [.mp4] files of the input folder, sorted. *)
Definition collect_files (input_dir : path) : M (list path) :=
  found ← path_glob input_dir "*.mp4";
  files ← filter_M path_is_file found;
  mret (sorted files).

(** The dispatch on the packager chosen for the run. *)
Definition package (packager : string) (outdash : path) (seg_dur : Z)
    (v264_files vav1_files : list (Z * path)) (audio_file : option path)
    : M unit :=
  if String.eqb packager "shaka" then
    package_shaka outdash seg_dur v264_files vav1_files audio_file
  else
    package_mp4box outdash seg_dur v264_files vav1_files audio_file.

(** The body of the loop of [main] over the source files. *)
Definition process_file (args : cli_args) (packager av1_enc : string)
    (out_root work_root src : path) : M unit :=
  let base := path_stem src in
  fps ← get_avg_fps src;
  gop ← lift (gop fps);
  h_src ← get_src_height src;
  let ladder := ladder h_src (arg_max_height args) in
  let work_dir := path_div work_root base in
  let v264_dir := path_div work_dir "h264" in
  let vav1_dir := path_div work_dir "av1" in
  let aud_dir := path_div work_dir "audio" in
  let outdash := path_div (path_div out_root base) "dash" in
  ensure_dir v264_dir ;; ensure_dir vav1_dir ;;
  ensure_dir aud_dir ;; ensure_dir outdash ;;
  print ("=== [" +:+ base +:+ "] src=" +:+ str_int h_src +:+ "p GOP="
         +:+ str_int gop +:+ " seg=" +:+ str_int (arg_seg args)
         +:+ "s ladder=" +:+ str_list ladder +:+ " ===") ;;
  encode_h264 src v264_dir ladder gop (arg_preset264 args) ;;
  (if String.eqb av1_enc "none" then mret tt
   else encode_av1 src vav1_dir ladder gop av1_enc (arg_cpu_used args)) ;;
  audio_path ← extract_audio src (path_div aud_dir "audio.m4a")
                 (arg_audio_bitrate args);
  let v264_files :=
    (fun h => (h, path_div v264_dir ("h264_" +:+ str_int h +:+ ".mp4")))
      <$> ladder in
  present ← filter_M
    (fun h => path_exists (path_div vav1_dir ("av1_" +:+ str_int h +:+ ".mp4")))
    ladder;
  let vav1_files :=
    (fun h => (h, path_div vav1_dir ("av1_" +:+ str_int h +:+ ".mp4")))
      <$> present in
  package packager outdash (arg_seg args) v264_files vav1_files audio_path ;;
  print (String (chr 226) (String (chr 156) (String (chr 148) " Done: "))
         +:+ path_div outdash "manifest.mpd").

Definition main (args : cli_args) : M unit :=
  let input_dir := Path (arg_input args) in
  let out_root := Path (arg_out args) in
  let work_root := Path (arg_work args) in
  ffmpeg ← have "ffmpeg";
  tools ← (if (ffmpeg : bool) then have "ffprobe" else mret false);
  if negb tools then
    raise (SystemExit "Error: ffmpeg and ffprobe are required in PATH.")
  else
    packager ← pick_packager;
    if String.eqb packager "" then
      raise (SystemExit
        "Error: need Shaka Packager ('packager') or GPAC ('MP4Box') in PATH.")
    else
      av1_enc ← pick_av1_encoder args;
      (if String.eqb av1_enc "none" then
         print "!! AV1 encoder not found in ffmpeg (libsvtav1/libaom-av1). Proceeding with H.264 only."
       else mret tt) ;;
      files ← collect_files input_dir;
      match files with
      | [] => print ("No .mp4 files found in: " +:+ input_dir)
      | _ =>
          print ("Found " +:+ str_int (Z.of_nat (length files))
                 +:+ " file(s) in: " +:+ input_dir) ;;
          for_each files
            (process_file args packager av1_enc out_root work_root) ;;
          print (String (chr 10)
            "All set! Server MIME: .mpd=application/dash+xml  .m4s=video/iso.segment")
      end.
End Script.

(** ** Observations on traces *)

(** The events a computation adds all satisfy [P]. *)
Definition emits {A : Type} (P : event -> Prop) (m : M A) : Prop :=
  forall w t, exists new, (m w t).2 = t ++ new /\ Forall P new.

(** A computation raises nothing but subclasses of [Exception]. *)
Definition raises_Exceptions {A : Type} (m : M A) : Prop :=
  forall w t e t', m w t = (Raise e, t') -> is_Exception e = true.

(** The probe query did not give an output: it could not be run or read,
    or it exited with an error. *)
Definition probe_failed (o : capture_outcome) : Prop :=
  match o with
  | CaptureFailed | CaptureUndecodable | Captured false _ => True
  | Captured true _ => False
  end.

(** The command line of [ffprobe_value]. *)
Definition ffprobe_cmd (src : path) (entries : list string)
    (stream_sel : string) : list string :=
  ["ffprobe"; "-v"; "error"; "-select_streams"; stream_sel;
   "-show_entries"; join "," entries; "-of"; "default=nw=1:nk=1"; src].

(** The command of an [ERun] event; [None] for the other events. *)
Definition run_cmd (e : event) : option (list string) :=
  match e with ERun cmd _ => Some cmd | _ => None end.

Definition is_which (e : event) : bool :=
  match e with EWhich _ _ => true | _ => false end.

(** The probes of [tool] in a trace. *)
Definition which_count (tool : string) (t : trace) : nat :=
  length (List.filter
            (fun e => match e with EWhich x _ => String.eqb x tool | _ => false end) t).

(** The external program behind a value of [packager]. *)
Definition backend_tool (packager : string) : string :=
  if String.eqb packager "shaka" then "packager" else "MP4Box".

(** What the processing of a source file may do once the packager is
    chosen: no tool look-up, and no sub-process other than [ffmpeg] and the
    chosen packaging tool. *)
Definition file_event (packager : string) (e : event) : Prop :=
  is_which e = false /\
  forall cmd, run_cmd e = Some cmd ->
    head cmd = Some "ffmpeg" \/ head cmd = Some (backend_tool packager).

(** What happens before the first file: no sub-process is run with
    [run]. *)
Definition setup_event (e : event) : Prop := run_cmd e = None.

(** Neither a tool look-up nor a [run]. *)
Definition quiet_event (e : event) : Prop :=
  is_which e = false /\ run_cmd e = None.

(** ** A concrete setting, for examples *)

(** Relative POSIX paths without dots or repeated slashes. *)
Definition posix_stem (p : path) : string :=
  let name := List.last (split_on "/" p) "" in
  match split_on "." name with
  | [] | [_] => name
  | parts => join "." (removelast parts)
  end.

Definition posix_parent (p : path) : path :=
  match removelast (split_on "/" p) with
  | [] => "."
  | parts => join "/" parts
  end.

Definition posix_paths : PathOps := {|
  Path := fun s => s;
  path_div := fun p name => p +:+ "/" +:+ name;
  path_stem := posix_stem;
  path_parent := posix_parent
|}.

(** Decimal numerals without sign: enough of [int] and [float] for the
    integers the probe prints. *)
Fixpoint digits_value (acc : Z) (s : string) : option Z :=
  match s with
  | EmptyString => Some acc
  | String c s' =>
      let n := nat_of_ascii c in
      if ((48 <=? n) && (n <=? 57))%nat
      then digits_value (10 * acc + Z.of_nat (n - 48)) s'
      else None
  end.

Definition parse_decimal (s : string) : option Z :=
  match s with
  | EmptyString => None
  | _ => digits_value 0 s
  end.

Definition decimal_parsers : PyParse := {|
  py_int := parse_decimal;
  py_float := fun s => float_of_Z <$> parse_decimal s
|}.

(** A world in which every tool is installed and succeeds, the probe
    prints [probe_out] whatever it is asked, and the input folder holds
    [files]. *)
Definition plain_world (probe_out : string) (files : list path) : world := {|
  w_which := fun _ _ => true;
  w_run := fun _ _ => Exited true;
  w_capture := fun _ _ => Captured true probe_out;
  w_mkdir := fun _ _ => true;
  w_exists := fun _ _ => Some true;
  w_is_file := fun _ _ => Some true;
  w_glob := fun _ _ _ => files
|}.

(** A world in which the probe cannot be run. *)
Definition no_probe_world : world := {|
  w_which := fun _ _ => true;
  w_run := fun _ _ => Exited true;
  w_capture := fun _ _ => CaptureFailed;
  w_mkdir := fun _ _ => true;
  w_exists := fun _ _ => Some true;
  w_is_file := fun _ _ => Some true;
  w_glob := fun _ _ _ => []
|}.

(** ** Further observations *)

(** The occurrences of a character in a string. *)
Fixpoint count_char (c : ascii) (s : string) : nat :=
  match s with
  | EmptyString => 0%nat
  | String d s' => ((if Ascii.eqb d c then 1 else 0) + count_char c s')%nat
  end.

(** A line that [ffprobe_value] keeps: not blank. *)
Definition nonblank (line : string) : bool := negb (String.eqb (strip line) "").

(** A run of [n] zero digits. *)
Fixpoint zeros (n : nat) : string :=
  match n with
  | O => ""
  | S n' => String "0" (zeros n')
  end.

(** A sub-process started with [run] that did not exit with status zero, or
    a folder that could not be made. *)
Definition failing (e : event) : bool :=
  match e with
  | ERun _ (Exited true) => false
  | ERun _ _ => true
  | EMkdir _ ok => negb ok
  | _ => false
  end.

(** A computation stops at the first failure: a failing event it adds to
    the trace is the last one, and the computation raises the error of that
    failure. *)
Definition stops_at_failure {A : Type} (m : M A) : Prop :=
  forall w t, exists new,
    (m w t).2 = t ++ new /\
    forall pre e post, new = pre ++ e :: post -> failing e = true ->
      post = [] /\
      ((m w t).1 = Raise CalledProcessError \/ (m w t).1 = Raise OSError).

(** The event of a captured sub-process. *)
Definition is_capture (e : event) : Prop := exists cmd o, e = ECapture cmd o.

(** The tool look-ups at the start of [main] end with a tool missing:
    [ffmpeg], or [ffprobe], or both [packager] and [MP4Box]. *)
Definition missing_tool (w : world) : bool :=
  if w_which w [] "ffmpeg" then
    let t1 := [EWhich "ffmpeg" true] in
    if w_which w t1 "ffprobe" then
      let t2 := t1 ++ [EWhich "ffprobe" true] in
      if w_which w t2 "packager" then false
      else negb (w_which w (t2 ++ [EWhich "packager" false]) "MP4Box")
    else true
  else true.


(** What a computation returns, when it returns, satisfies [Q]. *)
Definition returns {A : Type} (Q : A -> Prop) (m : M A) : Prop :=
  forall w t a t', m w t = (Ok a, t') -> Q a.

Section Descriptors.
Context `{PathOps}.

(** The stream descriptor [shaka_video_arg] returns for a video file. *)
Definition shaka_video_desc (outdash : path) (family : string)
    (hp : Z * path) : string :=
  let segdir := path_div outdash (family +:+ "_" +:+ str_int hp.1) in
  "in=" +:+ hp.2 +:+ ",stream=video,init_segment="
    +:+ path_div segdir "init.mp4" +:+ ",segment_template="
    +:+ path_div segdir "seg_$Number$.m4s".

(** The stream descriptor [shaka_audio_arg] returns for an audio file. *)
Definition shaka_audio_desc (outdash a : path) : string :=
  let asegdir := path_div outdash "audio" in
  "in=" +:+ a +:+ ",stream=audio,lang=und,init_segment="
    +:+ path_div asegdir "init.mp4" +:+ ",segment_template="
    +:+ path_div asegdir "seg_$Number$.m4s".
End Descriptors.

(** In a piece of trace every command started with [run] comes right after
    the line that echoes it. *)
Definition echoed (l : trace) : Prop :=
  forall pre cmd o post, l = pre ++ ERun cmd o :: post ->
    exists pre', pre = pre' ++ [EPrint (">> " +:+ join " " cmd)].

Definition echoes {A : Type} (m : M A) : Prop :=
  forall w t, exists new, (m w t).2 = t ++ new /\ echoed new.

(** The entries of a listing that the test for a regular file accepted, in
    the order of the tests. *)
Definition regular_files (t : trace) : list path :=
  omap (fun e => match e with EIsFile f (Some true) => Some f | _ => None end) t.

(** A test for a regular file that raised. *)
Definition is_file_raised (e : event) : Prop :=
  match e with EIsFile _ None => True | _ => False end.

(** The command of an event that runs [tool] with [run]. *)
Definition tool_run (tool : string) (e : event) : option (list string) :=
  match e with
  | ERun cmd _ =>
      match head cmd with
      | Some x => if String.eqb x tool then Some cmd else None
      | None => None
      end
  | _ => None
  end.

(** The commands run with [tool] in a trace, in order. *)
Definition tool_runs (tool : string) (t : trace) : list (list string) :=
  omap (tool_run tool) t.

(** The manifest of a source file: [out_root/stem/dash/manifest.mpd]. *)
Definition manifest_of `{PathOps} (out_root src : path) : path :=
  path_div (path_div (path_div out_root (path_stem src)) "dash") "manifest.mpd".

(** [cmd] is a command of the packaging tool behind [packager] that writes
    [manifest], with segments of [seg_dur] seconds. *)
Definition packaging_cmd (packager : string) (seg_dur : Z) (manifest : path)
    (cmd : list string) : Prop :=
  exists entries,
    if String.eqb packager "shaka" then
      cmd = ["packager"] ++ entries
            ++ ["--segment_duration"; str_int seg_dur;
                "--generate_static_mpd";
                "--mpd_output"; manifest]
    else
      cmd = ["MP4Box";
             "-dash"; str_int (seg_dur * 1000);
             "-rap"; "-frag"; str_int (seg_dur * 1000);
             "-profile"; "live";
             "-segment-name"; "$RepresentationID$/";
             "-segment-ext"; "m4s";
             "-init-segment-ext"; "mp4";
             "-no-frags-default";
             "-out"; manifest] ++ entries.

(** What the processing of a file does apart from packaging: probes,
    folders, console lines, tests for a file, and runs of [ffmpeg]. *)
Definition encode_event (e : event) : Prop :=
  match e with
  | EWhich _ _ | EIsFile _ _ | EGlob _ _ _ => False
  | ERun cmd _ => head cmd = Some "ffmpeg"
  | _ => True
  end.

(** A computation that tests no entry of a listing and runs [tool] at most
    once: once, with a command that satisfies [R], whenever it returns. *)
Definition runs_once {A : Type} (tool : string) (R : list string -> Prop)
    (m : M A) : Prop :=
  forall w t, exists new,
    (m w t).2 = t ++ new /\
    regular_files new = [] /\
    ((tool_runs tool new = [] /\ forall a, (m w t).1 <> Ok a) \/
     (exists cmd, tool_runs tool new = [cmd] /\ R cmd)).

(** The commands run with [tool] match, in order, an initial segment of
    [files], and all of [files] when the computation returned. *)
Definition one_run_each {A : Type} (R : path -> list string -> Prop)
    (files : list path) (cmds : list (list string)) (r : result A) : Prop :=
  (length cmds <= length files)%nat /\
  Forall2 R (take (length cmds) files) cmds /\
  ((exists a, r = Ok a) -> length cmds = length files).

(** A computation that tests no entry of a listing and runs [tool] once
    for each of [files], in order. *)
Definition runs_each {A : Type} (tool : string)
    (R : path -> list string -> Prop) (files : list path) (m : M A) : Prop :=
  forall w t, exists new,
    (m w t).2 = t ++ new /\
    regular_files new = [] /\
    one_run_each R files (tool_runs tool new) (m w t).1.

(** A computation that runs [tool] once for each of the regular files it
    found, in ascending order of their paths. *)
Definition packages_files {A : Type} (tool : string)
    (R : path -> list string -> Prop) (m : M A) : Prop :=
  forall w t, exists new,
    (m w t).2 = t ++ new /\
    one_run_each R (sorted (regular_files new)) (tool_runs tool new) (m w t).1.

(** The text after the last [=] of a string; [None] when it has none. *)
Fixpoint after_last_eq (s : string) : option string :=
  match s with
  | EmptyString => None
  | String c r =>
      match after_last_eq r with
      | Some x => Some x
      | None => if Ascii.eqb c "=" then Some r else None
      end
  end.

(** The representation id an entry [file#kind:id=name] of MP4Box assigns:
    what follows its last [=]. *)
Definition rep_id (entry : string) : string :=
  default entry (after_last_eq entry).

(** * Properties *)

(** ** Ladder selection *)

Lemma ladder_guard_spec (H C h : Z) :
  ladder_guard H C h = true <-> qualifies H C h.
Proof.
  unfold ladder_guard, qualifies.
  rewrite andb_true_iff, orb_true_iff, Z.leb_le, Z.leb_le, Z.eqb_eq.
  split; intros [Hh Hc]; split; auto.
  - intros Hne. destruct Hc; [contradiction | assumption].
  - destruct (Z.eq_dec C 0); [left | right]; auto.
Qed.

Lemma filter_strictly_descending (f : Z -> bool) (l : list Z) :
  strictly_descending l -> strictly_descending (List.filter f l).
Proof.
  unfold strictly_descending.
  induction 1 as [| x l Hs IH Hx]; simpl; [constructor |].
  destruct (f x); [| exact IH].
  constructor; [exact IH |].
  rewrite List.Forall_forall in *. intros y Hy.
  apply List.filter_In in Hy. apply Hx, Hy.
Qed.

Lemma filter_is_sublist {A : Type} (f : A -> bool) (l : list A) :
  sublist (List.filter f l) l.
Proof.
  induction l as [| x l IH]; simpl; [constructor |].
  destruct (f x); [apply sublist_skip | apply sublist_cons]; exact IH.
Qed.

Lemma DEFAULT_LADDER_descending : strictly_descending DEFAULT_LADDER.
Proof.
  unfold strictly_descending, DEFAULT_LADDER.
  repeat (constructor; [| repeat constructor; lia]). constructor.
Qed.

(** The two branches of [ladder]. *)
Lemma ladder_cases (H C : Z) :
  let kept := List.filter (ladder_guard H C) DEFAULT_LADDER in
  (kept <> [] /\ ladder H C = kept) \/ (kept = [] /\ ladder H C = [H]).
Proof.
  cbv zeta. unfold ladder.
  destruct (List.filter (ladder_guard H C) DEFAULT_LADDER) eqn:E.
  - right. split; reflexivity.
  - left. split; [discriminate | reflexivity].
Qed.

(** C1, as the code has it: the canonical heights are filtered to those at
    most the source height and, when the cap is not zero, at most the cap;
    the order of the canonical list is kept, so the ladder is strictly
    descending; when no canonical height qualifies the ladder is the source
    height alone. *)
Theorem ladder_filters_canonical (H C : Z) :
  strictly_descending (ladder H C) /\
  ((exists h, In h DEFAULT_LADDER /\ qualifies H C h) ->
     sublist (ladder H C) DEFAULT_LADDER /\
     (forall h, In h (ladder H C) <-> In h DEFAULT_LADDER /\ qualifies H C h)) /\
  ((forall h, In h DEFAULT_LADDER -> ~ qualifies H C h) -> ladder H C = [H]).
Proof.
  destruct (ladder_cases H C) as [[Hne ->] | [Hnil ->]]; cbv zeta in *.
  - split; [| split].
    + apply filter_strictly_descending, DEFAULT_LADDER_descending.
    + intros _. split; [apply filter_is_sublist |].
      intros h. rewrite List.filter_In, ladder_guard_spec. reflexivity.
    + intros Hnone. exfalso. apply Hne.
      destruct (List.filter (ladder_guard H C) DEFAULT_LADDER) as [| x l] eqn:E;
        [reflexivity |].
      assert (Hx : In x (List.filter (ladder_guard H C) DEFAULT_LADDER))
        by (rewrite E; left; reflexivity).
      apply List.filter_In in Hx. destruct Hx as [Hin Hg].
      apply ladder_guard_spec in Hg. destruct (Hnone x Hin Hg).
  - split; [| split].
    + repeat constructor.
    + intros [h [Hin Hq]]. exfalso.
      assert (Hx : In h (List.filter (ladder_guard H C) DEFAULT_LADDER)).
      { apply List.filter_In. split; [exact Hin |]. apply ladder_guard_spec, Hq. }
      rewrite Hnil in Hx. destruct Hx.
    + reflexivity.
Qed.

(** For a cap that is not negative the code and the specification's
    wording agree. *)
Lemma ladder_agrees_nonneg_cap (H C : Z) :
  0 <= C -> ladder H C = selectLadder_spec H C.
Proof.
  intros HC. unfold ladder, selectLadder_spec.
  replace (List.filter (ladder_guard H C) DEFAULT_LADDER)
    with (List.filter (fun h => (h <=? H) && (if 0 <? C then h <=? C else true))
                      DEFAULT_LADDER); [reflexivity |].
  apply List.filter_ext. intros h. unfold ladder_guard. f_equal.
  destruct (Z.ltb_spec 0 C), (Z.eqb_spec C 0); simpl; try reflexivity; lia.
Qed.

(** C1 as stated fails for a negative cap: the specification's wording
    ignores the cap there, the code applies it. *)
Lemma ladder_negative_cap_differs :
  ladder 1080 (-1) = [1080] /\
  selectLadder_spec 1080 (-1) = [1080; 720; 480] /\
  ladder 1080 (-1) <> selectLadder_spec 1080 (-1).
Proof. repeat split. discriminate. Qed.

Lemma ladder_guard_negative_cap (H C h : Z) :
  C < 0 -> 0 < h -> ladder_guard H C h = false.
Proof.
  intros HC Hh. unfold ladder_guard.
  destruct (Z.eqb_spec C 0); [lia |].
  destruct (Z.leb_spec h C); [lia |].
  apply andb_false_r.
Qed.

(** C9: a strictly negative cap excludes every canonical height, and the
    ladder is the source height alone. *)
Theorem ladder_negative_cap (H C : Z) : C < 0 -> ladder H C = [H].
Proof.
  intros HC. unfold ladder, DEFAULT_LADDER. simpl.
  rewrite !(ladder_guard_negative_cap H C) by lia. reflexivity.
Qed.

Lemma ladder_negative_cap_witness : -1 < 0 /\ ladder 1080 (-1) = [1080].
Proof. split; [lia | apply (ladder_negative_cap 1080 (-1)); lia]. Defined.

(** The ladder is never empty. *)
Lemma ladder_nonempty (H C : Z) : ladder H C <> [].
Proof.
  destruct (ladder_cases H C) as [[Hne ->] | [_ ->]]; [exact Hne | discriminate].
Qed.

(** Scenarios A and B of the specification. *)
Example ladder_scenario_A : ladder 1080 0 = [1080; 720; 480].
Proof. reflexivity. Qed.

Example ladder_scenario_B : ladder 360 0 = [360].
Proof. reflexivity. Qed.

(** ** Codec parameter tables *)

Lemma H264_PARAMS_keys (h : Z) :
  is_Some (H264_PARAMS !! h) <-> In h DEFAULT_LADDER.
Proof.
  split.
  - intros [p Hp]. unfold H264_PARAMS in Hp.
    apply elem_of_list_to_map_2 in Hp.
    apply list_elem_of_In in Hp. simpl in Hp. unfold DEFAULT_LADDER. simpl.
    intuition congruence.
  - unfold DEFAULT_LADDER. simpl.
    intros [<- | [<- | [<- | [<- | [<- | []]]]]]; vm_compute; eauto.
Qed.

Lemma H264_PARAMS_unknown (h : Z) :
  ~ In h DEFAULT_LADDER -> H264_PARAMS !! h = None.
Proof.
  intros Hh. destruct (H264_PARAMS !! h) eqn:E; [| reflexivity].
  exfalso. apply Hh, H264_PARAMS_keys. eauto.
Qed.

Lemma AV1_CRF_unknown (h : Z) :
  ~ In h DEFAULT_LADDER -> AV1_CRF !! h = None.
Proof.
  intros Hh. unfold AV1_CRF. apply not_elem_of_list_to_map_1.
  rewrite list_elem_of_In. exact Hh.
Qed.

Lemma dict_get_known {V : Type} (d : gmap Z V) (k : Z) (v dflt : V) :
  d !! k = Some v -> dict_get d k dflt = v.
Proof. unfold dict_get. intros ->. reflexivity. Qed.

Lemma dict_get_unknown {V : Type} (d : gmap Z V) (k : Z) (dflt : V) :
  d !! k = None -> dict_get d k dflt = dflt.
Proof. unfold dict_get. intros ->. reflexivity. Qed.

(** The canonical heights keep their own rows. *)
Example H264_PARAMS_1080 (dflt : h264_params) :
  dict_get H264_PARAMS 1080 dflt = mk_h264 "5000k" "5350k" "10000k" 20.
Proof. apply dict_get_known. reflexivity. Qed.

Example H264_PARAMS_480 (dflt : h264_params) :
  dict_get H264_PARAMS 480 dflt = mk_h264 "1400k" "1498k" "2800k" 22.
Proof. apply dict_get_known. reflexivity. Qed.

Section EncoderArguments.
Context `{PathOps}.

(** A canonical height is encoded with its own row of the table. *)
Lemma h264_known_height (outdir : path) (gop : Z) (preset : string)
    (h : Z) (label : string) :
  In h DEFAULT_LADDER ->
  exists p, H264_PARAMS !! h = Some p /\
    h264_rung_args outdir gop preset h label =
      ["-map"; "[" +:+ label +:+ "]";
       "-c:v"; "libx264"; "-preset"; preset; "-pix_fmt"; "yuv420p";
       "-crf"; str_int (crf p); "-profile:v"; "high";
       "-g"; str_int gop; "-keyint_min"; str_int gop; "-sc_threshold"; "0";
       "-b:v"; br p; "-maxrate"; maxrate p; "-bufsize"; bufsize p;
       "-movflags"; "+faststart";
       path_div outdir ("h264_" +:+ str_int h +:+ ".mp4")].
Proof.
  intros Hh. apply H264_PARAMS_keys in Hh. destruct Hh as [p Hp].
  exists p. split; [exact Hp |].
  unfold h264_rung_args. rewrite (dict_get_known _ _ _ _ Hp). reflexivity.
Qed.
End EncoderArguments.

(** ** AV1: one CRF table for both back-ends *)

Section Av1Arguments.
Context `{PathOps}.

(** Every rung of the AV1 command line is one of those argument groups, in
    the order of the ladder. *)
Lemma encode_av1_args_rungs (src outdir : path) (heights : list Z) (gop : Z)
    (encoder : string) (cpu_used : Z) :
  encode_av1_args src outdir heights gop encoder cpu_used =
    ["ffmpeg"; "-y"; "-i"; src; "-filter_complex"; (build_filter heights "t").1]
    ++ concat (zip_with (av1_rung_args outdir gop encoder cpu_used)
                        heights (build_filter heights "t").2).
Proof. unfold encode_av1_args. destruct (build_filter heights "t"). reflexivity. Qed.

End Av1Arguments.

(** The canonical rows of the AV1 table. *)
Example AV1_CRF_rows :
  (fun h => dict_get AV1_CRF h 32) <$> DEFAULT_LADDER = [30; 31; 32; 33; 34].
Proof. reflexivity. Qed.

(** ** The filter graph *)

Lemma out_labels_imap (labels : list string) (p : string) (l : list Z)
    (g : nat -> nat) :
  (scale_of labels p <$> imap (fun i x => (g i, x)) l).*2
  = (fun h => p +:+ str_int h) <$> l.
Proof.
  revert g. induction l as [| x l IH]; intros g; [reflexivity |].
  simpl. f_equal. apply (IH (g ∘ S)).
Qed.

Lemma build_filter_out_labels (heights : list Z) (p : string) :
  (build_filter heights p).2 = (fun h => p +:+ str_int h) <$> heights.
Proof. unfold build_filter, enumerate. simpl. apply (out_labels_imap _ _ _ id). Qed.





(** The graph of the H.264 ladder of scenario A. *)
Example build_filter_scenario_A :
  build_filter [1080; 720; 480] "s" =
    ("[0:v]split=3[s0][s1][s2];[s0]scale=-2:1080:flags=bicubic[s1080];"
     +:+ "[s1]scale=-2:720:flags=bicubic[s720];[s2]scale=-2:480:flags=bicubic[s480];",
     ["s1080"; "s720"; "s480"]).
Proof. vm_compute. reflexivity. Qed.

(** ** The rungs of a command line *)

Section RungWiring.
Context `{PathOps}.

(** Each height of the ladder gets one rung, wired to the output label the
    graph gave it. *)
Lemma zip_with_out_labels {B : Type} (f : Z -> string -> B) (heights : list Z)
    (p : string) :
  zip_with f heights (build_filter heights p).2
  = (fun h => f h (p +:+ str_int h)) <$> heights.
Proof.
  rewrite build_filter_out_labels.
  induction heights as [| h l IH]; simpl; [reflexivity |]. f_equal. exact IH.
Qed.

Lemma encode_av1_args_per_height (src outdir : path) (heights : list Z) (gop : Z)
    (encoder : string) (cpu_used : Z) :
  encode_av1_args src outdir heights gop encoder cpu_used =
    ["ffmpeg"; "-y"; "-i"; src; "-filter_complex"; (build_filter heights "t").1]
    ++ concat ((fun h => av1_rung_args outdir gop encoder cpu_used h
                           ("t" +:+ str_int h)) <$> heights).
Proof. rewrite encode_av1_args_rungs, zip_with_out_labels. reflexivity. Qed.

Lemma encode_h264_args_per_height (src outdir : path) (heights : list Z) (gop : Z)
    (preset : string) :
  encode_h264_args src outdir heights gop preset =
    ["ffmpeg"; "-y"; "-i"; src; "-filter_complex"; (build_filter heights "s").1]
    ++ concat ((fun h => h264_rung_args outdir gop preset h
                           ("s" +:+ str_int h)) <$> heights).
Proof.
  unfold encode_h264_args.
  pose proof (zip_with_out_labels (h264_rung_args outdir gop preset) heights "s") as Hz.
  destruct (build_filter heights "s") as [filt labels]. simpl in Hz.
  rewrite Hz. reflexivity.
Qed.
End RungWiring.

(** ** The keyframe interval *)

(** [div_half_even] is rounding to the nearest integer, ties to even. *)
Lemma div_half_even_nearest (n d : Z) :
  0 < d ->
  2 * Z.abs (div_half_even n d * d - n) <= d /\
  (2 * Z.abs (div_half_even n d * d - n) = d ->
   Z.even (div_half_even n d) = true).
Proof.
  intros Hd. unfold div_half_even.
  pose proof (Z.div_mod n d ltac:(lia)) as Hdm.
  pose proof (Z.mod_pos_bound n d Hd) as Hm.
  destruct (Z.compare_spec (2 * (n mod d)) d) as [He | Hl | Hg].
  - destruct (Z.even (n / d)) eqn:Hev.
    + split; [nia | intros _; exact Hev].
    + split; [nia |]. intros _.
      rewrite Z.even_add, Hev. reflexivity.
  - split; [nia | nia].
  - split; [nia | nia].
Qed.

(** [round] of a finite double is the integer nearest to its value, ties to
    even; the value of [S754_finite s m e] is [m * 2^e], negated when [s]. *)
Lemma py_round_finite (s : bool) (m : positive) (e : Z) :
  exists r, py_round (S754_finite s m e) = Ok (if s then - r else r) /\
    (0 <= e -> r = Z.pos m * 2 ^ e) /\
    (e < 0 ->
       2 * Z.abs (r * 2 ^ (- e) - Z.pos m) <= 2 ^ (- e) /\
       (2 * Z.abs (r * 2 ^ (- e) - Z.pos m) = 2 ^ (- e) -> Z.even r = true)).
Proof.
  unfold py_round, round_scaled. destruct (Z.leb_spec 0 e) as [He | He].
  - eexists. split; [reflexivity |]. split; [reflexivity | lia].
  - eexists. split; [reflexivity |]. split; [lia |]. intros _.
    apply div_half_even_nearest. apply Z.pow_pos_nonneg; lia.
Qed.

Lemma py_round_total (x : spec_float) :
  is_finite x = true -> exists r, py_round x = Ok r.
Proof.
  destruct x as [s | s | | s m e]; simpl; try discriminate; intros _; eauto.
Qed.

(** The literal [23.976] denotes the double nearest to that decimal: the
    error of [f23_976] is at most half a unit in the last place. *)
Lemma f23_976_nearest :
  f23_976 = S754_finite false 6748644041614688 (-48) /\
  2 * Z.abs (1000 * 6748644041614688 - 23976 * 2 ^ 48) <= 1000.
Proof. split; [reflexivity | vm_compute; discriminate]. Qed.

(** *** Exact operations on doubles

    Dividing a double by 1.0 and doubling it are exact: no rounding takes
    place (doubling overflows at the top of the range). *)

Lemma bounded_facts (m : positive) (e : Z) :
  bounded prec emax m e = true ->
  let d := Z.pos (digits2_pos m) in
  1 <= d /\ e <= 971 /\
  ((e = -1074 /\ d <= 53) \/ (-1074 < e /\ d = 53)).
Proof.
  unfold bounded, canonical_mantissa, fexp, emin, prec, emax.
  rewrite andb_true_iff, Z.eqb_eq, Z.leb_le. intros [Hc He]. cbv zeta.
  split; [lia |]. split; [lia |]. lia.
Qed.

Lemma div_eucl_shiftl (m : positive) (k : Z) :
  52 <= k ->
  Z.div_eucl (Z.shiftl (Z.pos m) k) 4503599627370496 = (Z.pos m * 2 ^ (k - 52), 0).
Proof.
  intros Hk. rewrite Z.shiftl_mul_pow2 by lia.
  replace (2 ^ k) with (2 ^ (k - 52) * 4503599627370496).
  2:{ change 4503599627370496 with (2 ^ 52). rewrite <- Z.pow_add_r by lia.
      f_equal. lia. }
  rewrite Z.mul_assoc.
  pose proof (Z.div_mul (Z.pos m * 2 ^ (k - 52)) 4503599627370496 ltac:(lia)) as Hq.
  pose proof (Z.mod_mul (Z.pos m * 2 ^ (k - 52)) 4503599627370496 ltac:(lia)) as Hr.
  unfold Z.div, Z.modulo in Hq, Hr.
  destruct (Z.div_eucl _ _) as [q r]. simpl in Hq, Hr. congruence.
Qed.

Lemma div_core_one (m : positive) (e : Z) :
  bounded prec emax m e = true ->
  SFdiv_core_binary prec emax (Z.pos m) e (Z.pos 4503599627370496) (-52)
  = if e =? -1074 then (Z.pos m, e, loc_Exact) else (Z.pos m~0, e - 1, loc_Exact).
Proof.
  intros Hb. apply bounded_facts in Hb. cbv zeta in Hb.
  destruct Hb as [Hd [He Hcase]].
  unfold SFdiv_core_binary.
  change (Zdigits2 (Z.pos m)) with (Z.pos (digits2_pos m)).
  change (Zdigits2 (Z.pos 4503599627370496)) with 53.
  unfold fexp, emin, prec, emax.
  destruct Hcase as [[-> Hd53] | [He' Hd53]].
  - replace (Z.min _ _) with (-1074) by lia.
    change (-1074 - -52 - -1074) with 52.
    cbv iota beta.
    rewrite (div_eucl_shiftl m 52) by lia. 
    change (2 ^ (52 - 52)) with 1. rewrite Z.mul_1_r. reflexivity.
  - rewrite Hd53. replace (Z.min _ _) with (e - 1) by lia.
    replace (e - -52 - (e - 1)) with 53 by lia.
    cbv iota beta.
    rewrite (div_eucl_shiftl m 53) by lia.
    change (2 ^ (53 - 52)) with 2.
    destruct (Z.eqb_spec e (-1074)); [lia |].
    replace (Z.pos m * 2) with (Z.pos m~0) by lia. reflexivity.
Qed.

Lemma round_aux_exact (s : bool) (m : positive) (e : Z) :
  bounded prec emax m e = true ->
  binary_round_aux prec emax s (Z.pos m) e loc_Exact = S754_finite s m e.
Proof.
  intros Hb. pose proof (bounded_facts m e Hb) as Hf. cbv zeta in Hf.
  destruct Hf as [Hd [He Hcase]].
  unfold binary_round_aux.
  assert (Hshr : shr_fexp prec emax (Z.pos m) e loc_Exact
                 = ({| shr_m := Z.pos m; shr_r := false; shr_s := false |}, e)).
  { unfold shr_fexp. change (Zdigits2 (Z.pos m)) with (Z.pos (digits2_pos m)).
    unfold fexp, emin, prec, emax.
    replace (Z.max _ _ - e) with 0 by lia. reflexivity. }
  rewrite Hshr. simpl. rewrite Hshr. simpl.
  unfold emax, prec. destruct (Z.leb_spec e (1024 - 53)); [reflexivity | lia].
Qed.

Lemma round_aux_double (s : bool) (m : positive) (e : Z) :
  bounded prec emax m e = true -> -1074 < e ->
  binary_round_aux prec emax s (Z.pos m~0) (e - 1) loc_Exact = S754_finite s m e.
Proof.
  intros Hb Hlt. pose proof (bounded_facts m e Hb) as Hf. cbv zeta in Hf.
  destruct Hf as [Hd [He Hcase]].
  assert (Hd53 : Z.pos (digits2_pos m) = 53) by lia.
  unfold binary_round_aux.
  assert (Hshr1 : shr_fexp prec emax (Z.pos m~0) (e - 1) loc_Exact
                 = ({| shr_m := Z.pos m; shr_r := false; shr_s := false |}, e)).
  { unfold shr_fexp.
    change (Zdigits2 (Z.pos m~0)) with (Z.pos (Pos.succ (digits2_pos m))).
    rewrite Pos2Z.inj_succ, Hd53.
    unfold fexp, emin, prec, emax.
    replace (Z.max _ _ - (e - 1)) with 1 by lia. simpl. f_equal. lia. }
  assert (Hshr : shr_fexp prec emax (Z.pos m) e loc_Exact
                 = ({| shr_m := Z.pos m; shr_r := false; shr_s := false |}, e)).
  { unfold shr_fexp. change (Zdigits2 (Z.pos m)) with (Z.pos (digits2_pos m)).
    unfold fexp, emin, prec, emax.
    replace (Z.max _ _ - e) with 0 by lia. reflexivity. }
  rewrite Hshr1. simpl. rewrite Hshr. simpl.
  unfold emax, prec. destruct (Z.leb_spec e (1024 - 53)); [reflexivity | lia].
Qed.

Lemma fdiv_one_exact (x : spec_float) :
  valid_binary prec emax x = true -> fdiv x f1 = x.
Proof.
  destruct x as [s | s | | s m e]; intros Hv.
  - destruct s; reflexivity.
  - destruct s; reflexivity.
  - reflexivity.
  - change (valid_binary prec emax (S754_finite s m e))
      with (bounded prec emax m e) in Hv.
    change f1 with (S754_finite false 4503599627370496 (-52)).
    unfold fdiv, SFdiv. rewrite (div_core_one m e Hv).
    rewrite xorb_false_r.
    destruct (Z.eqb_spec e (-1074)).
    + apply round_aux_exact, Hv.
    + apply round_aux_double; [exact Hv |].
      apply bounded_facts in Hv. cbv zeta in Hv. lia.
Qed.

Lemma mul_pow52 (m : positive) : (m * 4503599627370496)%positive = Pos.iter xO m 52.
Proof. rewrite Pos.mul_comm. reflexivity. Qed.

Lemma digits_shl52 (m : positive) :
  Z.pos (digits2_pos (Pos.iter xO m 52)) = Z.pos (digits2_pos m) + 52.
Proof.
  change (digits2_pos (Pos.iter xO m 52))
    with (Pos.iter Pos.succ (digits2_pos m) 52).
  generalize (digits2_pos m). intros d.
  cbv [Pos.iter]. lia.
Qed.

Lemma fmul_two_exact (s : bool) (m : positive) (e : Z) :
  bounded prec emax m e = true ->
  fmul (S754_finite s m e) (float_of_Z 2) =
    if Z.pos (digits2_pos m) <? 53 then S754_finite s m~0 e
    else if e <? 971 then S754_finite s m (e + 1)
    else S754_infinity s.
Proof.
  intros Hb. pose proof (bounded_facts m e Hb) as Hf. cbv zeta in Hf.
  destruct Hf as [Hd [He Hcase]].
  change (float_of_Z 2) with (S754_finite false 4503599627370496 (-51)).
  unfold fmul, SFmul. rewrite xorb_false_r, mul_pow52.
  unfold binary_round_aux.
  destruct (Z.ltb_spec (Z.pos (digits2_pos m)) 53) as [Hsub | Hnorm].
  - assert (e = -1074) as -> by lia.
    assert (Hshr1 : shr_fexp prec emax (Z.pos (Pos.iter xO m 52)) (-1074 + -51) loc_Exact
                 = ({| shr_m := Z.pos m~0; shr_r := false; shr_s := false |}, -1074)).
    { unfold shr_fexp.
      change (Zdigits2 (Z.pos (Pos.iter xO m 52)))
        with (Z.pos (digits2_pos (Pos.iter xO m 52))).
      rewrite digits_shl52. unfold fexp, emin, prec, emax.
      replace (Z.max _ _ - (-1074 + -51)) with 51 by lia. reflexivity. }
    rewrite Hshr1.
    assert (Hshr2 : shr_fexp prec emax (Z.pos m~0) (-1074) loc_Exact
                 = ({| shr_m := Z.pos m~0; shr_r := false; shr_s := false |}, -1074)).
    { unfold shr_fexp.
      change (Zdigits2 (Z.pos m~0)) with (Z.pos (Pos.succ (digits2_pos m))).
      rewrite Pos2Z.inj_succ. unfold fexp, emin, prec, emax.
      replace (Z.max _ _ - -1074) with 0 by lia. reflexivity. }
    cbn [shr_m loc_of_shr_record round_nearest_even]. rewrite Hshr2.
    reflexivity.
  - assert (Hd53 : Z.pos (digits2_pos m) = 53) by lia.
    assert (Hshr1 : shr_fexp prec emax (Z.pos (Pos.iter xO m 52)) (e + -51) loc_Exact
                 = ({| shr_m := Z.pos m; shr_r := false; shr_s := false |}, e + 1)).
    { unfold shr_fexp.
      change (Zdigits2 (Z.pos (Pos.iter xO m 52)))
        with (Z.pos (digits2_pos (Pos.iter xO m 52))).
      rewrite digits_shl52, Hd53. unfold fexp, emin, prec, emax.
      replace (Z.max _ _ - (e + -51)) with 52 by lia.
      unfold shr. f_equal; first [reflexivity | lia]. }
    rewrite Hshr1.
    assert (Hshr2 : shr_fexp prec emax (Z.pos m) (e + 1) loc_Exact
                 = ({| shr_m := Z.pos m; shr_r := false; shr_s := false |}, e + 1)).
    { unfold shr_fexp.
      change (Zdigits2 (Z.pos m)) with (Z.pos (digits2_pos m)).
      rewrite Hd53. unfold fexp, emin, prec, emax.
      replace (Z.max _ _ - (e + 1)) with 0 by lia. reflexivity. }
    cbn [shr_m loc_of_shr_record round_nearest_even]. rewrite Hshr2.
    cbn [shr_m]. unfold emax, prec.
    destruct (Z.leb_spec (e + 1) (1024 - 53)), (Z.ltb_spec e 971);
      try reflexivity; lia.
Qed.

(** Rounding sees the value only: [2n * 2^e] and [n * 2^(e+1)] round
    alike. *)
Lemma round_scaled_double (n e : Z) :
  round_scaled (2 * n) e = round_scaled n (e + 1).
Proof.
  unfold round_scaled.
  destruct (Z.leb_spec 0 e) as [He | He].
  - destruct (Z.leb_spec 0 (e + 1)); [| lia].
    rewrite Z.pow_add_r by lia. change (2 ^ 1) with 2. lia.
  - destruct (Z.leb_spec 0 (e + 1)) as [He1 | He1].
    + assert (e = -1) as -> by lia. change (2 ^ (- -1)) with 2.
      change (2 ^ (-1 + 1)) with 1. unfold div_half_even.
      replace (2 * n) with (n * 2) by lia.
      rewrite Z.div_mul, Z.mod_mul by lia. simpl. lia.
    + replace (- e) with (1 + - (e + 1)) by lia.
      rewrite Z.pow_add_r by lia. change (2 ^ 1) with 2.
      assert (HD : 0 < 2 ^ (- (e + 1))) by (apply Z.pow_pos_nonneg; lia).
      set (D := 2 ^ (- (e + 1))) in *.
      unfold div_half_even.
      rewrite Z.div_mul_cancel_l by lia.
      rewrite Z.mul_mod_distr_l by lia.
      destruct (Z.compare_spec (2 * (2 * (n mod D))) (2 * D)),
               (Z.compare_spec (2 * (n mod D)) D); try reflexivity; lia.
Qed.

(** The keyframe interval of a finite double below the overflow of the
    doubling: the integer nearest to exactly twice its value, or 1. *)
Lemma gop_finite (s : bool) (m : positive) (e : Z) :
  bounded prec emax m e = true -> e < 971 ->
  gop (S754_finite s m e) =
    Ok (Z.max 1 (if s then - round_scaled (2 * Z.pos m) e
                 else round_scaled (2 * Z.pos m) e)).
Proof.
  intros Hb He. unfold gop. rewrite (fmul_two_exact s m e Hb).
  destruct (Z.ltb_spec (Z.pos (digits2_pos m)) 53).
  - reflexivity.
  - destruct (Z.ltb_spec e 971); [| lia].
    unfold py_round. rewrite round_scaled_double. reflexivity.
Qed.

(** C2: the keyframe interval is [max(1, round(fps*2))]: it is 48 at
    23.976 and 1 at 0; it is defined whenever [fps*2] is a finite double; for
    a finite frame rate below the overflow of the doubling it is the integer
    nearest to exactly twice the rate (ties to even), or 1 if that is
    smaller; and whenever it is defined it is at least 1. *)
Theorem gop_at_least_one :
  gop f23_976 = Ok 48 /\
  gop (S754_zero false) = Ok 1 /\
  (forall fps, is_finite (fmul fps (float_of_Z 2)) = true ->
     exists r, py_round (fmul fps (float_of_Z 2)) = Ok r /\
               gop fps = Ok (Z.max 1 r)) /\
  (forall s m e, bounded prec emax m e = true -> e < 971 ->
     gop (S754_finite s m e) =
       Ok (Z.max 1 (if s then - round_scaled (2 * Z.pos m) e
                    else round_scaled (2 * Z.pos m) e))) /\
  (forall fps g, gop fps = Ok g -> 1 <= g).
Proof.
  split; [reflexivity |]. split; [reflexivity |]. split; [| split].
  - intros fps Hfin. destruct (py_round_total _ Hfin) as [r Hr].
    exists r. split; [exact Hr |]. unfold gop. rewrite Hr. reflexivity.
  - exact gop_finite.
  - intros fps g. unfold gop.
    destruct (py_round (fmul fps (float_of_Z 2))) as [r | e]; [| discriminate].
    intros [= <-]. lia.
Qed.

(** Common frame rates. *)
Example gop_25 : gop f25 = Ok 50.
Proof. reflexivity. Qed.

Example gop_ntsc :
  gop (fdiv (float_of_Z 30000) (float_of_Z 1001)) = Ok 60.
Proof. reflexivity. Qed.

(** Ties go to the even integer: 0.25 doubles to 0.5, which rounds to 0, and
    the interval is 1; 0.75 doubles to 1.5, which rounds to 2. *)
Example gop_quarter : gop (fdiv (float_of_Z 1) (float_of_Z 4)) = Ok 1.
Proof. reflexivity. Qed.

Example gop_three_quarters : gop (fdiv (float_of_Z 3) (float_of_Z 4)) = Ok 2.
Proof. reflexivity. Qed.

(** A frame rate that is not a number has no keyframe interval: [round]
    raises. *)
Example gop_nan : gop S754_nan = Raise ValueError.
Proof. reflexivity. Qed.

(** ** Computations *)

Lemma bind_eq {A B : Type} (m : M A) (f : A -> M B) (w : world) (t : trace) :
  (m ≫= f) w t =
  match m w t with
  | (Ok a, t') => f a w t'
  | (Raise e, t') => (Raise e, t')
  end.
Proof. reflexivity. Qed.

Lemma bind_ok {A B : Type} (m : M A) (f : A -> M B) w t a t' :
  m w t = (Ok a, t') -> (m ≫= f) w t = f a w t'.
Proof. intros Hm. rewrite bind_eq, Hm. reflexivity. Qed.

Lemma bind_raise {A B : Type} (m : M A) (f : A -> M B) w t e t' :
  m w t = (Raise e, t') -> (m ≫= f) w t = (Raise e, t').
Proof. intros Hm. rewrite bind_eq, Hm. reflexivity. Qed.

Lemma try_except_ok {A : Type} (body handler : M A) w t a t' :
  body w t = (Ok a, t') -> try_except body handler w t = (Ok a, t').
Proof. intros Hb. unfold try_except. rewrite Hb. reflexivity. Qed.

Lemma try_except_caught {A : Type} (body handler : M A) w t e t' :
  body w t = (Raise e, t') -> is_Exception e = true ->
  try_except body handler w t = handler w t'.
Proof. intros Hb He. unfold try_except. rewrite Hb, He. reflexivity. Qed.

Lemma raises_Exceptions_bind {A B : Type} (m : M A) (f : A -> M B) :
  raises_Exceptions m -> (forall a, raises_Exceptions (f a)) ->
  raises_Exceptions (m ≫= f).
Proof.
  intros Hm Hf w t e t'. rewrite bind_eq.
  destruct (m w t) as [[a | e0] t0] eqn:E.
  - apply Hf.
  - intros [= <- <-]. eapply Hm, E.
Qed.

Lemma raises_Exceptions_ret {A : Type} (a : A) : raises_Exceptions (mret a).
Proof. intros w t e t'. discriminate. Qed.

Lemma raises_Exceptions_raise {A : Type} (e : exn) :
  is_Exception e = true -> raises_Exceptions (raise (A := A) e).
Proof. intros He w t e' t'. intros [= <- <-]. exact He. Qed.

Lemma raises_Exceptions_capture (check : bool) (cmd : list string) :
  raises_Exceptions (subprocess_capture check cmd).
Proof.
  intros w t e t'. unfold subprocess_capture.
  destruct (w_capture w t cmd) as [| | ok out]; [intros [= <- <-]; reflexivity .. |].
  destruct (check && negb ok); intros [= <- <-]. reflexivity.
Qed.

Lemma raises_Exceptions_truediv (x y : spec_float) :
  raises_Exceptions (lift (truediv x y)).
Proof.
  intros w t e t'. unfold lift, truediv.
  destruct (is_zero y); intros [= <- <-]. reflexivity.
Qed.

Section Prober.
Context `{PathOps} `{PyParse}.

Lemma ffprobe_value_eq (src : path) (entries : list string) (sel : string)
    (w : world) (t : trace) :
  ffprobe_value src entries sel w t =
  (match w_capture w t (ffprobe_cmd src entries sel) with
   | CaptureFailed => Raise OSError
   | CaptureUndecodable => Raise ValueError
   | Captured false _ => Raise CalledProcessError
   | Captured true out =>
       Ok (strip <$> List.filter (fun x => negb (String.eqb (strip x) ""))
                                 (splitlines (strip out)))
   end,
   t ++ [ECapture (ffprobe_cmd src entries sel)
                  (w_capture w t (ffprobe_cmd src entries sel))]).
Proof.
  unfold ffprobe_value. rewrite bind_eq. unfold subprocess_capture.
  fold (ffprobe_cmd src entries sel).
  destruct (w_capture w t (ffprobe_cmd src entries sel)) as [| | [|] out];
    reflexivity.
Qed.

(** The query raises exactly when the probe failed. *)
Lemma ffprobe_value_raises (src : path) (entries : list string)
    (sel : string) (w : world) (t : trace) :
  probe_failed (w_capture w t (ffprobe_cmd src entries sel)) <->
  exists e t', ffprobe_value src entries sel w t = (Raise e, t').
Proof.
  rewrite ffprobe_value_eq.
  destruct (w_capture w t (ffprobe_cmd src entries sel)) as [| | [|] out];
    simpl; split; intros Hx; eauto; try contradiction.
  destruct Hx as [e [t' Heq]]. discriminate.
Qed.

Lemma raises_Exceptions_ffprobe_value src entries sel :
  raises_Exceptions (ffprobe_value src entries sel).
Proof.
  apply raises_Exceptions_bind; [apply raises_Exceptions_capture |].
  intros out. apply raises_Exceptions_ret.
Qed.

Lemma raises_Exceptions_first_of vals : raises_Exceptions (first_of vals).
Proof.
  destruct vals; [apply raises_Exceptions_raise; reflexivity
                 | apply raises_Exceptions_ret].
Qed.

Lemma raises_Exceptions_int_of s : raises_Exceptions (int_of s).
Proof.
  unfold int_of. destruct (py_int s);
    [apply raises_Exceptions_ret | apply raises_Exceptions_raise; reflexivity].
Qed.

Lemma raises_Exceptions_float_of s : raises_Exceptions (float_of s).
Proof.
  unfold float_of. destruct (py_float s);
    [apply raises_Exceptions_ret | apply raises_Exceptions_raise; reflexivity].
Qed.

Lemma raises_Exceptions_height_body src :
  raises_Exceptions (get_src_height_body src).
Proof.
  apply raises_Exceptions_bind; [apply raises_Exceptions_ffprobe_value |].
  intros vals. apply raises_Exceptions_bind; [apply raises_Exceptions_first_of |].
  intros v. apply raises_Exceptions_int_of.
Qed.

Lemma raises_Exceptions_fps_body src :
  raises_Exceptions (get_avg_fps_body src).
Proof.
  apply raises_Exceptions_bind; [apply raises_Exceptions_ffprobe_value |].
  intros vals. apply raises_Exceptions_bind; [apply raises_Exceptions_first_of |].
  intros frac. destruct (has_char "/" frac); [| apply raises_Exceptions_float_of].
  destruct (split_on "/" frac) as [| num [| den [| x l]]];
    try (apply raises_Exceptions_raise; reflexivity).
  apply raises_Exceptions_bind; [apply raises_Exceptions_float_of |].
  intros d. apply raises_Exceptions_bind.
  { destruct (float_ne_0 d);
      [apply raises_Exceptions_float_of | apply raises_Exceptions_ret]. }
  intros den'. apply raises_Exceptions_bind; [apply raises_Exceptions_float_of |].
  intros n. apply raises_Exceptions_truediv.
Qed.

Lemma raises_Exceptions_audio_body src :
  raises_Exceptions (has_audio_body src).
Proof.
  apply raises_Exceptions_bind; [apply raises_Exceptions_ffprobe_value |].
  intros vals. apply raises_Exceptions_ret.
Qed.

(** A [try] whose body raises only [Exception]s and whose handler returns
    a constant never raises. *)
Lemma try_except_default {A : Type} (body : M A) (dflt : A) w t :
  raises_Exceptions body ->
  (exists a t', body w t = (Ok a, t') /\
                try_except body (mret dflt) w t = (Ok a, t')) \/
  (exists e t', body w t = (Raise e, t') /\
                try_except body (mret dflt) w t = (Ok dflt, t')).
Proof.
  intros Hb. destruct (body w t) as [[a | e] t'] eqn:E.
  - left. exists a, t'. split; [reflexivity |]. apply try_except_ok, E.
  - right. exists e, t'. split; [reflexivity |].
    rewrite (try_except_caught _ _ _ _ _ _ E (Hb _ _ _ _ E)). reflexivity.
Qed.
End Prober.

(** ** The prober *)

(** The default frame rate is 25.0. *)
Lemma f25_value : f25 = S754_finite false (25 * 2 ^ 48) (-48).
Proof. reflexivity. Qed.

Section ProberDefaults.
Context `{PathOps} `{PyParse}.

Lemma get_src_height_total (src : path) (w : world) (t : trace) :
  (exists h t', get_src_height_body src w t = (Ok h, t') /\
                get_src_height src w t = (Ok h, t')) \/
  (exists e t', get_src_height_body src w t = (Raise e, t') /\
                get_src_height src w t = (Ok 1080, t')).
Proof. apply try_except_default, raises_Exceptions_height_body. Qed.

Lemma get_avg_fps_total (src : path) (w : world) (t : trace) :
  (exists x t', get_avg_fps_body src w t = (Ok x, t') /\
                get_avg_fps src w t = (Ok x, t')) \/
  (exists e t', get_avg_fps_body src w t = (Raise e, t') /\
                get_avg_fps src w t = (Ok f25, t')).
Proof. apply try_except_default, raises_Exceptions_fps_body. Qed.

Lemma has_audio_total (src : path) (w : world) (t : trace) :
  (exists b t', has_audio_body src w t = (Ok b, t') /\
                has_audio src w t = (Ok b, t')) \/
  (exists e t', has_audio_body src w t = (Raise e, t') /\
                has_audio src w t = (Ok false, t')).
Proof. apply try_except_default, raises_Exceptions_audio_body. Qed.

(** A failed query makes each body raise, after the one probe event. *)
Lemma probe_failed_body_raises {A : Type} (src : path)
    (entries : list string) (sel : string) (k : list string -> M A)
    (w : world) (t : trace) :
  probe_failed (w_capture w t (ffprobe_cmd src entries sel)) ->
  exists e,
    (ffprobe_value src entries sel ≫= k) w t =
    (Raise e, t ++ [ECapture (ffprobe_cmd src entries sel)
                      (w_capture w t (ffprobe_cmd src entries sel))]).
Proof.
  intros Hf. rewrite bind_eq, ffprobe_value_eq.
  destruct (w_capture w t (ffprobe_cmd src entries sel)) as [| | [|] out];
    simpl in Hf; try contradiction; eauto.
Qed.

(** C5: when a probe query fails the prober answers with the defaults,
    height 1080, frame rate 25.0, no audio, after the one probe event; the
    same holds when the body of the [try] raises for any other reason
    (no line of output, a line that does not parse); and none of the three
    functions ever raises. *)
Theorem probe_failure_defaults (src : path) (w : world) (t : trace) :
  let failed entries sel :=
    probe_failed (w_capture w t (ffprobe_cmd src entries sel)) in
  let after entries sel :=
    t ++ [ECapture (ffprobe_cmd src entries sel)
                   (w_capture w t (ffprobe_cmd src entries sel))] in
  (failed ["stream=height"] "v:0" ->
     get_src_height src w t = (Ok 1080, after ["stream=height"] "v:0")) /\
  (failed ["stream=avg_frame_rate"] "v:0" ->
     get_avg_fps src w t = (Ok f25, after ["stream=avg_frame_rate"] "v:0")) /\
  (failed ["stream=index"] "a" ->
     has_audio src w t = (Ok false, after ["stream=index"] "a")) /\
  (forall e t', get_src_height_body src w t = (Raise e, t') ->
     get_src_height src w t = (Ok 1080, t')) /\
  (forall e t', get_avg_fps_body src w t = (Raise e, t') ->
     get_avg_fps src w t = (Ok f25, t')) /\
  (forall e t', has_audio_body src w t = (Raise e, t') ->
     has_audio src w t = (Ok false, t')) /\
  (exists h t', get_src_height src w t = (Ok h, t')) /\
  (exists x t', get_avg_fps src w t = (Ok x, t')) /\
  (exists b t', has_audio src w t = (Ok b, t')).
Proof.
  cbv zeta.
  assert (Hh : forall e t', get_src_height_body src w t = (Raise e, t') ->
               get_src_height src w t = (Ok 1080, t')).
  { intros e t' Hb.
    destruct (get_src_height_total src w t) as [[h [t1 [Hb1 _]]] | [e1 [t1 [Hb1 Hr]]]];
      rewrite Hb in Hb1; [discriminate |].
    injection Hb1 as _ <-. exact Hr. }
  assert (Hf : forall e t', get_avg_fps_body src w t = (Raise e, t') ->
               get_avg_fps src w t = (Ok f25, t')).
  { intros e t' Hb.
    destruct (get_avg_fps_total src w t) as [[h [t1 [Hb1 _]]] | [e1 [t1 [Hb1 Hr]]]];
      rewrite Hb in Hb1; [discriminate |].
    injection Hb1 as _ <-. exact Hr. }
  assert (Ha : forall e t', has_audio_body src w t = (Raise e, t') ->
               has_audio src w t = (Ok false, t')).
  { intros e t' Hb.
    destruct (has_audio_total src w t) as [[h [t1 [Hb1 _]]] | [e1 [t1 [Hb1 Hr]]]];
      rewrite Hb in Hb1; [discriminate |].
    injection Hb1 as _ <-. exact Hr. }
  repeat split; try assumption.
  - intros Hp.
    assert (exists e, get_src_height_body src w t =
              (Raise e, t ++ [ECapture (ffprobe_cmd src ["stream=height"] "v:0")
                 (w_capture w t (ffprobe_cmd src ["stream=height"] "v:0"))]))
      as [e He]
      by (unfold get_src_height_body; apply probe_failed_body_raises, Hp).
    apply (Hh e), He.
  - intros Hp.
    assert (exists e, get_avg_fps_body src w t =
              (Raise e, t ++ [ECapture (ffprobe_cmd src ["stream=avg_frame_rate"] "v:0")
                 (w_capture w t (ffprobe_cmd src ["stream=avg_frame_rate"] "v:0"))]))
      as [e He]
      by (unfold get_avg_fps_body; apply probe_failed_body_raises, Hp).
    apply (Hf e), He.
  - intros Hp.
    assert (exists e, has_audio_body src w t =
              (Raise e, t ++ [ECapture (ffprobe_cmd src ["stream=index"] "a")
                 (w_capture w t (ffprobe_cmd src ["stream=index"] "a"))]))
      as [e He]
      by (unfold has_audio_body; apply probe_failed_body_raises, Hp).
    apply (Ha e), He.
  - destruct (get_src_height_total src w t) as [[h [t1 [_ Hr]]] | [e1 [t1 [_ Hr]]]];
      eauto.
  - destruct (get_avg_fps_total src w t) as [[h [t1 [_ Hr]]] | [e1 [t1 [_ Hr]]]];
      eauto.
  - destruct (has_audio_total src w t) as [[h [t1 [_ Hr]]] | [e1 [t1 [_ Hr]]]];
      eauto.
Qed.
End ProberDefaults.

(** A probe that cannot be run, and a probe that prints nothing. *)
Example probe_defaults_no_probe :
  (@get_src_height decimal_parsers "a.mp4" no_probe_world []).1 = Ok 1080 /\
  (@get_avg_fps decimal_parsers "a.mp4" no_probe_world []).1 = Ok f25 /\
  (has_audio "a.mp4" no_probe_world []).1 = Ok false.
Proof. repeat split. Qed.

Example probe_defaults_empty_output :
  (@get_src_height decimal_parsers "a.mp4" (plain_world "" []) []).1 = Ok 1080 /\
  (@get_avg_fps decimal_parsers "a.mp4" (plain_world "" []) []).1 = Ok f25 /\
  (has_audio "a.mp4" (plain_world "" []) []).1 = Ok false.
Proof. repeat split. Qed.

(** ** Frame-rate fractions *)

Lemma has_char_append (c : ascii) (a b : string) :
  has_char c (a +:+ b) = has_char c a || has_char c b.
Proof.
  induction a as [| d a IH]; simpl; [reflexivity |].
  rewrite IH. apply orb_assoc.
Qed.

Lemma split_on_no_sep (c : ascii) (s : string) :
  has_char c s = false -> split_on c s = [s].
Proof.
  induction s as [| d s IH]; simpl; [reflexivity |].
  intros Hs. apply orb_false_elim in Hs. destruct Hs as [Hd Hs].
  rewrite Hd, (IH Hs). reflexivity.
Qed.

Lemma split_on_fraction (c : ascii) (num den : string) :
  has_char c num = false -> has_char c den = false ->
  split_on c (num +:+ String c den) = [num; den].
Proof.
  intros Hn Hd. induction num as [| d num IH]; simpl.
  - rewrite Ascii.eqb_refl, (split_on_no_sep _ _ Hd). reflexivity.
  - simpl in Hn. apply orb_false_elim in Hn. destruct Hn as [Hdc Hn].
    rewrite Hdc, (IH Hn). reflexivity.
Qed.

Lemma float_ne_0_zero (z : spec_float) : is_zero z = true -> float_ne_0 z = false.
Proof. destruct z; simpl; try discriminate. reflexivity. Qed.

Lemma truediv_one (x : spec_float) : truediv x f1 = Ok (fdiv x f1).
Proof. reflexivity. Qed.

Section FrameRate.
Context `{PyParse}.

(** C10: when the probe prints a fraction whose denominator parses to
    zero, as in [N/0], the body of the [try] returns normally: the
    denominator is replaced by 1.0, no division by zero is raised, and the
    frame rate is [float(N)], not the value of the handler. *)
Theorem avg_fps_zero_denominator (src : path) (w : world) (t t' : trace)
    (num den : string) (rest : list string) (x z : spec_float) :
  ffprobe_value src ["stream=avg_frame_rate"] "v:0" w t
    = (Ok ((num +:+ "/" +:+ den) :: rest), t') ->
  has_char "/" num = false -> has_char "/" den = false ->
  py_float num = Some x -> valid_binary prec emax x = true ->
  py_float den = Some z -> is_zero z = true ->
  get_avg_fps_body src w t = (Ok x, t') /\
  get_avg_fps src w t = (Ok x, t') /\
  truediv x f1 = Ok x.
Proof.
  intros Hprobe Hnum Hden Hx Hvalid Hz Hzero.
  assert (Hdiv : truediv x f1 = Ok x)
    by (rewrite truediv_one, (fdiv_one_exact x Hvalid); reflexivity).
  assert (Hbody : get_avg_fps_body src w t = (Ok x, t')).
  { unfold get_avg_fps_body. rewrite (bind_ok _ _ _ _ _ _ Hprobe).
    unfold first_of. rewrite bind_eq. unfold mret at 1, M_ret at 1.
    change ("/" +:+ den) with (String "/" den).
    rewrite has_char_append. simpl has_char.
    rewrite orb_true_r.
    rewrite (split_on_fraction "/" num den Hnum Hden).
    unfold float_of. rewrite Hz, Hx.
    rewrite bind_eq. unfold mret at 1, M_ret at 1.
    rewrite (float_ne_0_zero z Hzero).
    rewrite bind_eq. unfold mret at 1, M_ret at 1.
    rewrite bind_eq. unfold mret at 1, M_ret at 1.
    unfold lift. rewrite Hdiv. reflexivity. }
  split; [exact Hbody |]. split; [| exact Hdiv].
  apply try_except_ok, Hbody.
Qed.
End FrameRate.

Lemma avg_fps_zero_denominator_witness :
  @get_avg_fps decimal_parsers "a.mp4"
     (plain_world ("30/0" +:+ String (chr 10) "") []) []
  = (Ok (float_of_Z 30),
     [ECapture (ffprobe_cmd "a.mp4" ["stream=avg_frame_rate"] "v:0")
               (Captured true ("30/0" +:+ String (chr 10) ""))]).
Proof.
  refine (proj1 (proj2
    (@avg_fps_zero_denominator decimal_parsers "a.mp4"
       (plain_world ("30/0" +:+ String (chr 10) "") []) [] _
       "30" "0" [] (float_of_Z 30) (S754_zero false) _ _ _ _ _ _ _)));
    reflexivity.
Defined.

(** Without the guard the division would raise. *)
Example truediv_by_zero (x : spec_float) :
  truediv x (S754_zero false) = Raise ZeroDivisionError.
Proof. reflexivity. Qed.

(** A fraction with a denominator that is not zero is divided. *)
Example avg_fps_ntsc :
  (@get_avg_fps decimal_parsers "a.mp4"
     (plain_world ("30000/1001" +:+ String (chr 10) "") []) []).1
  = Ok (fdiv (float_of_Z 30000) (float_of_Z 1001)).
Proof. reflexivity. Qed.

(** ** Audio extraction *)

Section Audio.
Context `{PathOps} `{PyParse}.

(** What [has_audio] answers: whether the probe printed a stream index. *)
Lemma has_audio_eq (src : path) (w : world) (t : trace) :
  has_audio src w t =
  (Ok (match w_capture w t (ffprobe_cmd src ["stream=index"] "a") with
       | Captured true out =>
           (0 <? length (strip <$> List.filter
                           (fun x => negb (String.eqb (strip x) ""))
                           (splitlines (strip out))))%nat
       | _ => false
       end),
   t ++ [ECapture (ffprobe_cmd src ["stream=index"] "a")
                  (w_capture w t (ffprobe_cmd src ["stream=index"] "a"))]).
Proof.
  unfold has_audio, try_except, has_audio_body.
  rewrite bind_eq, ffprobe_value_eq.
  destruct (w_capture w t (ffprobe_cmd src ["stream=index"] "a")) as [| | [|] out];
    reflexivity.
Qed.

Lemma run_eq (cmd : list string) (w : world) (t : trace) :
  run cmd w t =
  (match w_run w (t ++ [EPrint (">> " +:+ join " " cmd)]) cmd with
   | RunFailed => Raise OSError
   | Exited true => Ok tt
   | Exited false => Raise CalledProcessError
   end,
   (t ++ [EPrint (">> " +:+ join " " cmd)])
     ++ [ERun cmd (w_run w (t ++ [EPrint (">> " +:+ join " " cmd)]) cmd)]).
Proof. reflexivity. Qed.

(** C6: audio extraction returns no track, and runs nothing, exactly when
    [has_audio] reports no audio stream; otherwise it creates the folder of
    the output and runs one encode, AAC at the configured bitrate with two
    channels, and returns the path of the output when that encode
    succeeds. *)
Theorem extract_audio_iff_audio (src out_m4a : path) (aac_bitrate : string)
    (w : world) (t : trace) :
  exists (audio : bool) (t1 : trace),
    has_audio src w t = (Ok audio, t1) /\
    (audio = false ->
       extract_audio src out_m4a aac_bitrate w t = (Ok None, t1)) /\
    (audio = true ->
       exists (made : bool) (o : run_outcome),
         let cmd := ["ffmpeg"; "-y"; "-i"; src; "-vn"; "-c:a"; "aac";
                     "-b:a"; aac_bitrate; "-ac"; "2"; out_m4a] in
         let t2 := t1 ++ [EMkdir (path_parent out_m4a) made] in
         let t3 := t2 ++ [EPrint (">> " +:+ join " " cmd)] in
         made = w_mkdir w t1 (path_parent out_m4a) /\
         o = w_run w t3 cmd /\
         extract_audio src out_m4a aac_bitrate w t =
           if made then
             (match o with
              | Exited true => Ok (Some out_m4a)
              | Exited false => Raise CalledProcessError
              | RunFailed => Raise OSError
              end, t3 ++ [ERun cmd o])
           else (Raise OSError, t2)) /\
    ((extract_audio src out_m4a aac_bitrate w t).1 = Ok None <-> audio = false).
Proof.
  rewrite has_audio_eq. eexists _, _. split; [reflexivity |].
  set (audio := match w_capture w t (ffprobe_cmd src ["stream=index"] "a") with
                | Captured true out => _
                | _ => false
                end).
  set (t1 := t ++ [ECapture (ffprobe_cmd src ["stream=index"] "a")
                     (w_capture w t (ffprobe_cmd src ["stream=index"] "a"))]).
  assert (Hno : audio = false ->
            extract_audio src out_m4a aac_bitrate w t = (Ok None, t1)).
  { intros Ha. unfold extract_audio. rewrite bind_eq, has_audio_eq.
    fold audio. rewrite Ha. reflexivity. }
  assert (Hyes : audio = true ->
            extract_audio src out_m4a aac_bitrate w t =
              if w_mkdir w t1 (path_parent out_m4a) then
                (match w_run w ((t1 ++ [EMkdir (path_parent out_m4a) true])
                          ++ [EPrint (">> " +:+ join " "
                                (extract_audio_cmd src out_m4a aac_bitrate))])
                         (extract_audio_cmd src out_m4a aac_bitrate) with
                 | Exited true => Ok (Some out_m4a)
                 | Exited false => Raise CalledProcessError
                 | RunFailed => Raise OSError
                 end,
                 ((t1 ++ [EMkdir (path_parent out_m4a) true])
                    ++ [EPrint (">> " +:+ join " "
                          (extract_audio_cmd src out_m4a aac_bitrate))])
                   ++ [ERun (extract_audio_cmd src out_m4a aac_bitrate)
                         (w_run w ((t1 ++ [EMkdir (path_parent out_m4a) true])
                            ++ [EPrint (">> " +:+ join " "
                                  (extract_audio_cmd src out_m4a aac_bitrate))])
                            (extract_audio_cmd src out_m4a aac_bitrate))])
              else (Raise OSError, t1 ++ [EMkdir (path_parent out_m4a) false])).
  { intros Ha. unfold extract_audio. rewrite bind_eq, has_audio_eq.
    fold audio t1. rewrite Ha. cbn [negb].
    rewrite bind_eq. unfold ensure_dir, mkdir.
    destruct (w_mkdir w t1 (path_parent out_m4a)); [| reflexivity].
    rewrite bind_eq, run_eq.
    destruct (w_run _ _ _) as [| [|]]; reflexivity. }
  split; [exact Hno |]. split.
  - intros Ha. exists (w_mkdir w t1 (path_parent out_m4a)).
    eexists. cbv zeta. split; [reflexivity |]. split; [reflexivity |].
    rewrite (Hyes Ha). unfold extract_audio_cmd.
    destruct (w_mkdir w t1 (path_parent out_m4a)); reflexivity.
  - split.
    + intros Hnone. destruct audio eqn:Ha; [| reflexivity].
      rewrite (Hyes eq_refl) in Hnone.
      destruct (w_mkdir w t1 (path_parent out_m4a)); [| discriminate].
      simpl in Hnone. destruct (w_run _ _ _) as [| [|]]; discriminate.
    + intros Ha. rewrite (Hno Ha). reflexivity.
Qed.
End Audio.

(** Scenario C: a source without audio gives no track and runs nothing
    after the probe; a source with audio gives one. *)
Example extract_audio_none :
  @extract_audio posix_paths
     "a.mp4" "temp/a/audio/audio.m4a" "192k" (plain_world "" []) []
  = (Ok None,
     [ECapture (ffprobe_cmd "a.mp4" ["stream=index"] "a") (Captured true "")]).
Proof. reflexivity. Qed.

Example extract_audio_some :
  (@extract_audio posix_paths
     "a.mp4" "temp/a/audio/audio.m4a" "192k"
     (plain_world ("1" +:+ String (chr 10) "") []) []).1
  = Ok (Some "temp/a/audio/audio.m4a").
Proof. reflexivity. Qed.

(** ** The commands of the two encoders *)

Section EncoderCommands.
Context `{PathOps}.

(** Both encoders make the output folder, then echo and run one command. *)
Lemma ensure_dir_run_eq (outdir : path) (cmd : list string) (w : world)
    (t : trace) :
  w_mkdir w t outdir = true ->
  (ensure_dir outdir ;; run cmd) w t =
  (match w_run w (t ++ [EMkdir outdir true; EPrint (">> " +:+ join " " cmd)]) cmd with
   | RunFailed => Raise OSError
   | Exited true => Ok tt
   | Exited false => Raise CalledProcessError
   end,
   t ++ [EMkdir outdir true; EPrint (">> " +:+ join " " cmd);
         ERun cmd
           (w_run w (t ++ [EMkdir outdir true; EPrint (">> " +:+ join " " cmd)])
                  cmd)]).
Proof.
  intros Hmk. rewrite bind_eq. unfold ensure_dir, mkdir. rewrite Hmk.
  cbv beta iota zeta. rewrite run_eq.
  rewrite <- !app_assoc. reflexivity.
Qed.

(** C4: the look-up of the H.264 parameters never fails.  In the command
    [encode_h264] builds and runs, the rung of a height that is not in the
    canonical table carries the fallback values: CRF 21, bitrate 2500k,
    maximum rate 2680k, buffer size 5000k. *)
Theorem h264_unknown_height_fallback (src outdir : path)
    (before after : list Z) (h gop : Z) (preset : string)
    (w : world) (t : trace) :
  ~ In h DEFAULT_LADDER ->
  w_mkdir w t outdir = true ->
  let heights := before ++ h :: after in
  let cmd :=
    ["ffmpeg"; "-y"; "-i"; src; "-filter_complex"; (build_filter heights "s").1]
    ++ concat ((fun x => h264_rung_args outdir gop preset x ("s" +:+ str_int x))
                 <$> before)
    ++ ["-map"; "[s" +:+ str_int h +:+ "]";
        "-c:v"; "libx264"; "-preset"; preset; "-pix_fmt"; "yuv420p";
        "-crf"; "21"; "-profile:v"; "high";
        "-g"; str_int gop; "-keyint_min"; str_int gop; "-sc_threshold"; "0";
        "-b:v"; "2500k"; "-maxrate"; "2680k"; "-bufsize"; "5000k";
        "-movflags"; "+faststart";
        path_div outdir ("h264_" +:+ str_int h +:+ ".mp4")]
    ++ concat ((fun x => h264_rung_args outdir gop preset x ("s" +:+ str_int x))
                 <$> after) in
  H264_PARAMS !! h = None /\
  encode_h264_args src outdir heights gop preset = cmd /\
  encode_h264 src outdir heights gop preset w t =
    (match w_run w (t ++ [EMkdir outdir true; EPrint (">> " +:+ join " " cmd)]) cmd with
     | RunFailed => Raise OSError
     | Exited true => Ok tt
     | Exited false => Raise CalledProcessError
     end,
     t ++ [EMkdir outdir true; EPrint (">> " +:+ join " " cmd);
           ERun cmd
             (w_run w (t ++ [EMkdir outdir true; EPrint (">> " +:+ join " " cmd)])
                    cmd)]).
Proof.
  intros Hh Hmk heights cmd.
  pose proof (H264_PARAMS_unknown h Hh) as Hnone.
  assert (Hcmd : encode_h264_args src outdir heights gop preset = cmd).
  { rewrite encode_h264_args_per_height. unfold cmd, heights.
    rewrite fmap_app, fmap_cons, concat_app, concat_cons.
    unfold h264_rung_args at 2. rewrite (dict_get_unknown _ _ _ Hnone).
    reflexivity. }
  split; [exact Hnone |]. split; [exact Hcmd |].
  unfold encode_h264. rewrite Hcmd. apply ensure_dir_run_eq, Hmk.
Qed.

(** C7: whatever the back-end, the command [encode_av1] builds and runs
    gives each rung, after [-crf], the entry of [AV1_CRF] for its height, 32
    when the height is not canonical.  The two back-ends share the map, the
    pixel format, the keyframe interval, the container flag and the output
    file of a rung; they differ in the codec library and in their speed,
    rate and tiling flags only. *)
Theorem av1_crf_same_table (src outdir : path) (heights : list Z)
    (gop cpu_used : Z) (encoder : string) (w : world) (t : trace) :
  let crf := fun h : Z => str_int (default 32 (AV1_CRF !! h)) in
  let svt_rung := fun h : Z =>
    ["-map"; "[t" +:+ str_int h +:+ "]";
     "-c:v"; "libsvtav1"; "-pix_fmt"; "yuv420p";
     "-crf"; crf h; "-g"; str_int gop;
     "-preset"; "8";
     "-movflags"; "+faststart";
     path_div outdir ("av1_" +:+ str_int h +:+ ".mp4")] in
  let aom_rung := fun h : Z =>
    ["-map"; "[t" +:+ str_int h +:+ "]";
     "-c:v"; "libaom-av1"; "-pix_fmt"; "yuv420p";
     "-crf"; crf h; "-b:v"; "0";
     "-g"; str_int gop; "-row-mt"; "1"; "-cpu-used"; str_int cpu_used;
     "-tile-columns"; "1"; "-tile-rows"; "1";
     "-movflags"; "+faststart";
     path_div outdir ("av1_" +:+ str_int h +:+ ".mp4")] in
  let cmd :=
    ["ffmpeg"; "-y"; "-i"; src; "-filter_complex"; (build_filter heights "t").1]
    ++ concat ((if String.eqb encoder "svt" then svt_rung else aom_rung)
                 <$> heights) in
  encode_av1_args src outdir heights gop encoder cpu_used = cmd /\
  crf <$> DEFAULT_LADDER = ["30"; "31"; "32"; "33"; "34"] /\
  (forall h, ~ In h DEFAULT_LADDER -> crf h = "32") /\
  (w_mkdir w t outdir = true ->
   encode_av1 src outdir heights gop encoder cpu_used w t =
     (match w_run w (t ++ [EMkdir outdir true; EPrint (">> " +:+ join " " cmd)]) cmd with
      | RunFailed => Raise OSError
      | Exited true => Ok tt
      | Exited false => Raise CalledProcessError
      end,
      t ++ [EMkdir outdir true; EPrint (">> " +:+ join " " cmd);
            ERun cmd
              (w_run w (t ++ [EMkdir outdir true; EPrint (">> " +:+ join " " cmd)])
                     cmd)])).
Proof.
  intros crf svt_rung aom_rung cmd.
  assert (Hcmd : encode_av1_args src outdir heights gop encoder cpu_used = cmd).
  { rewrite encode_av1_args_per_height. unfold cmd, av1_rung_args, dict_get.
    destruct (String.eqb encoder "svt"); reflexivity. }
  split; [exact Hcmd |]. split; [reflexivity |]. split.
  - intros h Hh. unfold crf. rewrite (AV1_CRF_unknown h Hh). reflexivity.
  - intros Hmk. unfold encode_av1. rewrite Hcmd. apply ensure_dir_run_eq, Hmk.
Qed.
End EncoderCommands.

Lemma h264_unknown_height_fallback_witness :
  ~ In 360 DEFAULT_LADDER /\
  w_mkdir (plain_world "" []) [] "temp/a/h264" = true /\
  H264_PARAMS !! 360 = None /\
  @encode_h264_args posix_paths "videos/a.mp4" "temp/a/h264" [360] 50 "slow" =
    ["ffmpeg"; "-y"; "-i"; "videos/a.mp4"; "-filter_complex";
     "[0:v]split=1[s0];[s0]scale=-2:360:flags=bicubic[s360];";
     "-map"; "[s360]"; "-c:v"; "libx264"; "-preset"; "slow";
     "-pix_fmt"; "yuv420p"; "-crf"; "21"; "-profile:v"; "high";
     "-g"; "50"; "-keyint_min"; "50"; "-sc_threshold"; "0";
     "-b:v"; "2500k"; "-maxrate"; "2680k"; "-bufsize"; "5000k";
     "-movflags"; "+faststart"; "temp/a/h264/h264_360.mp4"].
Proof.
  assert (Hn : ~ In 360 DEFAULT_LADDER).
  { unfold DEFAULT_LADDER. simpl. intros Hin.
    repeat (destruct Hin as [Hin | Hin]; [discriminate Hin |]). exact Hin. }
  split; [exact Hn |]. split; [reflexivity |].
  destruct (@h264_unknown_height_fallback posix_paths
              "videos/a.mp4" "temp/a/h264" [] [] 360 50 "slow"
              (plain_world "" []) [] Hn eq_refl) as [Hnone [Hcmd _]].
  split; [exact Hnone |].
  etransitivity; [exact Hcmd | vm_compute; reflexivity].
Defined.

(** The AV1 rungs of a source of 1080 lines, with each back-end. *)
Example encode_av1_args_svt :
  @encode_av1_args posix_paths "a.mp4" "t/av1" [1080; 360] 50 "svt" 6 =
    ["ffmpeg"; "-y"; "-i"; "a.mp4"; "-filter_complex";
     "[0:v]split=2[t0][t1];[t0]scale=-2:1080:flags=bicubic[t1080];"
       +:+ "[t1]scale=-2:360:flags=bicubic[t360];";
     "-map"; "[t1080]"; "-c:v"; "libsvtav1"; "-pix_fmt"; "yuv420p";
     "-crf"; "32"; "-g"; "50"; "-preset"; "8"; "-movflags"; "+faststart";
     "t/av1/av1_1080.mp4";
     "-map"; "[t360]"; "-c:v"; "libsvtav1"; "-pix_fmt"; "yuv420p";
     "-crf"; "32"; "-g"; "50"; "-preset"; "8"; "-movflags"; "+faststart";
     "t/av1/av1_360.mp4"].
Proof. vm_compute. reflexivity. Qed.

Example encode_av1_args_aom :
  @encode_av1_args posix_paths "a.mp4" "t/av1" [720] 50 "aom" 6 =
    ["ffmpeg"; "-y"; "-i"; "a.mp4"; "-filter_complex";
     "[0:v]split=1[t0];[t0]scale=-2:720:flags=bicubic[t720];";
     "-map"; "[t720]"; "-c:v"; "libaom-av1"; "-pix_fmt"; "yuv420p";
     "-crf"; "33"; "-b:v"; "0"; "-g"; "50"; "-row-mt"; "1"; "-cpu-used"; "6";
     "-tile-columns"; "1"; "-tile-rows"; "1"; "-movflags"; "+faststart";
     "t/av1/av1_720.mp4"].
Proof. vm_compute. reflexivity. Qed.

(** ** What a computation adds to the trace *)

Lemma emits_weaken {A : Type} (P Q : event -> Prop) (m : M A) :
  (forall e, P e -> Q e) -> emits P m -> emits Q m.
Proof.
  intros HPQ Hm w t. destruct (Hm w t) as [new [Heq Hall]].
  exists new. split; [exact Heq |]. eapply List.Forall_impl; eauto.
Qed.

Lemma emits_ret {A : Type} (P : event -> Prop) (a : A) : emits P (mret a).
Proof. intros w t. exists []. split; [symmetry; apply app_nil_r | constructor]. Qed.

Lemma emits_raise {A : Type} (P : event -> Prop) (e : exn) :
  emits P (raise (A := A) e).
Proof. intros w t. exists []. split; [symmetry; apply app_nil_r | constructor]. Qed.

Lemma emits_lift {A : Type} (P : event -> Prop) (r : result A) : emits P (lift r).
Proof. intros w t. exists []. split; [symmetry; apply app_nil_r | constructor]. Qed.

Lemma emits_bind {A B : Type} (P : event -> Prop) (m : M A) (f : A -> M B) :
  emits P m -> (forall a, emits P (f a)) -> emits P (m ≫= f).
Proof.
  intros Hm Hf w t. rewrite bind_eq.
  destruct (Hm w t) as [new1 [Heq1 Hall1]].
  destruct (m w t) as [[a | e] t1]; simpl in Heq1; subst t1.
  - destruct (Hf a w (t ++ new1)) as [new2 [Heq2 Hall2]].
    exists (new1 ++ new2). rewrite Heq2, app_assoc.
    split; [reflexivity | apply List.Forall_app; split; assumption].
  - exists new1. split; [reflexivity | assumption].
Qed.

Lemma emits_try {A : Type} (P : event -> Prop) (body handler : M A) :
  emits P body -> emits P handler -> emits P (try_except body handler).
Proof.
  intros Hb Hh w t. unfold try_except.
  destruct (Hb w t) as [new1 [Heq1 Hall1]].
  destruct (body w t) as [[a | e] t1]; simpl in Heq1; subst t1.
  - exists new1. split; [reflexivity | assumption].
  - destruct (is_Exception e).
    + destruct (Hh w (t ++ new1)) as [new2 [Heq2 Hall2]].
      exists (new1 ++ new2). rewrite Heq2, app_assoc.
      split; [reflexivity | apply List.Forall_app; split; assumption].
    + exists new1. split; [reflexivity | assumption].
Qed.

Lemma emits_for_each {A : Type} (P : event -> Prop) (l : list A)
    (body : A -> M unit) :
  (forall x, emits P (body x)) -> emits P (for_each l body).
Proof.
  intros Hb. induction l as [| x l IH]; simpl.
  - apply emits_ret.
  - apply emits_bind; [apply Hb | intros _; exact IH].
Qed.

Lemma emits_map_M {A B : Type} (P : event -> Prop) (f : A -> M B) (l : list A) :
  (forall x, emits P (f x)) -> emits P (map_M f l).
Proof.
  intros Hf. induction l as [| x l IH]; simpl.
  - apply emits_ret.
  - apply emits_bind; [apply Hf |]. intros y.
    apply emits_bind; [exact IH |]. intros ys. apply emits_ret.
Qed.

Lemma emits_filter_M {A : Type} (P : event -> Prop) (f : A -> M bool)
    (l : list A) :
  (forall x, emits P (f x)) -> emits P (filter_M f l).
Proof.
  intros Hf. induction l as [| x l IH]; simpl.
  - apply emits_ret.
  - apply emits_bind; [apply Hf |]. intros y.
    apply emits_bind; [exact IH |]. intros ys. apply emits_ret.
Qed.

(** A primitive adds one event. *)
Lemma emits_one {A : Type} (P : event -> Prop) (m : M A) :
  (forall w t, exists e, (m w t).2 = t ++ [e] /\ P e) -> emits P m.
Proof.
  intros Hm w t. destruct (Hm w t) as [e [Heq He]].
  exists [e]. split; [exact Heq | repeat constructor; exact He].
Qed.

Lemma emits_print (P : event -> Prop) (line : string) :
  P (EPrint line) -> emits P (print line).
Proof. intros HP. apply emits_one. intros w t. eexists. split; [reflexivity | exact HP]. Qed.

Lemma emits_mkdir (P : event -> Prop) (p : path) :
  (forall ok, P (EMkdir p ok)) -> emits P (mkdir p).
Proof. intros HP. apply emits_one. intros w t. eexists. split; [reflexivity | apply HP]. Qed.

Lemma emits_exists (P : event -> Prop) (p : path) :
  (forall b, P (EExists p b)) -> emits P (path_exists p).
Proof. intros HP. apply emits_one. intros w t. eexists. split; [reflexivity | apply HP]. Qed.

Lemma emits_is_file (P : event -> Prop) (p : path) :
  (forall b, P (EIsFile p b)) -> emits P (path_is_file p).
Proof. intros HP. apply emits_one. intros w t. eexists. split; [reflexivity | apply HP]. Qed.

Lemma emits_glob (P : event -> Prop) (dir : path) (pattern : string) :
  (forall l, P (EGlob dir pattern l)) -> emits P (path_glob dir pattern).
Proof. intros HP. apply emits_one. intros w t. eexists. split; [reflexivity | apply HP]. Qed.

Lemma emits_capture (P : event -> Prop) (check : bool) (cmd : list string) :
  (forall o, P (ECapture cmd o)) -> emits P (subprocess_capture check cmd).
Proof. intros HP. apply emits_one. intros w t. eexists. split; [reflexivity | apply HP]. Qed.

Lemma emits_run_check (P : event -> Prop) (cmd : list string) :
  (forall o, P (ERun cmd o)) -> emits P (subprocess_run_check cmd).
Proof. intros HP. apply emits_one. intros w t. eexists. split; [reflexivity | apply HP]. Qed.

Lemma quiet_file_event (packager : string) (e : event) :
  quiet_event e -> file_event packager e.
Proof.
  intros [Hw Hr]. split; [exact Hw |]. intros cmd Hc. congruence.
Qed.

Lemma quiet_setup_event (e : event) : quiet_event e -> setup_event e.
Proof. intros [_ Hr]. exact Hr. Qed.

Lemma run_file_event (packager : string) (cmd : list string) (o : run_outcome) :
  head cmd = Some "ffmpeg" \/ head cmd = Some (backend_tool packager) ->
  file_event packager (ERun cmd o).
Proof. intros Hc. split; [reflexivity |]. intros c [= <-]. exact Hc. Qed.

Ltac quiet := split; reflexivity.

Section Traces.
Context `{PathOps} `{PyParse}.

Lemma emits_ffprobe_value src entries sel :
  emits quiet_event (ffprobe_value src entries sel).
Proof.
  apply emits_bind; [apply emits_capture; intros o; quiet |].
  intros out. apply emits_ret.
Qed.

Lemma emits_get_src_height src : emits quiet_event (get_src_height src).
Proof.
  apply emits_try; [| apply emits_ret].
  apply emits_bind; [apply emits_ffprobe_value |]. intros vals.
  apply emits_bind; [destruct vals; [apply emits_raise | apply emits_ret] |].
  intros v. unfold int_of. destruct (py_int v); [apply emits_ret | apply emits_raise].
Qed.

Lemma emits_float_of s : emits quiet_event (float_of s).
Proof.
  unfold float_of. destruct (py_float s); [apply emits_ret | apply emits_raise].
Qed.

Lemma emits_get_avg_fps src : emits quiet_event (get_avg_fps src).
Proof.
  apply emits_try; [| apply emits_ret].
  apply emits_bind; [apply emits_ffprobe_value |]. intros vals.
  apply emits_bind; [destruct vals; [apply emits_raise | apply emits_ret] |].
  intros frac. destruct (has_char "/" frac); [| apply emits_float_of].
  destruct (split_on "/" frac) as [| num [| den [| x l]]]; try apply emits_raise.
  apply emits_bind; [apply emits_float_of |]. intros d.
  apply emits_bind;
    [destruct (float_ne_0 d); [apply emits_float_of | apply emits_ret] |].
  intros den'. apply emits_bind; [apply emits_float_of |].
  intros n. apply emits_lift.
Qed.

Lemma emits_has_audio src : emits quiet_event (has_audio src).
Proof.
  apply emits_try; [| apply emits_ret].
  apply emits_bind; [apply emits_ffprobe_value |]. intros vals. apply emits_ret.
Qed.

Lemma emits_ensure_dir p : emits quiet_event (ensure_dir p).
Proof. apply emits_mkdir. intros ok. quiet. Qed.

(** [run] prints, then runs its command. *)
Lemma emits_run (packager : string) (cmd : list string) :
  head cmd = Some "ffmpeg" \/ head cmd = Some (backend_tool packager) ->
  emits (file_event packager) (run cmd).
Proof.
  intros Hc. apply emits_bind.
  - apply emits_print, quiet_file_event. quiet.
  - intros _. apply emits_run_check. intros o. apply run_file_event, Hc.
Qed.

(** The probes add nothing but their own queries to the trace. *)
Lemma capture_ffprobe_value src entries sel :
  emits is_capture (ffprobe_value src entries sel).
Proof.
  apply emits_bind; [apply emits_capture; intros o; unfold is_capture; eauto |].
  intros out. apply emits_ret.
Qed.

Lemma capture_get_src_height src : emits is_capture (get_src_height src).
Proof.
  apply emits_try; [| apply emits_ret].
  apply emits_bind; [apply capture_ffprobe_value |]. intros vals.
  apply emits_bind; [destruct vals; [apply emits_raise | apply emits_ret] |].
  intros v. unfold int_of. destruct (py_int v); [apply emits_ret | apply emits_raise].
Qed.

Lemma capture_float_of s : emits is_capture (float_of s).
Proof.
  unfold float_of. destruct (py_float s); [apply emits_ret | apply emits_raise].
Qed.

Lemma capture_get_avg_fps src : emits is_capture (get_avg_fps src).
Proof.
  apply emits_try; [| apply emits_ret].
  apply emits_bind; [apply capture_ffprobe_value |]. intros vals.
  apply emits_bind; [destruct vals; [apply emits_raise | apply emits_ret] |].
  intros frac. destruct (has_char "/" frac); [| apply capture_float_of].
  destruct (split_on "/" frac) as [| num [| den [| x l]]]; try apply emits_raise.
  apply emits_bind; [apply capture_float_of |]. intros d.
  apply emits_bind;
    [destruct (float_ne_0 d); [apply capture_float_of | apply emits_ret] |].
  intros den'. apply emits_bind; [apply capture_float_of |].
  intros n. apply emits_lift.
Qed.

Lemma capture_has_audio src : emits is_capture (has_audio src).
Proof.
  apply emits_try; [| apply emits_ret].
  apply emits_bind; [apply capture_ffprobe_value |]. intros vals. apply emits_ret.
Qed.

End Traces.

Section MainTrace.
Context `{PathOps} `{PyParse}.

Lemma emits_encode_h264 packager src outdir heights gop preset :
  emits (file_event packager) (encode_h264 src outdir heights gop preset).
Proof.
  apply emits_bind.
  - eapply emits_weaken; [apply quiet_file_event | apply emits_ensure_dir].
  - intros _. apply emits_run. left.
    unfold encode_h264_args. destruct (build_filter heights "s"). reflexivity.
Qed.

Lemma emits_encode_av1 packager src outdir heights gop encoder cpu_used :
  emits (file_event packager)
        (encode_av1 src outdir heights gop encoder cpu_used).
Proof.
  apply emits_bind.
  - eapply emits_weaken; [apply quiet_file_event | apply emits_ensure_dir].
  - intros _. apply emits_run. left.
    unfold encode_av1_args. destruct (build_filter heights "t"). reflexivity.
Qed.

Lemma emits_extract_audio packager src out_m4a aac_bitrate :
  emits (file_event packager) (extract_audio src out_m4a aac_bitrate).
Proof.
  apply emits_bind.
  - eapply emits_weaken; [apply quiet_file_event | apply emits_has_audio].
  - intros audio. destruct audio; simpl; [| apply emits_ret].
    apply emits_bind.
    + eapply emits_weaken; [apply quiet_file_event | apply emits_ensure_dir].
    + intros _. apply emits_bind; [| intros _; apply emits_ret].
      apply emits_run. left. reflexivity.
Qed.

Lemma emits_package_shaka outdash seg_dur v264_files vav1_files audio_file :
  emits (file_event "shaka")
        (package_shaka outdash seg_dur v264_files vav1_files audio_file).
Proof.
  assert (Hdir : forall p, emits (file_event "shaka") (ensure_dir p)).
  { intros p. eapply emits_weaken; [apply quiet_file_event | apply emits_ensure_dir]. }
  assert (Hvid : forall family hp,
            emits (file_event "shaka") (shaka_video_arg outdash family hp)).
  { intros family hp. apply emits_bind; [apply Hdir | intros _; apply emits_ret]. }
  apply emits_bind; [apply Hdir |]. intros _.
  apply emits_bind; [apply emits_map_M, Hvid |]. intros a264.
  apply emits_bind; [apply emits_map_M, Hvid |]. intros aav1.
  apply emits_bind.
  - unfold shaka_audio_arg. destruct audio_file as [a |]; [| apply emits_ret].
    apply emits_bind.
    + apply emits_exists. intros b. apply quiet_file_event. quiet.
    + intros present. destruct present; [| apply emits_ret].
      apply emits_bind; [apply Hdir | intros _; apply emits_ret].
  - intros aaud. apply emits_run. right. reflexivity.
Qed.

Lemma emits_package_mp4box packager outdash seg_dur v264_files vav1_files
    audio_file :
  String.eqb packager "shaka" = false ->
  emits (file_event packager)
        (package_mp4box outdash seg_dur v264_files vav1_files audio_file).
Proof.
  intros Hp. apply emits_bind.
  - eapply emits_weaken; [apply quiet_file_event | apply emits_ensure_dir].
  - intros _. apply emits_bind.
    + unfold mp4box_audio_arg. destruct audio_file as [a |]; [| apply emits_ret].
      apply emits_bind; [| intros present; apply emits_ret].
      apply emits_exists. intros b. apply quiet_file_event. quiet.
    + intros aaud. apply emits_run. right.
      unfold backend_tool. rewrite Hp. reflexivity.
Qed.

(** Packaging runs the tool of the packager it is given, and no other. *)
Lemma emits_package packager outdash seg_dur v264_files vav1_files audio_file :
  emits (file_event packager)
        (package packager outdash seg_dur v264_files vav1_files audio_file).
Proof.
  unfold package. destruct (String.eqb packager "shaka") eqn:Hp.
  - apply String.eqb_eq in Hp. subst packager. apply emits_package_shaka.
  - apply emits_package_mp4box, Hp.
Qed.

(** The processing of one file looks no tool up and runs [ffmpeg] and the
    packager it was given. *)
Lemma emits_process_file args packager av1_enc out_root work_root src :
  emits (file_event packager)
        (process_file args packager av1_enc out_root work_root src).
Proof.
  assert (Hq : forall A (m : M A), emits quiet_event m ->
                 emits (file_event packager) m).
  { intros A m. apply emits_weaken, quiet_file_event. }
  assert (Hpr : forall line, emits (file_event packager) (print line)).
  { intros line. apply emits_print, quiet_file_event. quiet. }
  unfold process_file.
  apply emits_bind; [apply Hq, emits_get_avg_fps |]. intros fps.
  apply emits_bind; [apply emits_lift |]. intros g.
  apply emits_bind; [apply Hq, emits_get_src_height |]. intros h_src.
  cbv zeta.
  repeat (apply emits_bind; [apply Hq, emits_ensure_dir | intros _]).
  apply emits_bind; [apply Hpr | intros _].
  apply emits_bind; [apply emits_encode_h264 | intros _].
  apply emits_bind.
  { destruct (String.eqb av1_enc "none");
      [apply emits_ret | apply emits_encode_av1]. }
  intros _.
  apply emits_bind; [apply emits_extract_audio |]. intros audio_path.
  apply emits_bind.
  { apply emits_filter_M. intros h. apply emits_exists.
    intros b. apply quiet_file_event. quiet. }
  intros present.
  apply emits_bind; [apply emits_package | intros _]. apply Hpr.
Qed.

Lemma emits_pick_av1_encoder args : emits quiet_event (pick_av1_encoder args).
Proof.
  unfold pick_av1_encoder. destruct (String.eqb (arg_av1_encoder args) "auto");
    [| apply emits_ret].
  apply emits_bind; [| intros encs; apply emits_ret].
  apply emits_capture. intros o. quiet.
Qed.

Lemma emits_collect_files input_dir : emits quiet_event (collect_files input_dir).
Proof.
  apply emits_bind; [apply emits_glob; intros l; quiet |]. intros found.
  apply emits_bind; [| intros files; apply emits_ret].
  apply emits_filter_M. intros p. apply emits_is_file. intros b. quiet.
Qed.
End MainTrace.

(** ** The files of the input folder *)

Lemma insert_sorted_In (x y : path) (l : list path) :
  In y (insert_sorted x l) <-> y = x \/ In y l.
Proof.
  induction l as [| z l IH]; simpl; [intuition |].
  destruct (String.leb x z); simpl; [intuition |].
  rewrite IH. intuition.
Qed.

Lemma sorted_In (y : path) (l : list path) : In y (sorted l) <-> In y l.
Proof.
  unfold sorted. induction l as [| x l IH]; simpl; [reflexivity |].
  rewrite insert_sorted_In, IH. intuition.
Qed.





Lemma regular_files_app (a b : trace) :
  regular_files (a ++ b) = regular_files a ++ regular_files b.
Proof. apply omap_app. Qed.

(** The guard of the comprehension of [main] is tested on the entries in
    turn, until a test raises. *)
Lemma filter_is_file_spec (l : list path) (w : world) (t : trace) :
  exists new,
    (filter_M path_is_file l w t).2 = t ++ new /\
    Forall (fun e => exists f o, e = EIsFile f o /\ In f l) new /\
    match (filter_M path_is_file l w t).1 with
    | Ok kept => kept = regular_files new /\ Forall (fun e => ~ is_file_raised e) new
    | Raise e => e = OSError /\ exists pre f, new = pre ++ [EIsFile f None]
    end.
Proof.
  revert t. induction l as [| x l IH]; intros t.
  - exists []. simpl. rewrite app_nil_r.
    split; [reflexivity |]. split; [constructor |]. split; [reflexivity | constructor].
  - simpl filter_M. rewrite bind_eq.
    assert (Hp : path_is_file x w t
                 = (match w_is_file w t x with
                    | Some b => Ok b
                    | None => Raise OSError
                    end, t ++ [EIsFile x (w_is_file w t x)])) by reflexivity.
    rewrite Hp. clear Hp.
    destruct (w_is_file w t x) as [b |] eqn:Ex; cbv beta iota.
    2:{ exists [EIsFile x None]. cbn [fst snd].
        split; [reflexivity |]. split.
        - constructor; [| constructor].
          exists x, None. split; [reflexivity | left; reflexivity].
        - split; [reflexivity |]. exists [], x. reflexivity. }
    destruct (IH (t ++ [EIsFile x (Some b)])) as [new [Heq [Hall Hres]]].
    exists (EIsFile x (Some b) :: new).
    rewrite bind_eq.
    destruct (filter_M path_is_file l w (t ++ [EIsFile x (Some b)]))
      as [[kept | e] t1] eqn:E; simpl in Heq, Hres; subst t1.
    + unfold mret, M_ret. cbn [fst snd].
      split; [rewrite <- app_assoc; reflexivity |]. split.
      * constructor; [exists x, (Some b); split; [reflexivity | left; reflexivity] |].
        eapply List.Forall_impl; [| exact Hall].
        intros e [f [o [-> Hf]]]. exists f, o. split; [reflexivity | right; exact Hf].
      * destruct Hres as [-> Hno]. split.
        -- destruct b; reflexivity.
        -- constructor; [intros [] | exact Hno].
    + cbn [fst snd].
      split; [rewrite <- app_assoc; reflexivity |]. split.
      * constructor; [exists x, (Some b); split; [reflexivity | left; reflexivity] |].
        eapply List.Forall_impl; [| exact Hall].
        intros e' [f [o [-> Hf]]]. exists f, o. split; [reflexivity | right; exact Hf].
      * destruct Hres as [-> [pre [f ->]]]. split; [reflexivity |].
        exists (EIsFile x (Some b) :: pre), f. reflexivity.
Qed.

(** ** One packager for the whole run *)

Lemma which_count_app (tool : string) (a b : trace) :
  which_count tool (a ++ b) = (which_count tool a + which_count tool b)%nat.
Proof. unfold which_count. rewrite List.filter_app, length_app. reflexivity. Qed.

Section Main.
Context `{PathOps} `{PyParse}.

(** The part of [main] that follows the choice of the packager. *)
Local Abbreviation after_choice args packager :=
  (av1_enc ← pick_av1_encoder args;
   (if String.eqb av1_enc "none" then
      print "!! AV1 encoder not found in ffmpeg (libsvtav1/libaom-av1). Proceeding with H.264 only."
    else mret tt) ;;
   files ← collect_files (Path (arg_input args));
   match files with
   | [] => print ("No .mp4 files found in: " +:+ Path (arg_input args))
   | _ =>
       print ("Found " +:+ str_int (Z.of_nat (length files))
              +:+ " file(s) in: " +:+ Path (arg_input args)) ;;
       for_each files
         (process_file args packager av1_enc
            (Path (arg_out args)) (Path (arg_work args))) ;;
       print (String (chr 10)
         "All set! Server MIME: .mpd=application/dash+xml  .m4s=video/iso.segment")
   end) (only parsing).

(** The tool look-ups of [main], one after the other. *)
Lemma main_eq (args : cli_args) (w : world) :
  main args w [] =
  let b1 := w_which w [] "ffmpeg" in
  let t1 := [EWhich "ffmpeg" b1] in
  if b1 then
    let b2 := w_which w t1 "ffprobe" in
    let t2 := t1 ++ [EWhich "ffprobe" b2] in
    if b2 then
      let b3 := w_which w t2 "packager" in
      let t3 := t2 ++ [EWhich "packager" b3] in
      if b3 then after_choice args "shaka" w t3
      else
        let b4 := w_which w t3 "MP4Box" in
        let t4 := t3 ++ [EWhich "MP4Box" b4] in
        if b4 then after_choice args "mp4box" w t4
        else (Raise (SystemExit
                "Error: need Shaka Packager ('packager') or GPAC ('MP4Box') in PATH."),
              t4)
    else (Raise (SystemExit "Error: ffmpeg and ffprobe are required in PATH."), t2)
  else (Raise (SystemExit "Error: ffmpeg and ffprobe are required in PATH."), t1).
Proof.
  cbv zeta. unfold main. rewrite bind_eq.
  change (have "ffmpeg" w []) with (Ok (w_which w [] "ffmpeg"),
                                    [EWhich "ffmpeg" (w_which w [] "ffmpeg")]).
  cbv beta iota.
  destruct (w_which w [] "ffmpeg"); [| reflexivity].
  rewrite bind_eq.
  change (have "ffprobe" w [EWhich "ffmpeg" true])
    with (Ok (w_which w [EWhich "ffmpeg" true] "ffprobe"),
          [EWhich "ffmpeg" true]
            ++ [EWhich "ffprobe" (w_which w [EWhich "ffmpeg" true] "ffprobe")]).
  cbv beta iota.
  destruct (w_which w [EWhich "ffmpeg" true] "ffprobe"); [| reflexivity].
  cbn [negb]. rewrite bind_eq. unfold pick_packager at 1. rewrite bind_eq.
  change (have "packager" w ([EWhich "ffmpeg" true] ++ [EWhich "ffprobe" true]))
    with (Ok (w_which w ([EWhich "ffmpeg" true] ++ [EWhich "ffprobe" true]) "packager"),
          ([EWhich "ffmpeg" true] ++ [EWhich "ffprobe" true])
            ++ [EWhich "packager"
                  (w_which w ([EWhich "ffmpeg" true] ++ [EWhich "ffprobe" true])
                     "packager")]).
  cbv beta iota.
  destruct (w_which w ([EWhich "ffmpeg" true] ++ [EWhich "ffprobe" true]) "packager");
    [reflexivity |].
  rewrite bind_eq.
  set (t3 := ([EWhich "ffmpeg" true] ++ [EWhich "ffprobe" true])
               ++ [EWhich "packager" false]).
  change (have "MP4Box" w t3)
    with (Ok (w_which w t3 "MP4Box"), t3 ++ [EWhich "MP4Box" (w_which w t3 "MP4Box")]).
  cbv beta iota.
  destruct (w_which w t3 "MP4Box"); reflexivity.
Qed.

Lemma file_event_no_which (packager tool : string) (rest : trace) :
  Forall (file_event packager) rest -> which_count tool rest = 0%nat.
Proof.
  unfold which_count. induction 1 as [| e l [Hw _] _ IH]; [reflexivity |].
  destruct e; simpl in *; try discriminate; exact IH.
Qed.

End Main.

(** ** One packaging run for each source file *)

Lemma tool_runs_app (tool : string) (a b : trace) :
  tool_runs tool (a ++ b) = tool_runs tool a ++ tool_runs tool b.
Proof. apply omap_app. Qed.

(** Apart from packaging nothing runs a packaging tool or tests an entry of
    the listing. *)
Lemma encode_event_silent (tool : string) (l : trace) :
  tool <> "ffmpeg" -> Forall encode_event l ->
  tool_runs tool l = [] /\ regular_files l = [].
Proof.
  intros Ht. induction 1 as [| e l He _ [IH1 IH2]]; [split; reflexivity |].
  unfold tool_runs, regular_files in *.
  destruct e; simpl in *; try contradiction; try (split; assumption).
  rewrite He. destruct (String.eqb "ffmpeg" tool) eqn:E.
  - apply String.eqb_eq in E. congruence.
  - split; assumption.
Qed.

Lemma returns_any {A : Type} (m : M A) : returns (fun _ => True) m.
Proof. intros w t a t' _. exact I. Qed.

Lemma runs_once_after {A B : Type} (tool : string) (R : list string -> Prop)
    (Q : A -> Prop) (m : M A) (f : A -> M B) :
  tool <> "ffmpeg" -> emits encode_event m -> returns Q m ->
  (forall a, Q a -> runs_once tool R (f a)) ->
  runs_once tool R (m ≫= f).
Proof.
  intros Ht Hm Hq Hf w t. rewrite bind_eq.
  destruct (Hm w t) as [n1 [E1 F1]].
  destruct (encode_event_silent tool n1 Ht F1) as [S1 S2].
  destruct (m w t) as [[a | e] t1] eqn:E; simpl in E1; subst t1.
  - destruct (Hf a (Hq _ _ _ _ E) w (t ++ n1)) as [n2 [E2 [G2 C2]]].
    exists (n1 ++ n2). rewrite E2, app_assoc. split; [reflexivity |].
    rewrite regular_files_app, S2, G2. split; [reflexivity |].
    rewrite tool_runs_app, S1. exact C2.
  - exists n1. split; [reflexivity |]. split; [exact S2 |].
    left. split; [exact S1 |]. intros a. discriminate.
Qed.

Lemma runs_once_before {A B : Type} (tool : string) (R : list string -> Prop)
    (m : M A) (f : A -> M B) :
  tool <> "ffmpeg" -> runs_once tool R m ->
  (forall a, emits encode_event (f a)) ->
  runs_once tool R (m ≫= f).
Proof.
  intros Ht Hm Hf w t. rewrite bind_eq.
  destruct (Hm w t) as [n1 [E1 [G1 C1]]].
  destruct (m w t) as [[a | e] t1] eqn:E; simpl in E1, C1; subst t1.
  - destruct (Hf a w (t ++ n1)) as [n2 [E2 F2]].
    destruct (encode_event_silent tool n2 Ht F2) as [S1 S2].
    exists (n1 ++ n2). rewrite E2, app_assoc. split; [reflexivity |].
    rewrite regular_files_app, G1, S2. split; [reflexivity |].
    rewrite tool_runs_app, S1, app_nil_r.
    destruct C1 as [[_ Hno] | Hc]; [exfalso; exact (Hno a eq_refl) | right; exact Hc].
  - exists n1. split; [reflexivity |]. split; [exact G1 |].
    destruct C1 as [[Hn _] | Hc]; [| right; exact Hc].
    left. split; [exact Hn |]. intros a. discriminate.
Qed.

Lemma runs_once_run (tool : string) (R : list string -> Prop) (cmd : list string) :
  head cmd = Some tool -> R cmd -> runs_once tool R (run cmd).
Proof.
  intros Hh HR w t. rewrite run_eq.
  exists [EPrint (">> " +:+ join " " cmd);
          ERun cmd (w_run w (t ++ [EPrint (">> " +:+ join " " cmd)]) cmd)].
  split; [simpl; rewrite <- app_assoc; reflexivity |]. split; [reflexivity |].
  right. exists cmd. split; [| exact HR].
  unfold tool_runs. simpl. rewrite Hh, String.eqb_refl. reflexivity.
Qed.

(** The loop over the files: one packaging run for each file it reaches. *)
Lemma runs_each_for_each (tool : string) (R : path -> list string -> Prop)
    (l : list path) (body : path -> M unit) :
  (forall x, runs_once tool (R x) (body x)) ->
  runs_each tool R l (for_each l body).
Proof.
  intros Hb. induction l as [| x l IH]; intros w t.
  - exists []. simpl. rewrite app_nil_r. split; [reflexivity |].
    split; [reflexivity |]. split; [simpl; lia |]. split; [constructor |].
    reflexivity.
  - simpl for_each. rewrite bind_eq.
    destruct (Hb x w t) as [n1 [E1 [G1 C1]]].
    destruct (body x w t) as [[[] | e] t1] eqn:E; simpl in E1, C1; subst t1.
    + destruct C1 as [[_ Hno] | [cmd [Hc HR]]]; [exfalso; exact (Hno tt eq_refl) |].
      destruct (IH w (t ++ n1)) as [n2 [E2 [G2 [L2 [F2 O2]]]]].
      exists (n1 ++ n2). rewrite E2, app_assoc. split; [reflexivity |].
      rewrite regular_files_app, G1, G2. split; [reflexivity |].
      rewrite tool_runs_app, Hc. simpl.
      split; [simpl; lia |]. split; [constructor; assumption |].
      intros Hok. simpl. f_equal. apply O2, Hok.
    + exists n1. split; [reflexivity |]. split; [exact G1 |].
      destruct C1 as [[Hn _] | [cmd [Hc HR]]].
      * rewrite Hn. split; [simpl; lia |]. split; [constructor |].
        intros [a Ha]. discriminate Ha.
      * rewrite Hc. split; [simpl; lia |].
        split; [simpl; repeat constructor; exact HR |].
        intros [a Ha]. discriminate Ha.
Qed.

Lemma runs_each_nil {A : Type} (tool : string) (R : path -> list string -> Prop)
    (m : M A) :
  tool <> "ffmpeg" -> emits encode_event m -> runs_each tool R [] m.
Proof.
  intros Ht Hm w t. destruct (Hm w t) as [n [E F]].
  destruct (encode_event_silent tool n Ht F) as [S1 S2].
  exists n. split; [exact E |]. split; [exact S2 |]. rewrite S1.
  split; [simpl; lia |]. split; [constructor |]. reflexivity.
Qed.

Lemma runs_each_after {A B : Type} (tool : string)
    (R : path -> list string -> Prop) (files : list path)
    (m : M A) (f : A -> M B) :
  tool <> "ffmpeg" -> emits encode_event m ->
  (forall a, runs_each tool R files (f a)) ->
  runs_each tool R files (m ≫= f).
Proof.
  intros Ht Hm Hf w t. rewrite bind_eq.
  destruct (Hm w t) as [n1 [E1 F1]].
  destruct (encode_event_silent tool n1 Ht F1) as [S1 S2].
  destruct (m w t) as [[a | e] t1] eqn:E; simpl in E1; subst t1.
  - destruct (Hf a w (t ++ n1)) as [n2 [E2 [G2 C2]]].
    exists (n1 ++ n2). rewrite E2, app_assoc. split; [reflexivity |].
    rewrite regular_files_app, S2, G2. split; [reflexivity |].
    rewrite tool_runs_app, S1. exact C2.
  - exists n1. split; [reflexivity |]. split; [exact S2 |]. rewrite S1.
    split; [simpl; lia |]. split; [constructor |].
    intros [a Ha]. discriminate Ha.
Qed.

Lemma runs_each_before {A B : Type} (tool : string)
    (R : path -> list string -> Prop) (files : list path)
    (m : M A) (f : A -> M B) :
  tool <> "ffmpeg" -> runs_each tool R files m ->
  (forall a, emits encode_event (f a)) ->
  runs_each tool R files (m ≫= f).
Proof.
  intros Ht Hm Hf w t. rewrite bind_eq.
  destruct (Hm w t) as [n1 [E1 [G1 [L1 [F1 O1]]]]].
  destruct (m w t) as [[a | e] t1] eqn:E; simpl in E1, O1; subst t1.
  - destruct (Hf a w (t ++ n1)) as [n2 [E2 F2]].
    destruct (encode_event_silent tool n2 Ht F2) as [S1 S2].
    exists (n1 ++ n2). rewrite E2, app_assoc. split; [reflexivity |].
    rewrite regular_files_app, G1, S2. split; [reflexivity |].
    rewrite tool_runs_app, S1, app_nil_r.
    split; [exact L1 |]. split; [exact F1 |]. intros _. apply O1. eauto.
  - exists n1. split; [reflexivity |]. split; [exact G1 |].
    split; [exact L1 |]. split; [exact F1 |]. intros [a Ha]. discriminate Ha.
Qed.

Lemma packages_files_after {A B : Type} (tool : string)
    (R : path -> list string -> Prop) (m : M A) (f : A -> M B) :
  tool <> "ffmpeg" -> emits encode_event m ->
  (forall a, packages_files tool R (f a)) ->
  packages_files tool R (m ≫= f).
Proof.
  intros Ht Hm Hf w t. rewrite bind_eq.
  destruct (Hm w t) as [n1 [E1 F1]].
  destruct (encode_event_silent tool n1 Ht F1) as [S1 S2].
  destruct (m w t) as [[a | e] t1] eqn:E; simpl in E1; subst t1.
  - destruct (Hf a w (t ++ n1)) as [n2 [E2 C2]].
    exists (n1 ++ n2). rewrite E2, app_assoc. split; [reflexivity |].
    rewrite regular_files_app, S2, tool_runs_app, S1. exact C2.
  - exists n1. split; [reflexivity |]. rewrite S1, S2.
    split; [simpl; lia |]. split; [constructor |].
    intros [a Ha]. discriminate Ha.
Qed.

Section Packaging.
Context `{PathOps} `{PyParse}.

(** The listing and the tests of [collect_files], and what it returns. *)
Lemma collect_files_spec (input_dir : path) (w : world) (t : trace) :
  exists tests,
    (collect_files input_dir w t).2
      = t ++ EGlob input_dir "*.mp4" (w_glob w t input_dir "*.mp4") :: tests /\
    (forall tool, tool_runs tool tests = []) /\
    match (collect_files input_dir w t).1 with
    | Ok files => files = sorted (regular_files tests)
    | Raise _ => True
    end.
Proof.
  set (found := w_glob w t input_dir "*.mp4").
  destruct (filter_is_file_spec found w (t ++ [EGlob input_dir "*.mp4" found]))
    as [new [Heq [Hall Hres]]].
  exists new. unfold collect_files. rewrite bind_eq.
  assert (Hg : path_glob input_dir "*.mp4" w t
               = (Ok found, t ++ [EGlob input_dir "*.mp4" found])) by reflexivity.
  rewrite Hg. clear Hg. cbv beta iota. rewrite bind_eq.
  assert (Hno : forall tool, tool_runs tool new = []).
  { intros tool. clear Heq Hres. induction Hall as [| e l [f [o [-> _]]] _ IH];
      [reflexivity | exact IH]. }
  destruct (filter_M path_is_file found w (t ++ [EGlob input_dir "*.mp4" found]))
    as [[kept | e] t1]; simpl in Heq, Hres; subst t1; cbn [fst snd].
  - split; [rewrite <- app_assoc; reflexivity |]. split; [exact Hno |].
    destruct Hres as [-> _]. reflexivity.
  - split; [rewrite <- app_assoc; reflexivity |]. split; [exact Hno | exact I].
Qed.

Lemma packages_files_collect {B : Type} (tool : string)
    (R : path -> list string -> Prop) (input_dir : path)
    (body : list path -> M B) :
  (forall files, runs_each tool R files (body files)) ->
  packages_files tool R (collect_files input_dir ≫= body).
Proof.
  intros Hb w t. rewrite bind_eq.
  destruct (collect_files_spec input_dir w t) as [tests [E1 [S1 Hres]]].
  set (g := EGlob input_dir "*.mp4" (w_glob w t input_dir "*.mp4")) in *.
  destruct (collect_files input_dir w t) as [[files | e] t1];
    simpl in E1, Hres; subst t1.
  - destruct (Hb files w (t ++ g :: tests)) as [n2 [E2 [G2 C2]]].
    exists ((g :: tests) ++ n2). rewrite E2, app_assoc. split; [reflexivity |].
    rewrite regular_files_app, G2, app_nil_r, tool_runs_app.
    change (tool_runs tool (g :: tests)) with (tool_runs tool tests).
    change (regular_files (g :: tests)) with (regular_files tests).
    rewrite S1, <- Hres. exact C2.
  - exists (g :: tests). split; [reflexivity |].
    change (tool_runs tool (g :: tests)) with (tool_runs tool tests).
    rewrite S1. split; [simpl; lia |]. split; [constructor |].
    intros [a Ha]. discriminate Ha.
Qed.

Lemma encode_event_run (cmd : list string) :
  head cmd = Some "ffmpeg" -> emits encode_event (run cmd).
Proof.
  intros Hc. apply emits_bind; [apply emits_print; exact I |].
  intros _. apply emits_run_check. intros o. exact Hc.
Qed.

Lemma encode_event_capture {A : Type} (m : M A) :
  emits is_capture m -> emits encode_event m.
Proof. apply emits_weaken. intros e [cmd [o ->]]. exact I. Qed.

Lemma encode_event_ensure_dir (p : path) : emits encode_event (ensure_dir p).
Proof. apply emits_mkdir. intros ok. exact I. Qed.

Lemma encode_event_print (line : string) : emits encode_event (print line).
Proof. apply emits_print. exact I. Qed.

Lemma encode_event_exists (p : path) : emits encode_event (path_exists p).
Proof. apply emits_exists. intros b. exact I. Qed.

Lemma encode_event_encode_h264 src outdir heights gop preset :
  emits encode_event (encode_h264 src outdir heights gop preset).
Proof.
  apply emits_bind; [apply encode_event_ensure_dir | intros _].
  apply encode_event_run.
  unfold encode_h264_args. destruct (build_filter heights "s"). reflexivity.
Qed.

Lemma encode_event_encode_av1 src outdir heights gop encoder cpu_used :
  emits encode_event (encode_av1 src outdir heights gop encoder cpu_used).
Proof.
  apply emits_bind; [apply encode_event_ensure_dir | intros _].
  apply encode_event_run.
  unfold encode_av1_args. destruct (build_filter heights "t"). reflexivity.
Qed.

Lemma encode_event_extract_audio src out_m4a aac_bitrate :
  emits encode_event (extract_audio src out_m4a aac_bitrate).
Proof.
  apply emits_bind; [apply encode_event_capture, capture_has_audio |].
  intros audio. destruct audio; simpl; [| apply emits_ret].
  apply emits_bind; [apply encode_event_ensure_dir | intros _].
  apply emits_bind; [| intros _; apply emits_ret].
  apply encode_event_run. reflexivity.
Qed.

Lemma encode_event_pick_av1_encoder args :
  emits encode_event (pick_av1_encoder args).
Proof.
  unfold pick_av1_encoder. destruct (String.eqb (arg_av1_encoder args) "auto");
    [| apply emits_ret].
  apply emits_bind; [| intros encs; apply emits_ret].
  apply emits_capture. intros o. exact I.
Qed.

Ltac silent_step Ht :=
  eapply runs_once_after; [exact Ht | | apply returns_any | intros ? _].

Lemma runs_once_package_shaka outdash seg_dur v264_files vav1_files audio_file :
  runs_once "packager"
    (packaging_cmd "shaka" seg_dur (path_div outdash "manifest.mpd"))
    (package_shaka outdash seg_dur v264_files vav1_files audio_file).
Proof.
  assert (Ht : "packager" <> "ffmpeg") by discriminate.
  assert (Hvid : forall family hp,
            emits encode_event (shaka_video_arg outdash family hp)).
  { intros family hp.
    apply emits_bind; [apply encode_event_ensure_dir | intros _; apply emits_ret]. }
  unfold package_shaka.
  silent_step Ht; [apply encode_event_ensure_dir |].
  silent_step Ht; [apply emits_map_M, Hvid |].
  silent_step Ht; [apply emits_map_M, Hvid |].
  silent_step Ht.
  { unfold shaka_audio_arg. destruct audio_file as [au |]; [| apply emits_ret].
    apply emits_bind; [apply encode_event_exists |].
    intros present. destruct present; [| apply emits_ret].
    apply emits_bind; [apply encode_event_ensure_dir | intros _; apply emits_ret]. }
  apply runs_once_run; [reflexivity |].
  eexists. reflexivity.
Qed.

Lemma runs_once_package_mp4box packager outdash seg_dur v264_files vav1_files
    audio_file :
  String.eqb packager "shaka" = false ->
  runs_once "MP4Box"
    (packaging_cmd packager seg_dur (path_div outdash "manifest.mpd"))
    (package_mp4box outdash seg_dur v264_files vav1_files audio_file).
Proof.
  intros Hp. assert (Ht : "MP4Box" <> "ffmpeg") by discriminate.
  unfold package_mp4box.
  silent_step Ht; [apply encode_event_ensure_dir |].
  silent_step Ht.
  { unfold mp4box_audio_arg. destruct audio_file as [au |]; [| apply emits_ret].
    apply emits_bind; [apply encode_event_exists | intros present; apply emits_ret]. }
  apply runs_once_run; [reflexivity |].
  unfold packaging_cmd. rewrite Hp. eexists. reflexivity.
Qed.

(** Packaging runs the tool of the packager it is given, once, on the
    manifest of the folder it is given. *)
Lemma runs_once_package packager outdash seg_dur v264_files vav1_files audio_file :
  runs_once (backend_tool packager)
    (packaging_cmd packager seg_dur (path_div outdash "manifest.mpd"))
    (package packager outdash seg_dur v264_files vav1_files audio_file).
Proof.
  unfold package, backend_tool. destruct (String.eqb packager "shaka") eqn:Hp.
  - apply String.eqb_eq in Hp. subst packager. apply runs_once_package_shaka.
  - apply runs_once_package_mp4box, Hp.
Qed.

Lemma backend_tool_not_ffmpeg (packager : string) :
  backend_tool packager <> "ffmpeg".
Proof. unfold backend_tool. destruct (String.eqb packager "shaka"); discriminate. Qed.

(** The processing of one file packages it once, with the packager it was
    given, when it gets that far. *)
Lemma runs_once_process_file args packager av1_enc out_root work_root src :
  runs_once (backend_tool packager)
    (packaging_cmd packager (arg_seg args) (manifest_of out_root src))
    (process_file args packager av1_enc out_root work_root src).
Proof.
  pose proof (backend_tool_not_ffmpeg packager) as Ht.
  unfold process_file, manifest_of.
  silent_step Ht; [apply encode_event_capture, capture_get_avg_fps |].
  silent_step Ht; [apply emits_lift |].
  silent_step Ht; [apply encode_event_capture, capture_get_src_height |].
  cbv zeta.
  do 4 (silent_step Ht; [apply encode_event_ensure_dir |]).
  silent_step Ht; [apply encode_event_print |].
  silent_step Ht; [apply encode_event_encode_h264 |].
  silent_step Ht.
  { destruct (String.eqb av1_enc "none");
      [apply emits_ret | apply encode_event_encode_av1]. }
  silent_step Ht; [apply encode_event_extract_audio |].
  silent_step Ht; [apply emits_filter_M; intros h; apply encode_event_exists |].
  apply runs_once_before; [exact Ht | apply runs_once_package |].
  intros _. apply encode_event_print.
Qed.

(** The part of [main] that follows the choice of the packager. *)
Local Abbreviation with_packager args packager :=
  (av1_enc ← pick_av1_encoder args;
   (if String.eqb av1_enc "none" then
      print "!! AV1 encoder not found in ffmpeg (libsvtav1/libaom-av1). Proceeding with H.264 only."
    else mret tt) ;;
   files ← collect_files (Path (arg_input args));
   match files with
   | [] => print ("No .mp4 files found in: " +:+ Path (arg_input args))
   | _ =>
       print ("Found " +:+ str_int (Z.of_nat (length files))
              +:+ " file(s) in: " +:+ Path (arg_input args)) ;;
       for_each files
         (process_file args packager av1_enc
            (Path (arg_out args)) (Path (arg_work args))) ;;
       print (String (chr 10)
         "All set! Server MIME: .mpd=application/dash+xml  .m4s=video/iso.segment")
   end) (only parsing).

Lemma packages_files_with_packager args packager :
  packages_files (backend_tool packager)
    (fun src cmd => packaging_cmd packager (arg_seg args)
                      (manifest_of (Path (arg_out args)) src) cmd)
    (with_packager args packager).
Proof.
  pose proof (backend_tool_not_ffmpeg packager) as Ht.
  apply packages_files_after; [exact Ht | apply encode_event_pick_av1_encoder |].
  intros av1_enc.
  apply packages_files_after; [exact Ht | |].
  { destruct (String.eqb av1_enc "none");
      [apply encode_event_print | apply emits_ret]. }
  intros _. apply packages_files_collect. intros files.
  destruct files as [| f files].
  - apply runs_each_nil; [exact Ht | apply encode_event_print].
  - apply runs_each_after; [exact Ht | apply encode_event_print | intros _].
    apply runs_each_before; [exact Ht | | intros _; apply encode_event_print].
    apply runs_each_for_each. intros src. apply runs_once_process_file.
Qed.

Lemma emits_with_packager args packager :
  emits (file_event packager) (with_packager args packager).
Proof.
  assert (Hq : forall A (m : M A), emits quiet_event m ->
                 emits (file_event packager) m).
  { intros A m. apply emits_weaken, quiet_file_event. }
  assert (Hpr : forall line, emits (file_event packager) (print line)).
  { intros line. apply emits_print, quiet_file_event. split; reflexivity. }
  apply emits_bind; [apply Hq, emits_pick_av1_encoder | intros av1_enc].
  apply emits_bind.
  { destruct (String.eqb av1_enc "none"); [apply Hpr | apply emits_ret]. }
  intros _. apply emits_bind; [apply Hq, emits_collect_files | intros files].
  destruct files as [| f files]; [apply Hpr |].
  apply emits_bind; [apply Hpr | intros _].
  apply emits_bind; [| intros _; apply Hpr].
  apply emits_for_each. intros src. apply emits_process_file.
Qed.

(** After the choice of the packager: no tool is looked up, every
    sub-process is [ffmpeg] or the tool of the packager, and that tool is
    run once for each source file. *)
Lemma with_packager_run args packager (w : world) (t : trace) :
  exists rest,
    (with_packager args packager w t).2 = t ++ rest /\
    Forall (file_event packager) rest /\
    one_run_each
      (fun src cmd => packaging_cmd packager (arg_seg args)
                        (manifest_of (Path (arg_out args)) src) cmd)
      (sorted (regular_files rest))
      (tool_runs (backend_tool packager) rest)
      (with_packager args packager w t).1.
Proof.
  destruct (emits_with_packager args packager w t) as [rest [E1 F1]].
  destruct (packages_files_with_packager args packager w t) as [rest' [E2 C2]].
  assert (rest' = rest) as ->.
  { rewrite E1 in E2. apply app_inv_head in E2. congruence. }
  exists rest. split; [exact E1 |]. split; [exact F1 | exact C2].
Qed.

(** C8: the packaging backend is chosen once per run, from the tools that
    are installed, before any source file is processed, and it is used for
    every source file.  [packager] and [MP4Box] are looked up at most once
    each.  When a required tool is missing nothing is run.  Otherwise the
    run starts with the look-ups, [MP4Box] being looked up only when
    [packager] was not found; what follows looks no tool up, runs no
    sub-process other than [ffmpeg] and the tool of the backend chosen, and
    runs that tool once for each source file in turn, on the manifest of
    that file: for the files reached when the run fails, for all of them
    when [main] returns. *)
Theorem packager_chosen_once (args : cli_args) (w : world) :
  (which_count "packager" (main args w []).2 <= 1)%nat /\
  (which_count "MP4Box" (main args w []).2 <= 1)%nat /\
  (missing_tool w = true ->
   Forall (fun e => run_cmd e = None) (main args w []).2) /\
  (missing_tool w = false ->
   exists (shaka : bool) (rest : trace),
     (main args w []).2 =
       [EWhich "ffmpeg" true; EWhich "ffprobe" true; EWhich "packager" shaka]
       ++ (if shaka then [] else [EWhich "MP4Box" true]) ++ rest /\
     let packager := if shaka then "shaka" else "mp4box" in
     let files := sorted (regular_files rest) in
     let cmds := tool_runs (backend_tool packager) rest in
     Forall (file_event packager) rest /\
     (length cmds <= length files)%nat /\
     Forall2 (fun src cmd =>
                packaging_cmd packager (arg_seg args)
                  (manifest_of (Path (arg_out args)) src) cmd)
             (take (length cmds) files) cmds /\
     ((main args w []).1 = Ok tt -> length cmds = length files)).
Proof.
  rewrite main_eq. unfold missing_tool. cbv zeta.
  destruct (w_which w [] "ffmpeg").
  2:{ split; [vm_compute; lia |]. split; [vm_compute; lia |].
      split; [intros _; repeat constructor | discriminate]. }
  destruct (w_which w [EWhich "ffmpeg" true] "ffprobe").
  2:{ split; [vm_compute; lia |]. split; [vm_compute; lia |].
      split; [intros _; repeat constructor | discriminate]. }
  destruct (w_which w ([EWhich "ffmpeg" true] ++ [EWhich "ffprobe" true]) "packager").
  - set (t3 := ([EWhich "ffmpeg" true] ++ [EWhich "ffprobe" true])
                 ++ [EWhich "packager" true]).
    destruct (with_packager_run args "shaka" w t3) as [rest [E [F [L [F2 O]]]]].
    rewrite E.
    split; [rewrite which_count_app, (file_event_no_which _ _ _ F); vm_compute; lia |].
    split; [rewrite which_count_app, (file_event_no_which _ _ _ F); vm_compute; lia |].
    split; [discriminate |]. intros _.
    exists true, rest. split; [reflexivity |].
    split; [exact F |]. split; [exact L |]. split; [exact F2 |].
    intros Hok. apply O. eauto.
  - set (t3 := ([EWhich "ffmpeg" true] ++ [EWhich "ffprobe" true])
                 ++ [EWhich "packager" false]).
    destruct (w_which w t3 "MP4Box").
    2:{ split; [vm_compute; lia |]. split; [vm_compute; lia |].
        split; [intros _; repeat constructor | discriminate]. }
    destruct (with_packager_run args "mp4box" w (t3 ++ [EWhich "MP4Box" true]))
      as [rest [E [F [L [F2 O]]]]].
    rewrite E.
    split; [rewrite which_count_app, (file_event_no_which _ _ _ F); vm_compute; lia |].
    split; [rewrite which_count_app, (file_event_no_which _ _ _ F); vm_compute; lia |].
    split; [discriminate |]. intros _.
    exists false, rest. split; [reflexivity |].
    split; [exact F |]. split; [exact L |]. split; [exact F2 |].
    intros Hok. apply O. eauto.
Qed.
End Packaging.

Lemma packager_chosen_once_witness :
  missing_tool (plain_world ("1080" +:+ String (chr 10) "")
                            ["videos/b.mp4"; "videos/a.mp4"]) = false /\
  exists (shaka : bool) (rest : trace),
    (@main posix_paths decimal_parsers
       {| arg_input := "videos"; arg_out := "out"; arg_work := "temp";
          arg_seg := 4; arg_audio_bitrate := "192k";
          arg_preset264 := "slow"; arg_av1_encoder := "svt";
          arg_cpu_used := 6; arg_max_height := 0 |}
       (plain_world ("1080" +:+ String (chr 10) "")
                    ["videos/b.mp4"; "videos/a.mp4"]) []).2 =
      [EWhich "ffmpeg" true; EWhich "ffprobe" true; EWhich "packager" shaka]
      ++ (if shaka then [] else [EWhich "MP4Box" true]) ++ rest /\
    length (tool_runs (backend_tool (if shaka then "shaka" else "mp4box")) rest)
      = length (sorted (regular_files rest)).
Proof.
  split; [reflexivity |].
  destruct (@packager_chosen_once posix_paths decimal_parsers
              {| arg_input := "videos"; arg_out := "out"; arg_work := "temp";
                 arg_seg := 4; arg_audio_bitrate := "192k";
                 arg_preset264 := "slow"; arg_av1_encoder := "svt";
                 arg_cpu_used := 6; arg_max_height := 0 |}
              (plain_world ("1080" +:+ String (chr 10) "")
                           ["videos/b.mp4"; "videos/a.mp4"]))
    as [_ [_ [_ Hrun]]].
  destruct (Hrun eq_refl) as [shaka [rest [E [_ [_ [_ O]]]]]].
  exists shaka, rest. split; [exact E |]. apply O. vm_compute. reflexivity.
Defined.

(** Two source files with MP4Box alone installed: each is packaged once,
    in the order of their paths. *)
Example main_two_files_mp4box :
  tool_runs "MP4Box"
    (@main posix_paths decimal_parsers
       {| arg_input := "videos"; arg_out := "out"; arg_work := "temp";
          arg_seg := 4; arg_audio_bitrate := "192k";
          arg_preset264 := "slow"; arg_av1_encoder := "none";
          arg_cpu_used := 6; arg_max_height := 0 |}
       {| w_which := fun _ tool => negb (String.eqb tool "packager");
          w_run := fun _ _ => Exited true;
          w_capture := fun _ _ => Captured true "";
          w_mkdir := fun _ _ => true;
          w_exists := fun _ _ => Some false;
          w_is_file := fun _ _ => Some true;
          w_glob := fun _ _ _ => ["videos/b.mp4"; "videos/a.mp4"] |} []).2
  = [["MP4Box"; "-dash"; "4000"; "-rap"; "-frag"; "4000"; "-profile"; "live";
      "-segment-name"; "$RepresentationID$/"; "-segment-ext"; "m4s";
      "-init-segment-ext"; "mp4"; "-no-frags-default";
      "-out"; "out/a/dash/manifest.mpd";
      "temp/a/h264/h264_1080.mp4#video:id=h264_1080";
      "temp/a/h264/h264_720.mp4#video:id=h264_720";
      "temp/a/h264/h264_480.mp4#video:id=h264_480"];
     ["MP4Box"; "-dash"; "4000"; "-rap"; "-frag"; "4000"; "-profile"; "live";
      "-segment-name"; "$RepresentationID$/"; "-segment-ext"; "m4s";
      "-init-segment-ext"; "mp4"; "-no-frags-default";
      "-out"; "out/b/dash/manifest.mpd";
      "temp/b/h264/h264_1080.mp4#video:id=h264_1080";
      "temp/b/h264/h264_720.mp4#video:id=h264_720";
      "temp/b/h264/h264_480.mp4#video:id=h264_480"]].
Proof. vm_compute. reflexivity. Qed.


(** A run over one file with Shaka Packager installed: the only packaging
    command is [packager]. *)
Example main_one_file_packager :
  let args := {| arg_input := "videos"; arg_out := "out"; arg_work := "temp";
                 arg_seg := 4; arg_audio_bitrate := "192k";
                 arg_preset264 := "slow"; arg_av1_encoder := "svt";
                 arg_cpu_used := 6; arg_max_height := 0 |} in
  let t := (@main posix_paths decimal_parsers args
              (plain_world ("1080" +:+ String (chr 10) "") ["videos/b.mp4"]) []).2 in
  omap (fun e => match e with ERun cmd _ => head cmd | _ => None end) t
    = ["ffmpeg"; "ffmpeg"; "ffmpeg"; "packager"] /\
  which_count "packager" t = 1%nat /\ which_count "MP4Box" t = 0%nat.
Proof. vm_compute. auto. Qed.

(** * Further properties of the script *)

(** ** The values of a probe query *)

Lemma space_width_app (a b : string) (k : nat) :
  space_width a = S k -> space_width (a +:+ b) = S k.
Proof.
  destruct a as [| x [| y [| z r]]]; simpl; try discriminate.
  - destruct (ascii_space x); [trivial | discriminate].
  - destruct (ascii_space x); [trivial |].
    destruct (space2 x y); [trivial | discriminate].
  - destruct (ascii_space x); [trivial |].
    destruct (space2 x y); [trivial |]. trivial.
Qed.

Lemma space_width_prefix (a b : string) :
  space_width (a +:+ b) = 0%nat -> space_width a = 0%nat.
Proof.
  intros H0. destruct (space_width a) as [| k] eqn:E; [reflexivity |].
  rewrite (space_width_app a b k E) in H0. discriminate.
Qed.

Lemma lstrip_skip_clean (s : string) :
  forall k, space_width (lstrip_skip k s) = 0%nat.
Proof.
  induction s as [| c s IH]; intros k; [reflexivity |].
  destruct k as [| k]; [| apply IH].
  change (lstrip_skip 0 (String c s))
    with (match space_width (String c s) with
          | O => String c s
          | S j => lstrip_skip j s
          end).
  destruct (space_width (String c s)) as [| j] eqn:E; [exact E | apply IH].
Qed.

Lemma lstrip_fixed (s : string) : space_width s = 0%nat -> lstrip s = s.
Proof.
  intros H0. destruct s as [| c s]; [reflexivity |].
  unfold lstrip.
  change (lstrip_skip 0 (String c s))
    with (match space_width (String c s) with
          | O => String c s
          | S j => lstrip_skip j s
          end).
  rewrite H0. reflexivity.
Qed.

Lemma all_space_skip_app (a b : string) :
  forall k, all_space_skip k a = true ->
            all_space_skip k (a +:+ b) = all_space b.
Proof.
  induction a as [| x a IH]; intros k Ha.
  - destruct k; [reflexivity | discriminate].
  - destruct k as [| k]; [| exact (IH k Ha)].
    change (all_space_skip 0 (String x a))
      with (match space_width (String x a) with
            | O => false
            | S j => all_space_skip j a
            end) in Ha.
    change (all_space_skip 0 (String x a +:+ b))
      with (match space_width (String x a +:+ b) with
            | O => false
            | S j => all_space_skip j (a +:+ b)
            end).
    destruct (space_width (String x a)) as [| j] eqn:E; [discriminate |].
    rewrite (space_width_app _ b j E). exact (IH j Ha).
Qed.

Lemma rstrip_tail (s : string) :
  exists tail, s = rstrip s +:+ tail /\ all_space tail = true.
Proof.
  induction s as [| c s [tail [Hs Ht]]]; [exists ""; split; reflexivity |].
  change (rstrip (String c s))
    with (if all_space (String c s) then "" else String c (rstrip s)).
  destruct (all_space (String c s)) eqn:E.
  - exists (String c s). split; [reflexivity | exact E].
  - exists tail. split; [| exact Ht].
    change (String c s = String c (rstrip s +:+ tail)). f_equal. exact Hs.
Qed.

Lemma rstrip_idempotent (s : string) : rstrip (rstrip s) = rstrip s.
Proof.
  induction s as [| c s IH]; [reflexivity |].
  change (rstrip (String c s))
    with (if all_space (String c s) then "" else String c (rstrip s)).
  destruct (all_space (String c s)) eqn:E; [reflexivity |].
  change (rstrip (String c (rstrip s)))
    with (if all_space (String c (rstrip s)) then ""
          else String c (rstrip (rstrip s))).
  destruct (all_space (String c (rstrip s))) eqn:E'; [| rewrite IH; reflexivity].
  destruct (rstrip_tail s) as [tail [Hs Ht]].
  pose proof (all_space_skip_app (String c (rstrip s)) tail 0 E') as Happ.
  change (String c (rstrip s) +:+ tail) with (String c (rstrip s +:+ tail)) in Happ.
  rewrite <- Hs, Ht in Happ.
  unfold all_space in E. congruence.
Qed.

Lemma strip_idempotent (s : string) : strip (strip s) = strip s.
Proof.
  unfold strip.
  pose proof (lstrip_skip_clean s 0) as Hl. fold (lstrip s) in Hl.
  destruct (rstrip_tail (lstrip s)) as [tail [Hs _]].
  rewrite Hs in Hl. apply space_width_prefix in Hl.
  rewrite (lstrip_fixed _ Hl). apply rstrip_idempotent.
Qed.

(** X1: a probe query that returns gives values that are not empty and
    carry no white space at either end; it returns only when the probe
    exited with status zero. *)
Theorem ffprobe_value_clean (src : path) (entries : list string) (sel : string)
    (w : world) (t t' : trace) (vals : list string) :
  ffprobe_value src entries sel w t = (Ok vals, t') ->
  Forall (fun v => v <> "" /\ strip v = v) vals /\
  exists out, w_capture w t (ffprobe_cmd src entries sel) = Captured true out.
Proof.
  rewrite ffprobe_value_eq.
  destruct (w_capture w t (ffprobe_cmd src entries sel)) as [| | [|] out];
    try discriminate.
  intros [= <- _]. split; [| eauto].
  apply List.Forall_forall. intros v Hv.
  apply List.in_map_iff in Hv. destruct Hv as [x [<- Hx]].
  apply List.filter_In in Hx. destruct Hx as [_ Hx].
  split; [| apply strip_idempotent].
  intros Heq. rewrite Heq in Hx. discriminate.
Qed.

Lemma ffprobe_value_clean_witness :
  Forall (fun v => v <> "" /\ strip v = v) ["1080"; "720"] /\
  exists out,
    w_capture (plain_world ("  1080 " +:+ String (chr 10) (String (chr 10) " 720")) [])
              [] (ffprobe_cmd "a.mp4" ["stream=height"] "v:0")
    = Captured true out.
Proof.
  eapply (ffprobe_value_clean "a.mp4" ["stream=height"] "v:0"
            (plain_world ("  1080 " +:+ String (chr 10) (String (chr 10) " 720")) [])
            []).
  vm_compute. reflexivity.
Defined.

(** White space is that of [str.strip]: a no-break space (U+00A0) after
    the value is removed, and a line separator (U+2028) ends a line as a
    line feed does. *)
Example strip_no_break_space :
  strip ("720" +:+ String (chr 194) (String (chr 160) "")) = "720".
Proof. reflexivity. Qed.

Example splitlines_line_separator :
  splitlines ("a" +:+ String (chr 226) (String (chr 128) (String (chr 168)
                ("b" +:+ String (chr 13) (String (chr 10) "c")))))
  = ["a"; "b"; "c"].
Proof. reflexivity. Qed.

(** ** Height and frame rate *)

Section ProberValues.
Context `{PyParse}.

(** X2: the source height is read from the first value of the query alone:
    its integer when it parses, 1080 when it does not, whatever the other
    values are. *)
Theorem get_src_height_first_value (src : path) (w : world) (t t' : trace)
    (v : string) (rest : list string) :
  ffprobe_value src ["stream=height"] "v:0" w t = (Ok (v :: rest), t') ->
  get_src_height src w t = (Ok (default 1080 (py_int v)), t').
Proof.
  intros Hp. unfold get_src_height, try_except, get_src_height_body.
  rewrite (bind_ok _ _ _ _ _ _ Hp). simpl first_of.
  rewrite bind_eq. unfold mret at 1, M_ret at 1. cbv beta iota.
  unfold int_of. destruct (py_int v); reflexivity.
Qed.

(** X3: a fraction [N/D] whose denominator is not zero gives the quotient
    of the two floats. *)
Theorem get_avg_fps_fraction (src : path) (w : world) (t t' : trace)
    (num den : string) (rest : list string) (x d : spec_float) :
  ffprobe_value src ["stream=avg_frame_rate"] "v:0" w t
    = (Ok ((num +:+ "/" +:+ den) :: rest), t') ->
  has_char "/" num = false -> has_char "/" den = false ->
  py_float num = Some x -> py_float den = Some d -> float_ne_0 d = true ->
  get_avg_fps src w t = (Ok (fdiv x d), t').
Proof.
  intros Hprobe Hnum Hden Hx Hd Hne.
  apply try_except_ok.
  unfold get_avg_fps_body. rewrite (bind_ok _ _ _ _ _ _ Hprobe).
  unfold first_of. rewrite bind_eq. unfold mret at 1, M_ret at 1.
  change ("/" +:+ den) with (String "/" den).
  rewrite has_char_append. simpl has_char. rewrite orb_true_r.
  rewrite (split_on_fraction "/" num den Hnum Hden).
  unfold float_of. rewrite Hd, Hx.
  rewrite bind_eq. unfold mret at 1, M_ret at 1.
  rewrite Hne.
  rewrite bind_eq. unfold mret at 1, M_ret at 1.
  rewrite bind_eq. unfold mret at 1, M_ret at 1.
  unfold lift, truediv.
  assert (Hz : is_zero d = false) by (destruct d; try reflexivity; discriminate Hne).
  rewrite Hz. reflexivity.
Qed.

(** X4: a value without a slash is read as a float. *)
Theorem get_avg_fps_plain (src : path) (w : world) (t t' : trace)
    (frac : string) (rest : list string) :
  ffprobe_value src ["stream=avg_frame_rate"] "v:0" w t = (Ok (frac :: rest), t') ->
  has_char "/" frac = false ->
  get_avg_fps src w t = (Ok (default f25 (py_float frac)), t').
Proof.
  intros Hprobe Hno. unfold get_avg_fps, try_except, get_avg_fps_body.
  rewrite (bind_ok _ _ _ _ _ _ Hprobe).
  unfold first_of. rewrite bind_eq. unfold mret at 1, M_ret at 1.
  cbv beta iota. rewrite Hno. unfold float_of.
  destruct (py_float frac); reflexivity.
Qed.
End ProberValues.

Lemma get_src_height_first_value_witness :
  @get_src_height decimal_parsers "a.mp4"
     (plain_world ("720" +:+ String (chr 10) "junk") []) []
  = (Ok 720,
     [ECapture (ffprobe_cmd "a.mp4" ["stream=height"] "v:0")
               (Captured true ("720" +:+ String (chr 10) "junk"))]).
Proof.
  apply (@get_src_height_first_value decimal_parsers "a.mp4"
           (plain_world ("720" +:+ String (chr 10) "junk") []) [] _ "720" ["junk"]).
  reflexivity.
Defined.

Lemma get_avg_fps_fraction_witness :
  @get_avg_fps decimal_parsers "a.mp4"
     (plain_world ("30000/1001" +:+ String (chr 10) "") []) []
  = (Ok (fdiv (float_of_Z 30000) (float_of_Z 1001)),
     [ECapture (ffprobe_cmd "a.mp4" ["stream=avg_frame_rate"] "v:0")
               (Captured true ("30000/1001" +:+ String (chr 10) ""))]).
Proof.
  apply (@get_avg_fps_fraction decimal_parsers "a.mp4"
           (plain_world ("30000/1001" +:+ String (chr 10) "") []) [] _
           "30000" "1001" [] (float_of_Z 30000) (float_of_Z 1001));
    reflexivity.
Defined.

Lemma get_avg_fps_plain_witness :
  @get_avg_fps decimal_parsers "a.mp4"
     (plain_world ("25" +:+ String (chr 10) "") []) []
  = (Ok (float_of_Z 25),
     [ECapture (ffprobe_cmd "a.mp4" ["stream=avg_frame_rate"] "v:0")
               (Captured true ("25" +:+ String (chr 10) ""))]).
Proof.
  apply (@get_avg_fps_plain decimal_parsers "a.mp4"
           (plain_world ("25" +:+ String (chr 10) "") []) [] _ "25" []);
    reflexivity.
Defined.

Lemma split_on_length (c : ascii) (s : string) :
  length (split_on c s) = S (count_char c s).
Proof.
  induction s as [| d s IH]; [reflexivity |].
  simpl. destruct (Ascii.eqb d c); simpl; [rewrite IH; reflexivity |].
  destruct (split_on c s) as [| x xs]; simpl in *; [discriminate IH | exact IH].
Qed.

Lemma has_char_count (c : ascii) (s : string) :
  has_char c s = true <-> (0 < count_char c s)%nat.
Proof.
  induction s as [| d s IH]; simpl; [split; [discriminate | lia] |].
  destruct (Ascii.eqb d c); simpl; [split; [lia | reflexivity] | exact IH].
Qed.

Section ProberEdges.
Context `{PathOps} `{PyParse}.

(** X5: a frame-rate value with more than one slash is not a fraction for
    the parser: the default 25.0 is returned. *)
Theorem get_avg_fps_many_slashes (src : path) (w : world) (t t' : trace)
    (frac : string) (rest : list string) :
  ffprobe_value src ["stream=avg_frame_rate"] "v:0" w t = (Ok (frac :: rest), t') ->
  (2 <= count_char "/" frac)%nat ->
  get_avg_fps src w t = (Ok f25, t').
Proof.
  intros Hprobe Hcount.
  assert (Hbody : get_avg_fps_body src w t = (Raise ValueError, t')).
  { unfold get_avg_fps_body. rewrite (bind_ok _ _ _ _ _ _ Hprobe).
    unfold first_of. rewrite bind_eq. unfold mret at 1, M_ret at 1.
    cbv beta iota.
    assert (Hhas : has_char "/" frac = true) by (apply has_char_count; lia).
    rewrite Hhas.
    pose proof (split_on_length "/" frac) as Hlen.
    destruct (split_on "/" frac) as [| a [| b [| c l]]]; simpl in Hlen;
      try reflexivity; lia. }
  unfold get_avg_fps. rewrite (try_except_caught _ _ _ _ _ _ Hbody eq_refl).
  reflexivity.
Qed.

(** X6: [has_audio] answers true exactly when the probe exited with status
    zero and printed a line that is not blank. *)
Theorem has_audio_true_iff (src : path) (w : world) (t : trace) :
  (has_audio src w t).1 = Ok true <->
  exists out,
    w_capture w t (ffprobe_cmd src ["stream=index"] "a") = Captured true out /\
    exists line, In line (splitlines (strip out)) /\ nonblank line = true.
Proof.
  rewrite has_audio_eq. simpl fst.
  destruct (w_capture w t (ffprobe_cmd src ["stream=index"] "a")) as [| | [|] out].
  - split; [discriminate | intros [o [Ho _]]; discriminate].
  - split; [discriminate | intros [o [Ho _]]; discriminate].
  - split.
    + intros [= Hlen]. exists out. split; [reflexivity |].
      apply Nat.ltb_lt in Hlen. rewrite length_fmap in Hlen.
      destruct (List.filter _ _) as [| x xs] eqn:E; [simpl in Hlen; lia |].
      assert (Hx : In x (List.filter
                (fun x => negb (String.eqb (strip x) "")) (splitlines (strip out))))
        by (rewrite E; left; reflexivity).
      apply List.filter_In in Hx. exists x. exact Hx.
    + intros [o [[= <-] [line [Hin Hnb]]]]. f_equal.
      apply Nat.ltb_lt. rewrite length_fmap.
      assert (Hx : In line (List.filter
                (fun x => negb (String.eqb (strip x) "")) (splitlines (strip out))))
        by (apply List.filter_In; split; assumption).
      destruct (List.filter _ _); [destruct Hx | simpl; lia].
  - split; [discriminate | intros [o [Ho _]]; discriminate].
Qed.

(** X7: the keyframe interval is computed outside any [try]: when the frame
    rate has no rounding ([nan], an infinity, an overflow of the doubling),
    the processing of the file raises at once, before any folder is made or
    any command run for it. *)
Theorem process_file_bad_frame_rate (args : cli_args) (packager av1_enc : string)
    (out_root work_root src : path) (w : world) (t t1 : trace)
    (fps : spec_float) (e : exn) :
  get_avg_fps src w t = (Ok fps, t1) ->
  gop fps = Raise e ->
  process_file args packager av1_enc out_root work_root src w t = (Raise e, t1).
Proof.
  intros Hfps Hgop. unfold process_file.
  rewrite (bind_ok _ _ _ _ _ _ Hfps), bind_eq.
  unfold lift. rewrite Hgop. reflexivity.
Qed.
End ProberEdges.

(** A probe that prints white space only, here a no-break space and a line
    feed, reports no audio stream. *)
Example has_audio_blank_output :
  (has_audio "a.mp4"
     (plain_world (String (chr 194) (String (chr 160) (String (chr 10) ""))) [])
     []).1 = Ok false.
Proof. reflexivity. Qed.

Lemma get_avg_fps_many_slashes_witness :
  @get_avg_fps decimal_parsers "a.mp4"
     (plain_world ("30/1/1" +:+ String (chr 10) "") []) []
  = (Ok f25,
     [ECapture (ffprobe_cmd "a.mp4" ["stream=avg_frame_rate"] "v:0")
               (Captured true ("30/1/1" +:+ String (chr 10) ""))]).
Proof.
  apply (@get_avg_fps_many_slashes decimal_parsers "a.mp4"
           (plain_world ("30/1/1" +:+ String (chr 10) "") []) [] _ "30/1/1" []).
  - reflexivity.
  - vm_compute. lia.
Defined.

(** A frame rate beyond the range of the doubles is read as an infinity. *)
Lemma process_file_bad_frame_rate_witness :
  (@process_file posix_paths decimal_parsers
     {| arg_input := "videos"; arg_out := "out"; arg_work := "temp";
        arg_seg := 4; arg_audio_bitrate := "192k"; arg_preset264 := "slow";
        arg_av1_encoder := "svt"; arg_cpu_used := 6; arg_max_height := 0 |}
     "shaka" "svt" "out" "temp" "videos/a.mp4"
     (plain_world ("1" +:+ zeros 310 +:+ "/1") []) [])
  = (Raise OverflowError,
     [ECapture (ffprobe_cmd "videos/a.mp4" ["stream=avg_frame_rate"] "v:0")
               (Captured true ("1" +:+ zeros 310 +:+ "/1"))]).
Proof.
  apply (@process_file_bad_frame_rate posix_paths decimal_parsers _ _ _ _ _ _ _ _ _
           (S754_infinity false)).
  - vm_compute. reflexivity.
  - reflexivity.
Defined.

(** ** When the ladder falls back *)

Lemma ladder_guard_480 (H C : Z) :
  480 <= H -> C = 0 \/ 480 <= C -> ladder_guard H C 480 = true.
Proof.
  intros HH HC. apply ladder_guard_spec. split; [exact HH |].
  intros Hne. destruct HC; [contradiction | assumption].
Qed.

Lemma ladder_guard_low (H C h : Z) :
  480 <= h -> H < 480 \/ (C <> 0 /\ C < 480) -> ladder_guard H C h = false.
Proof.
  intros Hh Hlow. destruct (ladder_guard H C h) eqn:E; [| reflexivity].
  apply ladder_guard_spec in E. destruct E as [E1 E2].
  destruct Hlow as [Hl | [Hne Hl]]; [lia |]. specialize (E2 Hne). lia.
Qed.

(** X8: the ladder is the source height alone exactly when the source is
    below 480 or a cap other than 0 is below 480 (the rung then exceeds the
    cap when the source does); in every other case all rungs are canonical
    and the last one is 480. *)
Theorem ladder_fallback_cases (H C : Z) :
  (H < 480 \/ (C <> 0 /\ C < 480) -> ladder H C = [H]) /\
  (480 <= H -> C = 0 \/ 480 <= C ->
     last (ladder H C) = Some 480 /\
     Forall (fun h => In h DEFAULT_LADDER) (ladder H C)).
Proof.
  split.
  - intros Hlow. unfold ladder, DEFAULT_LADDER. simpl.
    rewrite !(ladder_guard_low H C) by (try exact Hlow; lia). reflexivity.
  - intros HH HC. pose proof (ladder_guard_480 H C HH HC) as H480.
    unfold ladder, DEFAULT_LADDER. simpl. rewrite H480.
    destruct (ladder_guard H C 2160), (ladder_guard H C 1440),
             (ladder_guard H C 1080), (ladder_guard H C 720);
      (split; [reflexivity | repeat constructor; simpl; tauto]).
Qed.

(** A cap of 360 on a 1080 source gives one rung of 1080. *)
Example ladder_cap_360 : ladder 1080 360 = [1080].
Proof. reflexivity. Qed.

(** ** Labels and names of the rungs *)









(** ** The streams an encoder maps *)

Lemma contains_unfold (needle hay : string) :
  contains needle hay =
  starts_with needle hay ||
  match hay with
  | EmptyString => false
  | String _ hay' => contains needle hay'
  end.
Proof. destruct hay; reflexivity. Qed.

Lemma starts_with_append (needle rest : string) :
  starts_with needle (needle +:+ rest) = true.
Proof.
  induction needle as [| c n IH]; [reflexivity |].
  simpl. rewrite Ascii.eqb_refl. exact IH.
Qed.

Lemma starts_with_refl (s : string) : starts_with s s = true.
Proof.
  induction s as [| c s IH]; [reflexivity |].
  simpl. rewrite Ascii.eqb_refl. exact IH.
Qed.

Lemma starts_with_append_l (needle a b : string) :
  starts_with needle a = true -> starts_with needle (a +:+ b) = true.
Proof.
  revert a. induction needle as [| c n IH]; intros a; [reflexivity |].
  destruct a as [| d a]; simpl; [discriminate |].
  destruct (Ascii.eqb c d); simpl; [apply IH | discriminate].
Qed.

Lemma contains_append_r (needle a b : string) :
  contains needle b = true -> contains needle (a +:+ b) = true.
Proof.
  intros Hb. induction a as [| c a IH]; [exact Hb |].
  simpl. rewrite IH. apply orb_true_r.
Qed.

Lemma contains_append_l (needle a b : string) :
  contains needle a = true -> contains needle (a +:+ b) = true.
Proof.
  induction a as [| c a IH]; intros Ha.
  - rewrite contains_unfold in Ha. rewrite orb_false_r in Ha.
    rewrite contains_unfold. rewrite (starts_with_append_l _ _ _ Ha). reflexivity.
  - rewrite contains_unfold in Ha. apply orb_true_iff in Ha.
    change (String c a +:+ b) with (String c (a +:+ b)).
    rewrite contains_unfold. apply orb_true_iff.
    destruct Ha as [Ha | Ha]; [left | right].
    + apply (starts_with_append_l _ (String c a) b Ha).
    + apply IH, Ha.
Qed.

Lemma contains_here (needle rest : string) :
  contains needle (needle +:+ rest) = true.
Proof. rewrite contains_unfold, starts_with_append. reflexivity. Qed.

Lemma contains_join (needle x : string) (l : list string) :
  In x l -> contains needle x = true -> contains needle (join "" l) = true.
Proof.
  intros Hin Hx. induction l as [| p ps IH]; [destruct Hin |].
  destruct ps as [| q ps].
  - destruct Hin as [-> | []]. exact Hx.
  - change (join "" (p :: q :: ps)) with (p +:+ join "" (q :: ps)).
    destruct Hin as [-> | Hin].
    + apply contains_append_l, Hx.
    + apply contains_append_r, IH, Hin.
Qed.

Lemma out_label_in_graph (heights : list Z) (p label : string) :
  In label (build_filter heights p).2 ->
  contains ("[" +:+ label +:+ "]") (build_filter heights p).1 = true.
Proof.
  unfold build_filter. cbn [fst snd].
  set (labels := split_labels (length heights) p).
  set (per_height := scale_of labels p <$> enumerate heights).
  intros Hin.
  apply list_elem_of_In, list_elem_of_fmap in Hin.
  destruct Hin as [pair [-> Hpair]].
  apply contains_append_r.
  apply (contains_join _ (pair.1 +:+ ";")).
  - apply list_elem_of_In, list_elem_of_fmap. exists pair.1. split; [reflexivity |].
    apply list_elem_of_fmap. exists pair. split; [reflexivity | exact Hpair].
  - apply contains_append_l.
    apply list_elem_of_fmap in Hpair. destruct Hpair as [ih [-> _]].
    unfold scale_of. cbn [fst snd].
    change ("[" +:+ nth ih.1 labels "" +:+ "]scale=-2:" +:+ str_int ih.2
              +:+ ":flags=bicubic[" +:+ (p +:+ str_int ih.2) +:+ "]")
      with (("[" +:+ nth ih.1 labels "") +:+ "]scale=-2:" +:+ str_int ih.2
              +:+ ":flags=bicubic" +:+ ("[" +:+ (p +:+ str_int ih.2) +:+ "]")).
    do 4 apply contains_append_r.
    rewrite contains_unfold, starts_with_refl. reflexivity.
Qed.

(** X11: every output label [build_filter] returns is defined, between
    brackets, in the graph it returns with it, and is the prefix followed by
    one of the heights. *)
Theorem build_filter_defines_labels (heights : list Z) (p label : string) :
  In label (build_filter heights p).2 ->
  contains ("[" +:+ label +:+ "]") (build_filter heights p).1 = true /\
  exists h, In h heights /\ label = p +:+ str_int h.
Proof.
  intros Hin. split; [apply out_label_in_graph, Hin |].
  rewrite build_filter_out_labels in Hin.
  apply list_elem_of_In, list_elem_of_fmap in Hin.
  destruct Hin as [h [-> Hh]]. exists h.
  split; [apply list_elem_of_In, Hh | reflexivity].
Qed.

Lemma build_filter_defines_labels_witness :
  contains "[s720]" (build_filter [1080; 720] "s").1 = true /\
  exists h, In h [1080; 720] /\ "s720" = "s" +:+ str_int h.
Proof.
  apply (build_filter_defines_labels [1080; 720] "s" "s720").
  right. left. reflexivity.
Defined.

Lemma height_label_in_graph (heights : list Z) (p : string) (h : Z) :
  In h heights ->
  contains ("[" +:+ (p +:+ str_int h) +:+ "]") (build_filter heights p).1 = true.
Proof.
  intros Hh. apply out_label_in_graph. rewrite build_filter_out_labels.
  apply list_elem_of_In, list_elem_of_fmap. exists h.
  split; [reflexivity | apply list_elem_of_In, Hh].
Qed.

Section EncoderCommands.
Context `{PathOps}.

(** X12: the command of each encoder is [ffmpeg -y -i src -filter_complex
    graph] followed by one group of arguments per height, in the order of
    the heights; the group of height [h] maps the stream [s<h>] (H.264) or
    [t<h>] (AV1), and that stream is defined in the graph of the same
    command. *)
Theorem encoder_commands_wired (src outdir : path) (heights : list Z) (gop : Z) :
  (forall preset,
     exists graph,
       encode_h264_args src outdir heights gop preset =
         ["ffmpeg"; "-y"; "-i"; src; "-filter_complex"; graph]
         ++ concat ((fun h => h264_rung_args outdir gop preset h
                                ("s" +:+ str_int h)) <$> heights) /\
       forall h, In h heights ->
         contains ("[" +:+ ("s" +:+ str_int h) +:+ "]") graph = true /\
         take 2 (h264_rung_args outdir gop preset h ("s" +:+ str_int h))
           = ["-map"; "[" +:+ ("s" +:+ str_int h) +:+ "]"]) /\
  (forall encoder cpu_used,
     exists graph,
       encode_av1_args src outdir heights gop encoder cpu_used =
         ["ffmpeg"; "-y"; "-i"; src; "-filter_complex"; graph]
         ++ concat ((fun h => av1_rung_args outdir gop encoder cpu_used h
                                ("t" +:+ str_int h)) <$> heights) /\
       forall h, In h heights ->
         contains ("[" +:+ ("t" +:+ str_int h) +:+ "]") graph = true /\
         take 2 (av1_rung_args outdir gop encoder cpu_used h ("t" +:+ str_int h))
           = ["-map"; "[" +:+ ("t" +:+ str_int h) +:+ "]"]).
Proof.
  split.
  - intros preset. exists (build_filter heights "s").1.
    split; [apply encode_h264_args_per_height |].
    intros h Hh. split; [apply height_label_in_graph, Hh | reflexivity].
  - intros encoder cpu_used. exists (build_filter heights "t").1.
    split; [apply encode_av1_args_per_height |].
    intros h Hh. split; [apply height_label_in_graph, Hh |].
    unfold av1_rung_args. destruct (String.eqb encoder "svt"); reflexivity.
Qed.
End EncoderCommands.

(** ** Failures stop the run *)

Lemma stops_of_emits {A : Type} (m : M A) :
  emits (fun e => failing e = false) m -> stops_at_failure m.
Proof.
  intros Hm w t. destruct (Hm w t) as [new [Heq Hall]].
  exists new. split; [exact Heq |].
  intros pre e post -> Hf. rewrite List.Forall_forall in Hall.
  rewrite Hall in Hf; [discriminate |].
  apply List.in_or_app. right. left. reflexivity.
Qed.

Lemma stops_ret {A : Type} (a : A) : stops_at_failure (mret a).
Proof. apply stops_of_emits, emits_ret. Qed.

Lemma stops_raise {A : Type} (e : exn) : stops_at_failure (raise (A := A) e).
Proof. apply stops_of_emits, emits_raise. Qed.

Lemma stops_bind {A B : Type} (m : M A) (f : A -> M B) :
  stops_at_failure m -> (forall a, stops_at_failure (f a)) ->
  stops_at_failure (m ≫= f).
Proof.
  intros Hm Hf w t. rewrite bind_eq.
  destruct (Hm w t) as [new1 [Heq1 Hstop1]].
  destruct (m w t) as [[a | x] t1]; simpl in Heq1; subst t1.
  - destruct (Hf a w (t ++ new1)) as [new2 [Heq2 Hstop2]].
    exists (new1 ++ new2). split; [rewrite Heq2; symmetry; apply app_assoc |].
    intros pre e post Hsplit He.
    apply List.app_eq_app in Hsplit. destruct Hsplit as [l [[H1 H2] | [H1 H2]]].
    + destruct l as [| e' l].
      * rewrite app_nil_r in H1. subst pre. simpl in H2.
        apply (Hstop2 [] e post); [symmetry; exact H2 | exact He].
      * simpl in H2. injection H2 as <- ->.
        destruct (Hstop1 pre e l H1 He) as [_ [Hr | Hr]]; discriminate Hr.
    + apply (Hstop2 l e post); [exact H2 | exact He].
  - exists new1. split; [reflexivity |].
    intros pre e post Hsplit He.
    destruct (Hstop1 pre e post Hsplit He) as [Hpost [Hr | Hr]];
      simpl in Hr; injection Hr as ->; (split; [exact Hpost |]);
      [left | right]; reflexivity.
Qed.

Lemma stops_one {A : Type} (m : M A) :
  (forall w t, exists e, (m w t).2 = t ++ [e] /\
     (failing e = true ->
        (m w t).1 = Raise CalledProcessError \/ (m w t).1 = Raise OSError)) ->
  stops_at_failure m.
Proof.
  intros Hm w t. destruct (Hm w t) as [e [Heq He]].
  exists [e]. split; [exact Heq |].
  intros pre e' post Hsplit Hf.
  destruct pre as [| p pre].
  - simpl in Hsplit. injection Hsplit as <- <-. split; [reflexivity | apply He, Hf].
  - simpl in Hsplit. injection Hsplit as _ Hnil.
    destruct pre; discriminate Hnil.
Qed.

Lemma stops_run_check (cmd : list string) : stops_at_failure (subprocess_run_check cmd).
Proof.
  apply stops_one. intros w t. eexists. split; [reflexivity |].
  unfold subprocess_run_check. simpl.
  destruct (w_run w t cmd) as [| [|]]; simpl; intros Hf;
    [right | discriminate | left]; reflexivity.
Qed.

Lemma stops_mkdir (p : path) : stops_at_failure (mkdir p).
Proof.
  apply stops_one. intros w t. eexists. split; [reflexivity |].
  unfold mkdir. simpl. destruct (w_mkdir w t p); simpl; intros Hf;
    [discriminate | right; reflexivity].
Qed.

Lemma stops_print (line : string) : stops_at_failure (print line).
Proof. apply stops_of_emits, emits_print. reflexivity. Qed.

Lemma stops_run (cmd : list string) : stops_at_failure (run cmd).
Proof.
  apply stops_bind; [apply stops_print | intros _; apply stops_run_check].
Qed.

Lemma stops_for_each {A : Type} (l : list A) (body : A -> M unit) :
  (forall x, stops_at_failure (body x)) -> stops_at_failure (for_each l body).
Proof.
  intros Hb. induction l as [| x l IH]; simpl.
  - apply stops_ret.
  - apply stops_bind; [apply Hb | intros _; exact IH].
Qed.

Lemma stops_map_M {A B : Type} (f : A -> M B) (l : list A) :
  (forall x, stops_at_failure (f x)) -> stops_at_failure (map_M f l).
Proof.
  intros Hf. induction l as [| x l IH]; simpl.
  - apply stops_ret.
  - apply stops_bind; [apply Hf |]. intros y.
    apply stops_bind; [exact IH |]. intros ys. apply stops_ret.
Qed.

Section FailStop.
Context `{PathOps} `{PyParse}.

Lemma stops_of_capture {A : Type} (m : M A) :
  emits is_capture m -> stops_at_failure m.
Proof.
  intros Hm. apply stops_of_emits.
  eapply emits_weaken; [| exact Hm]. intros e [cmd [o ->]]. reflexivity.
Qed.

Lemma stops_ensure_dir p : stops_at_failure (ensure_dir p).
Proof. apply stops_mkdir. Qed.

Lemma stops_exists p : stops_at_failure (path_exists p).
Proof. apply stops_of_emits, emits_exists. reflexivity. Qed.

Lemma stops_filter_exists {A : Type} (f : A -> path) (l : list A) :
  stops_at_failure (filter_M (fun x => path_exists (f x)) l).
Proof.
  apply stops_of_emits, emits_filter_M. intros x. apply emits_exists. reflexivity.
Qed.

Lemma stops_encode_h264 src outdir heights gop preset :
  stops_at_failure (encode_h264 src outdir heights gop preset).
Proof.
  apply stops_bind; [apply stops_ensure_dir | intros _; apply stops_run].
Qed.

Lemma stops_encode_av1 src outdir heights gop encoder cpu_used :
  stops_at_failure (encode_av1 src outdir heights gop encoder cpu_used).
Proof.
  apply stops_bind; [apply stops_ensure_dir | intros _; apply stops_run].
Qed.

Lemma stops_extract_audio src out_m4a aac_bitrate :
  stops_at_failure (extract_audio src out_m4a aac_bitrate).
Proof.
  apply stops_bind; [apply stops_of_capture, capture_has_audio |].
  intros audio. destruct audio; simpl; [| apply stops_ret].
  apply stops_bind; [apply stops_ensure_dir | intros _].
  apply stops_bind; [apply stops_run | intros _; apply stops_ret].
Qed.

Lemma stops_package packager outdash seg_dur v264_files vav1_files audio_file :
  stops_at_failure
    (package packager outdash seg_dur v264_files vav1_files audio_file).
Proof.
  assert (Hvid : forall family hp,
            stops_at_failure (shaka_video_arg outdash family hp)).
  { intros family hp.
    apply stops_bind; [apply stops_ensure_dir | intros _; apply stops_ret]. }
  unfold package. destruct (String.eqb packager "shaka").
  - apply stops_bind; [apply stops_ensure_dir | intros _].
    apply stops_bind; [apply stops_map_M, Hvid | intros a264].
    apply stops_bind; [apply stops_map_M, Hvid | intros aav1].
    apply stops_bind; [| intros aaud; apply stops_run].
    unfold shaka_audio_arg. destruct audio_file as [a |]; [| apply stops_ret].
    apply stops_bind; [apply stops_exists | intros present].
    destruct present; [| apply stops_ret].
    apply stops_bind; [apply stops_ensure_dir | intros _; apply stops_ret].
  - apply stops_bind; [apply stops_ensure_dir | intros _].
    apply stops_bind; [| intros aaud; apply stops_run].
    unfold mp4box_audio_arg. destruct audio_file as [a |]; [| apply stops_ret].
    apply stops_bind; [apply stops_exists | intros present; apply stops_ret].
Qed.

Lemma stops_process_file args packager av1_enc out_root work_root src :
  stops_at_failure (process_file args packager av1_enc out_root work_root src).
Proof.
  unfold process_file.
  apply stops_bind; [apply stops_of_capture, capture_get_avg_fps | intros fps].
  apply stops_bind; [apply stops_of_emits, emits_lift | intros g].
  apply stops_bind; [apply stops_of_capture, capture_get_src_height | intros h_src].
  cbv zeta.
  repeat (apply stops_bind; [apply stops_ensure_dir | intros _]).
  apply stops_bind; [apply stops_print | intros _].
  apply stops_bind; [apply stops_encode_h264 | intros _].
  apply stops_bind.
  { destruct (String.eqb av1_enc "none"); [apply stops_ret | apply stops_encode_av1]. }
  intros _.
  apply stops_bind; [apply stops_extract_audio | intros audio_path].
  apply stops_bind; [apply stops_filter_exists | intros present].
  apply stops_bind; [apply stops_package | intros _]. apply stops_print.
Qed.

Lemma stops_main args : stops_at_failure (main args).
Proof.
  assert (Hwhich : forall tool, stops_at_failure (have tool)).
  { intros tool. apply stops_of_emits, emits_one. intros w t.
    eexists. split; reflexivity. }
  unfold main. cbv zeta.
  apply stops_bind; [apply Hwhich | intros ffmpeg].
  apply stops_bind;
    [destruct ffmpeg; [apply Hwhich | apply stops_ret] | intros tools].
  destruct (negb tools); [apply stops_raise |].
  apply stops_bind.
  { unfold pick_packager. apply stops_bind; [apply Hwhich | intros shaka].
    destruct shaka; [apply stops_ret |].
    apply stops_bind; [apply Hwhich | intros mp4box; apply stops_ret]. }
  intros packager. destruct (String.eqb packager ""); [apply stops_raise |].
  apply stops_bind.
  { unfold pick_av1_encoder.
    destruct (String.eqb (arg_av1_encoder args) "auto"); [| apply stops_ret].
    apply stops_bind; [| intros encs; apply stops_ret].
    apply stops_of_emits, emits_capture. reflexivity. }
  intros av1_enc.
  apply stops_bind.
  { destruct (String.eqb av1_enc "none"); [apply stops_print | apply stops_ret]. }
  intros _.
  apply stops_bind.
  { apply stops_of_emits.
    apply emits_bind; [apply emits_glob; reflexivity | intros found].
    apply emits_bind; [| intros files; apply emits_ret].
    apply emits_filter_M. intros p. apply emits_is_file. reflexivity. }
  intros files. destruct files as [| f files]; [apply stops_print |].
  apply stops_bind; [apply stops_print | intros _].
  apply stops_bind; [| intros _; apply stops_print].
  apply stops_for_each. intros src. apply stops_process_file.
Qed.

(** X13: a run stops at the first failure.  When a command started with
    [run] does not exit with status zero or cannot be started, or a folder
    cannot be made, nothing happens after it, for that file or the following
    ones, and [main] raises [CalledProcessError] or [OSError]; so a run
    that returns normally had no such failure. *)
Theorem main_stops_at_first_failure (args : cli_args) (w : world) :
  (forall pre e post,
     (main args w []).2 = pre ++ e :: post -> failing e = true ->
     post = [] /\
     ((main args w []).1 = Raise CalledProcessError \/
      (main args w []).1 = Raise OSError)) /\
  ((main args w []).1 = Ok tt ->
   Forall (fun e => failing e = false) (main args w []).2).
Proof.
  destruct (stops_main args w []) as [new [Heq Hstop]]. simpl in Heq.
  assert (Hfirst : forall pre e post,
     (main args w []).2 = pre ++ e :: post -> failing e = true ->
     post = [] /\
     ((main args w []).1 = Raise CalledProcessError \/
      (main args w []).1 = Raise OSError)).
  { intros pre e post Hsplit. apply (Hstop pre e post). congruence. }
  split; [exact Hfirst |].
  intros Hok. apply List.Forall_forall. intros e He.
  destruct (failing e) eqn:Hf; [| reflexivity].
  apply List.in_split in He. destruct He as [pre [post Hsplit]].
  destruct (Hfirst pre e post Hsplit Hf) as [_ [Hr | Hr]];
    rewrite Hok in Hr; discriminate Hr.
Qed.
End FailStop.

(** ** Missing tools *)

Lemma raises_Exceptions_try {A : Type} (body handler : M A) :
  raises_Exceptions body -> raises_Exceptions handler ->
  raises_Exceptions (try_except body handler).
Proof.
  intros Hb Hh w t e t'. unfold try_except.
  destruct (body w t) as [[a | e0] t0] eqn:E; [discriminate |].
  rewrite (Hb _ _ _ _ E). apply Hh.
Qed.

Lemma raises_Exceptions_total {A : Type} (m : M A) :
  (forall w t, exists a, (m w t).1 = Ok a) -> raises_Exceptions m.
Proof.
  intros Hm w t e t' Heq. destruct (Hm w t) as [a Ha].
  rewrite Heq in Ha. discriminate Ha.
Qed.

Lemma raises_Exceptions_print line : raises_Exceptions (print line).
Proof. apply raises_Exceptions_total. intros w t. eexists. reflexivity. Qed.

Lemma raises_Exceptions_which tool : raises_Exceptions (shutil_which tool).
Proof. apply raises_Exceptions_total. intros w t. eexists. reflexivity. Qed.

Lemma raises_Exceptions_exists p : raises_Exceptions (path_exists p).
Proof.
  intros w t e t'. unfold path_exists.
  destruct (w_exists w t p); intros [= <- _]. reflexivity.
Qed.

Lemma raises_Exceptions_is_file p : raises_Exceptions (path_is_file p).
Proof.
  intros w t e t'. unfold path_is_file.
  destruct (w_is_file w t p); intros [= <- _]. reflexivity.
Qed.

Lemma raises_Exceptions_glob d p : raises_Exceptions (path_glob d p).
Proof. apply raises_Exceptions_total. intros w t. eexists. reflexivity. Qed.

Lemma raises_Exceptions_mkdir p : raises_Exceptions (mkdir p).
Proof.
  intros w t e t'. unfold mkdir. destruct (w_mkdir w t p); intros [= <- _]. reflexivity.
Qed.

Lemma raises_Exceptions_run_check cmd : raises_Exceptions (subprocess_run_check cmd).
Proof.
  intros w t e t'. unfold subprocess_run_check.
  destruct (w_run w t cmd) as [| [|]]; intros [= <- _]; reflexivity.
Qed.

Lemma raises_Exceptions_gop (fps : spec_float) : raises_Exceptions (lift (gop fps)).
Proof.
  intros w t e t'. unfold lift, gop.
  destruct (fmul fps (float_of_Z 2)); simpl; intros [= <- _]; reflexivity.
Qed.

Lemma raises_Exceptions_for_each {A : Type} (l : list A) (body : A -> M unit) :
  (forall x, raises_Exceptions (body x)) -> raises_Exceptions (for_each l body).
Proof.
  intros Hb. induction l as [| x l IH]; simpl.
  - apply raises_Exceptions_ret.
  - apply raises_Exceptions_bind; [apply Hb | intros _; exact IH].
Qed.

Lemma raises_Exceptions_map_M {A B : Type} (f : A -> M B) (l : list A) :
  (forall x, raises_Exceptions (f x)) -> raises_Exceptions (map_M f l).
Proof.
  intros Hf. induction l as [| x l IH]; simpl.
  - apply raises_Exceptions_ret.
  - apply raises_Exceptions_bind; [apply Hf |]. intros y.
    apply raises_Exceptions_bind; [exact IH |]. intros ys. apply raises_Exceptions_ret.
Qed.

Lemma raises_Exceptions_filter_M {A : Type} (f : A -> M bool) (l : list A) :
  (forall x, raises_Exceptions (f x)) -> raises_Exceptions (filter_M f l).
Proof.
  intros Hf. induction l as [| x l IH]; simpl.
  - apply raises_Exceptions_ret.
  - apply raises_Exceptions_bind; [apply Hf |]. intros y.
    apply raises_Exceptions_bind; [exact IH |]. intros ys. apply raises_Exceptions_ret.
Qed.

Section Exits.
Context `{PathOps} `{PyParse}.

Lemma raises_Exceptions_run cmd : raises_Exceptions (run cmd).
Proof.
  apply raises_Exceptions_bind;
    [apply raises_Exceptions_print | intros _; apply raises_Exceptions_run_check].
Qed.

Lemma raises_Exceptions_process_file args packager av1_enc out_root work_root src :
  raises_Exceptions (process_file args packager av1_enc out_root work_root src).
Proof.
  assert (Hdir : forall p, raises_Exceptions (ensure_dir p))
    by (intros p; apply raises_Exceptions_mkdir).
  assert (Hvid : forall outdash family hp,
            raises_Exceptions (shaka_video_arg outdash family hp)).
  { intros outdash family hp.
    apply raises_Exceptions_bind; [apply Hdir | intros _; apply raises_Exceptions_ret]. }
  unfold process_file.
  apply raises_Exceptions_bind.
  { apply raises_Exceptions_try;
      [apply raises_Exceptions_fps_body | apply raises_Exceptions_ret]. }
  intros fps.
  apply raises_Exceptions_bind; [apply raises_Exceptions_gop | intros g].
  apply raises_Exceptions_bind.
  { apply raises_Exceptions_try;
      [apply raises_Exceptions_height_body | apply raises_Exceptions_ret]. }
  intros h_src. cbv zeta.
  repeat (apply raises_Exceptions_bind; [apply Hdir | intros _]).
  apply raises_Exceptions_bind; [apply raises_Exceptions_print | intros _].
  apply raises_Exceptions_bind.
  { apply raises_Exceptions_bind; [apply Hdir | intros _; apply raises_Exceptions_run]. }
  intros _.
  apply raises_Exceptions_bind.
  { destruct (String.eqb av1_enc "none"); [apply raises_Exceptions_ret |].
    apply raises_Exceptions_bind; [apply Hdir | intros _; apply raises_Exceptions_run]. }
  intros _.
  apply raises_Exceptions_bind.
  { apply raises_Exceptions_bind.
    - apply raises_Exceptions_try;
        [apply raises_Exceptions_audio_body | apply raises_Exceptions_ret].
    - intros audio. destruct audio; simpl; [| apply raises_Exceptions_ret].
      apply raises_Exceptions_bind; [apply Hdir | intros _].
      apply raises_Exceptions_bind;
        [apply raises_Exceptions_run | intros _; apply raises_Exceptions_ret]. }
  intros audio_path.
  apply raises_Exceptions_bind.
  { apply raises_Exceptions_filter_M. intros h. apply raises_Exceptions_exists. }
  intros present.
  apply raises_Exceptions_bind; [| intros _; apply raises_Exceptions_print].
  unfold package. destruct (String.eqb packager "shaka").
  - apply raises_Exceptions_bind; [apply Hdir | intros _].
    apply raises_Exceptions_bind; [apply raises_Exceptions_map_M, Hvid | intros a264].
    apply raises_Exceptions_bind; [apply raises_Exceptions_map_M, Hvid | intros aav1].
    apply raises_Exceptions_bind; [| intros aaud; apply raises_Exceptions_run].
    unfold shaka_audio_arg. destruct audio_path as [a |]; [| apply raises_Exceptions_ret].
    apply raises_Exceptions_bind; [apply raises_Exceptions_exists | intros present'].
    destruct present'; [| apply raises_Exceptions_ret].
    apply raises_Exceptions_bind; [apply Hdir | intros _; apply raises_Exceptions_ret].
  - apply raises_Exceptions_bind; [apply Hdir | intros _].
    apply raises_Exceptions_bind; [| intros aaud; apply raises_Exceptions_run].
    unfold mp4box_audio_arg. destruct audio_path as [a |]; [| apply raises_Exceptions_ret].
    apply raises_Exceptions_bind;
      [apply raises_Exceptions_exists | intros present'; apply raises_Exceptions_ret].
Qed.

(** The part of [main] that follows the choice of the packager. *)
Local Abbreviation rest_of_main args packager :=
  (av1_enc ← pick_av1_encoder args;
   (if String.eqb av1_enc "none" then
      print "!! AV1 encoder not found in ffmpeg (libsvtav1/libaom-av1). Proceeding with H.264 only."
    else mret tt) ;;
   files ← collect_files (Path (arg_input args));
   match files with
   | [] => print ("No .mp4 files found in: " +:+ Path (arg_input args))
   | _ =>
       print ("Found " +:+ str_int (Z.of_nat (length files))
              +:+ " file(s) in: " +:+ Path (arg_input args)) ;;
       for_each files
         (process_file args packager av1_enc
            (Path (arg_out args)) (Path (arg_work args))) ;;
       print (String (chr 10)
         "All set! Server MIME: .mpd=application/dash+xml  .m4s=video/iso.segment")
   end) (only parsing).

Lemma raises_Exceptions_rest_of_main args packager :
  raises_Exceptions (rest_of_main args packager).
Proof.
  apply raises_Exceptions_bind.
  { unfold pick_av1_encoder.
    destruct (String.eqb (arg_av1_encoder args) "auto"); [| apply raises_Exceptions_ret].
    apply raises_Exceptions_bind;
      [apply raises_Exceptions_capture | intros encs; apply raises_Exceptions_ret]. }
  intros av1_enc. apply raises_Exceptions_bind.
  { destruct (String.eqb av1_enc "none");
      [apply raises_Exceptions_print | apply raises_Exceptions_ret]. }
  intros _. apply raises_Exceptions_bind.
  { apply raises_Exceptions_bind; [apply raises_Exceptions_glob | intros found].
    apply raises_Exceptions_bind; [| intros files; apply raises_Exceptions_ret].
    apply raises_Exceptions_filter_M. intros p. apply raises_Exceptions_is_file. }
  intros files. destruct files as [| f files]; [apply raises_Exceptions_print |].
  apply raises_Exceptions_bind; [apply raises_Exceptions_print | intros _].
  apply raises_Exceptions_bind; [| intros _; apply raises_Exceptions_print].
  apply raises_Exceptions_for_each. intros src. apply raises_Exceptions_process_file.
Qed.

Lemma rest_of_main_no_exit args packager w t msg :
  (rest_of_main args packager w t).1 <> Raise (SystemExit msg).
Proof.
  intros Heq.
  destruct (rest_of_main args packager w t) as [r t'] eqn:E. simpl in Heq. subst r.
  pose proof (raises_Exceptions_rest_of_main args packager w t _ _ E) as Hx.
  discriminate Hx.
Qed.

(** X14: [main] ends with [SystemExit] exactly when a required tool is
    missing: [ffmpeg], [ffprobe], or both packaging tools.  Then nothing
    but tool look-ups, at most four, has happened: no folder is listed or
    made, no probe and no command is run. *)
Theorem main_exits_iff_missing_tool (args : cli_args) (w : world) :
  ((exists msg, (main args w []).1 = Raise (SystemExit msg))
     <-> missing_tool w = true) /\
  (missing_tool w = true ->
     Forall (fun e => is_which e = true) (main args w []).2 /\
     (length (main args w []).2 <= 4)%nat).
Proof.
  rewrite main_eq. unfold missing_tool. cbv zeta.
  destruct (w_which w [] "ffmpeg").
  2:{ split; [split; eauto |]. intros _. split; [repeat constructor | simpl; lia]. }
  destruct (w_which w [EWhich "ffmpeg" true] "ffprobe").
  2:{ split; [split; eauto |]. intros _. split; [repeat constructor | simpl; lia]. }
  destruct (w_which w ([EWhich "ffmpeg" true] ++ [EWhich "ffprobe" true]) "packager").
  - split; [| discriminate]. split; [| discriminate].
    intros [msg Hmsg]. exfalso. exact (rest_of_main_no_exit _ _ _ _ _ Hmsg).
  - destruct (w_which w _ "MP4Box").
    + split; [| discriminate]. split; [| discriminate].
      intros [msg Hmsg]. exfalso. exact (rest_of_main_no_exit _ _ _ _ _ Hmsg).
    + split; [split; eauto |]. intros _. split; [repeat constructor | simpl; lia].
Qed.
End Exits.

(** ** The files of the input folder *)


(** Two files out of order in the listing. *)
Example collect_files_example :
  (collect_files "videos" (plain_world "" ["videos/b.mp4"; "videos/a.mp4"]) []).1
  = Ok ["videos/a.mp4"; "videos/b.mp4"].
Proof. reflexivity. Qed.

(** ** What the packaging tools are given *)

Lemma emits_bind_returns {A B : Type} (P : event -> Prop) (Q : A -> Prop)
    (m : M A) (f : A -> M B) :
  emits P m -> returns Q m -> (forall a, Q a -> emits P (f a)) ->
  emits P (m ≫= f).
Proof.
  intros Hm Hq Hf w t. rewrite bind_eq.
  destruct (Hm w t) as [new1 [Heq1 Hall1]].
  destruct (m w t) as [[a | e] t1] eqn:E; simpl in Heq1; subst t1.
  - destruct (Hf a (Hq _ _ _ _ E) w (t ++ new1)) as [new2 [Heq2 Hall2]].
    exists (new1 ++ new2). rewrite Heq2, app_assoc.
    split; [reflexivity | apply List.Forall_app; split; assumption].
  - exists new1. split; [reflexivity | assumption].
Qed.

Lemma returns_map_M {A B : Type} (f : A -> M B) (g : A -> B) (l : list A) :
  (forall x, returns (fun y => y = g x) (f x)) ->
  returns (fun ys => ys = g <$> l) (map_M f l).
Proof.
  intros Hf. induction l as [| x l IH]; intros w t ys t'.
  - intros [= <- _]. reflexivity.
  - simpl. rewrite bind_eq.
    destruct (f x w t) as [[y | e] t1] eqn:E1; [| discriminate].
    rewrite bind_eq.
    destruct (map_M f l w t1) as [[ys' | e] t2] eqn:E2; [| discriminate].
    intros [= <- _]. rewrite (Hf x _ _ _ _ E1), (IH _ _ _ _ E2). reflexivity.
Qed.

Section PackagerCommands.
Context `{PathOps}.

Lemma returns_shaka_video_arg outdash family hp :
  returns (fun y => y = shaka_video_desc outdash family hp)
          (shaka_video_arg outdash family hp).
Proof.
  intros w t y t'. unfold shaka_video_arg. rewrite bind_eq.
  destruct (ensure_dir _ w t) as [[[] | e] t1]; [| discriminate].
  intros [= <- _]. reflexivity.
Qed.

Lemma returns_shaka_audio_arg outdash audio_file :
  returns (fun aud => aud = [] \/
             exists a, audio_file = Some a /\ aud = [shaka_audio_desc outdash a])
          (shaka_audio_arg outdash audio_file).
Proof.
  intros w t aud t'. unfold shaka_audio_arg.
  destruct audio_file as [a |]; [| intros [= <- _]; left; reflexivity].
  rewrite bind_eq. unfold path_exists at 1. cbv beta iota.
  destruct (w_exists w t a) as [[|] |];
    [| intros [= <- _]; left; reflexivity | discriminate].
  rewrite bind_eq.
  destruct (ensure_dir _ w _) as [[[] | e] t1]; [| discriminate].
  intros [= <- _]. right. exists a. split; reflexivity.
Qed.

Lemma returns_mp4box_audio_arg audio_file :
  returns (fun aud => aud = [] \/
             exists a, audio_file = Some a /\ aud = [a +:+ "#audio:id=audio"])
          (mp4box_audio_arg audio_file).
Proof.
  intros w t aud t'. unfold mp4box_audio_arg.
  destruct audio_file as [a |]; [| intros [= <- _]; left; reflexivity].
  rewrite bind_eq. unfold path_exists at 1. cbv beta iota.
  destruct (w_exists w t a) as [[|] |]; [| | discriminate];
    intros [= <- _]; [right; eauto | left; reflexivity].
Qed.

(** X16: whichever backend packages, every command it runs names the tool
    of that backend and carries one entry per video file it was given, the
    H.264 files first and the AV1 files after, each list in its order,
    followed by at most one audio entry, which is present only when an
    audio file was given. *)
Theorem package_one_entry_per_track (outdash : path) (seg_dur : Z)
    (v264_files vav1_files : list (Z * path)) (audio_file : option path) :
  emits (fun e => forall cmd, run_cmd e = Some cmd ->
           exists aud,
             cmd = ["packager"]
                   ++ ((shaka_video_desc outdash "h264" <$> v264_files)
                       ++ (shaka_video_desc outdash "av1" <$> vav1_files) ++ aud)
                   ++ ["--segment_duration"; str_int seg_dur;
                       "--generate_static_mpd";
                       "--mpd_output"; path_div outdash "manifest.mpd"] /\
             (aud = [] \/
              exists a, audio_file = Some a /\ aud = [shaka_audio_desc outdash a]))
        (package_shaka outdash seg_dur v264_files vav1_files audio_file) /\
  emits (fun e => forall cmd, run_cmd e = Some cmd ->
           exists aud,
             cmd = ["MP4Box"; "-dash"; str_int (seg_dur * 1000);
                    "-rap"; "-frag"; str_int (seg_dur * 1000);
                    "-profile"; "live";
                    "-segment-name"; "$RepresentationID$/";
                    "-segment-ext"; "m4s"; "-init-segment-ext"; "mp4";
                    "-no-frags-default";
                    "-out"; path_div outdash "manifest.mpd"]
                   ++ ((mp4box_video_arg "h264" <$> v264_files)
                       ++ (mp4box_video_arg "av1" <$> vav1_files) ++ aud) /\
             (aud = [] \/
              exists a, audio_file = Some a /\ aud = [a +:+ "#audio:id=audio"]))
        (package_mp4box outdash seg_dur v264_files vav1_files audio_file).
Proof.
  assert (Hdir : forall (P : event -> Prop) p,
            (forall e, run_cmd e = None -> P e) -> emits P (ensure_dir p)).
  { intros P p HP. apply emits_mkdir. intros ok. apply HP. reflexivity. }
  split.
  - set (P := fun e : event => _).
    assert (HP : forall e, run_cmd e = None -> P e).
    { intros e He cmd Hc. congruence. }
    assert (Hvid : forall family hp, emits P (shaka_video_arg outdash family hp)).
    { intros family hp. apply emits_bind; [apply Hdir, HP | intros _; apply emits_ret]. }
    unfold package_shaka.
    apply emits_bind; [apply Hdir, HP | intros _].
    eapply emits_bind_returns;
      [apply emits_map_M, Hvid
      | apply returns_map_M; intros hp; apply returns_shaka_video_arg |].
    intros a264 ->.
    eapply emits_bind_returns;
      [apply emits_map_M, Hvid
      | apply returns_map_M; intros hp; apply returns_shaka_video_arg |].
    intros aav1 ->.
    eapply emits_bind_returns; [| apply returns_shaka_audio_arg |].
    + unfold shaka_audio_arg. destruct audio_file as [a |]; [| apply emits_ret].
      apply emits_bind; [apply emits_exists; intros b; apply HP; reflexivity |].
      intros present. destruct present; [| apply emits_ret].
      apply emits_bind; [apply Hdir, HP | intros _; apply emits_ret].
    + intros aud Haud. apply emits_bind.
      * apply emits_print, HP. reflexivity.
      * intros _. apply emits_run_check. intros o cmd [= <-].
        exists aud. split; [reflexivity | exact Haud].
  - set (P := fun e : event => _).
    assert (HP : forall e, run_cmd e = None -> P e).
    { intros e He cmd Hc. congruence. }
    unfold package_mp4box.
    apply emits_bind; [apply Hdir, HP | intros _].
    eapply emits_bind_returns; [| apply returns_mp4box_audio_arg |].
    + unfold mp4box_audio_arg. destruct audio_file as [a |]; [| apply emits_ret].
      apply emits_bind; [| intros present; apply emits_ret].
      apply emits_exists. intros b. apply HP. reflexivity.
    + intros aud Haud. apply emits_bind.
      * apply emits_print, HP. reflexivity.
      * intros _. apply emits_run_check. intros o cmd [= <-].
        exists aud. split; [reflexivity | exact Haud].
Qed.
End PackagerCommands.

(** Scenario A: three rungs in two families and an audio track give seven
    entries. *)
Example package_shaka_seven_tracks :
  omap run_cmd
    (@package_shaka posix_paths "out/b/dash" 4
       [(1080, "w/h264_1080.mp4"); (720, "w/h264_720.mp4"); (480, "w/h264_480.mp4")]
       [(1080, "w/av1_1080.mp4"); (720, "w/av1_720.mp4"); (480, "w/av1_480.mp4")]
       (Some "w/audio.m4a") (plain_world "" []) []).2
  = [["packager";
      "in=w/h264_1080.mp4,stream=video,init_segment=out/b/dash/h264_1080/init.mp4,segment_template=out/b/dash/h264_1080/seg_$Number$.m4s";
      "in=w/h264_720.mp4,stream=video,init_segment=out/b/dash/h264_720/init.mp4,segment_template=out/b/dash/h264_720/seg_$Number$.m4s";
      "in=w/h264_480.mp4,stream=video,init_segment=out/b/dash/h264_480/init.mp4,segment_template=out/b/dash/h264_480/seg_$Number$.m4s";
      "in=w/av1_1080.mp4,stream=video,init_segment=out/b/dash/av1_1080/init.mp4,segment_template=out/b/dash/av1_1080/seg_$Number$.m4s";
      "in=w/av1_720.mp4,stream=video,init_segment=out/b/dash/av1_720/init.mp4,segment_template=out/b/dash/av1_720/seg_$Number$.m4s";
      "in=w/av1_480.mp4,stream=video,init_segment=out/b/dash/av1_480/init.mp4,segment_template=out/b/dash/av1_480/seg_$Number$.m4s";
      "in=w/audio.m4a,stream=audio,lang=und,init_segment=out/b/dash/audio/init.mp4,segment_template=out/b/dash/audio/seg_$Number$.m4s";
      "--segment_duration"; "4"; "--generate_static_mpd";
      "--mpd_output"; "out/b/dash/manifest.mpd"]].
Proof. vm_compute. reflexivity. Qed.

(** ** The representation ids of MP4Box *)












Section RepresentationIds.
Context `{PathOps} `{PyParse}.

End RepresentationIds.

(** The ids of a run with MP4Box, audio included. *)
Example rep_ids_1080 :
  (fun cmd => rep_id <$> drop 17 cmd) <$>
    tool_runs "MP4Box"
      (@main posix_paths decimal_parsers
         {| arg_input := "videos"; arg_out := "out"; arg_work := "temp";
            arg_seg := 4; arg_audio_bitrate := "192k";
            arg_preset264 := "slow"; arg_av1_encoder := "svt";
            arg_cpu_used := 6; arg_max_height := 0 |}
         {| w_which := fun _ tool => negb (String.eqb tool "packager");
            w_run := fun _ _ => Exited true;
            w_capture := fun _ _ => Captured true "720";
            w_mkdir := fun _ _ => true;
            w_exists := fun _ _ => Some true;
            w_is_file := fun _ _ => Some true;
            w_glob := fun _ _ _ => ["videos/a.mp4"] |} []).2
  = [["h264_720"; "h264_480"; "av1_720"; "av1_480"; "audio"]].
Proof. vm_compute. reflexivity. Qed.

(** ** Every command is echoed *)

Lemma echoed_app (a b : trace) : echoed a -> echoed b -> echoed (a ++ b).
Proof.
  intros Ha Hb pre cmd o post Hsplit.
  apply List.app_eq_app in Hsplit. destruct Hsplit as [l [[H1 H2] | [H1 H2]]].
  - destruct l as [| e l].
    + simpl in H2. destruct (Hb [] cmd o post (eq_sym H2)) as [pre' Hpre].
      destruct pre'; discriminate Hpre.
    + simpl in H2. injection H2 as <- ->. apply (Ha pre cmd o l H1).
  - destruct (Hb l cmd o post H2) as [pre' ->].
    exists (a ++ pre'). rewrite H1. apply app_assoc.
Qed.

Lemma echoed_no_run (l : trace) : Forall setup_event l -> echoed l.
Proof.
  intros Hall pre cmd o post ->. rewrite List.Forall_forall in Hall.
  assert (Hin : In (ERun cmd o) (pre ++ ERun cmd o :: post))
    by (apply List.in_or_app; right; left; reflexivity).
  specialize (Hall _ Hin). discriminate Hall.
Qed.

Lemma echoes_of_emits {A : Type} (m : M A) : emits setup_event m -> echoes m.
Proof.
  intros Hm w t. destruct (Hm w t) as [new [Heq Hall]].
  exists new. split; [exact Heq | apply echoed_no_run, Hall].
Qed.

Lemma echoes_quiet {A : Type} (m : M A) : emits quiet_event m -> echoes m.
Proof.
  intros Hm. apply echoes_of_emits.
  eapply emits_weaken; [apply quiet_setup_event | exact Hm].
Qed.

Lemma echoes_bind {A B : Type} (m : M A) (f : A -> M B) :
  echoes m -> (forall a, echoes (f a)) -> echoes (m ≫= f).
Proof.
  intros Hm Hf w t. rewrite bind_eq.
  destruct (Hm w t) as [new1 [Heq1 He1]].
  destruct (m w t) as [[a | x] t1]; simpl in Heq1; subst t1.
  - destruct (Hf a w (t ++ new1)) as [new2 [Heq2 He2]].
    exists (new1 ++ new2). rewrite Heq2, app_assoc.
    split; [reflexivity | apply echoed_app; assumption].
  - exists new1. split; [reflexivity | exact He1].
Qed.

Lemma echoes_ret {A : Type} (a : A) : echoes (mret a).
Proof. apply echoes_of_emits, emits_ret. Qed.

Lemma echoes_for_each {A : Type} (l : list A) (body : A -> M unit) :
  (forall x, echoes (body x)) -> echoes (for_each l body).
Proof.
  intros Hb. induction l as [| x l IH]; simpl.
  - apply echoes_ret.
  - apply echoes_bind; [apply Hb | intros _; exact IH].
Qed.

Lemma echoes_map_M {A B : Type} (f : A -> M B) (l : list A) :
  (forall x, echoes (f x)) -> echoes (map_M f l).
Proof.
  intros Hf. induction l as [| x l IH]; simpl.
  - apply echoes_ret.
  - apply echoes_bind; [apply Hf |]. intros y.
    apply echoes_bind; [exact IH |]. intros ys. apply echoes_ret.
Qed.

Section Echo.
Context `{PathOps} `{PyParse}.

Lemma echoes_run (cmd : list string) : echoes (run cmd).
Proof.
  intros w t.
  exists [EPrint (">> " +:+ join " " cmd);
          ERun cmd (w_run w (t ++ [EPrint (">> " +:+ join " " cmd)]) cmd)].
  split; [rewrite run_eq; simpl; rewrite <- app_assoc; reflexivity |].
  intros pre c o post Hsplit.
  destruct pre as [| p [| q pre]]; simpl in Hsplit.
  - discriminate Hsplit.
  - injection Hsplit as <- <- _ _. exists []. reflexivity.
  - injection Hsplit as _ _ Hnil. destruct pre; discriminate Hnil.
Qed.

Lemma echoes_ensure_dir p : echoes (ensure_dir p).
Proof. apply echoes_quiet, emits_ensure_dir. Qed.

Lemma echoes_print line : echoes (print line).
Proof. apply echoes_of_emits, emits_print. reflexivity. Qed.

Lemma echoes_exists p : echoes (path_exists p).
Proof. apply echoes_of_emits, emits_exists. reflexivity. Qed.

Lemma echoes_process_file args packager av1_enc out_root work_root src :
  echoes (process_file args packager av1_enc out_root work_root src).
Proof.
  assert (Hvid : forall outdash family hp,
            echoes (shaka_video_arg outdash family hp)).
  { intros outdash family hp.
    apply echoes_bind; [apply echoes_ensure_dir | intros _; apply echoes_ret]. }
  unfold process_file.
  apply echoes_bind; [apply echoes_quiet, emits_get_avg_fps | intros fps].
  apply echoes_bind; [apply echoes_of_emits, emits_lift | intros g].
  apply echoes_bind; [apply echoes_quiet, emits_get_src_height | intros h_src].
  cbv zeta.
  repeat (apply echoes_bind; [apply echoes_ensure_dir | intros _]).
  apply echoes_bind; [apply echoes_print | intros _].
  apply echoes_bind.
  { apply echoes_bind; [apply echoes_ensure_dir | intros _; apply echoes_run]. }
  intros _. apply echoes_bind.
  { destruct (String.eqb av1_enc "none"); [apply echoes_ret |].
    apply echoes_bind; [apply echoes_ensure_dir | intros _; apply echoes_run]. }
  intros _. apply echoes_bind.
  { apply echoes_bind; [apply echoes_quiet, emits_has_audio | intros audio].
    destruct audio; simpl; [| apply echoes_ret].
    apply echoes_bind; [apply echoes_ensure_dir | intros _].
    apply echoes_bind; [apply echoes_run | intros _; apply echoes_ret]. }
  intros audio_path. apply echoes_bind.
  { apply echoes_of_emits, emits_filter_M. intros h.
    apply emits_exists. reflexivity. }
  intros present.
  apply echoes_bind; [| intros _; apply echoes_print].
  unfold package. destruct (String.eqb packager "shaka").
  - apply echoes_bind; [apply echoes_ensure_dir | intros _].
    apply echoes_bind; [apply echoes_map_M, Hvid | intros a264].
    apply echoes_bind; [apply echoes_map_M, Hvid | intros aav1].
    apply echoes_bind; [| intros aaud; apply echoes_run].
    unfold shaka_audio_arg. destruct audio_path as [a |]; [| apply echoes_ret].
    apply echoes_bind; [apply echoes_exists | intros present'].
    destruct present'; [| apply echoes_ret].
    apply echoes_bind; [apply echoes_ensure_dir | intros _; apply echoes_ret].
  - apply echoes_bind; [apply echoes_ensure_dir | intros _].
    apply echoes_bind; [| intros aaud; apply echoes_run].
    unfold mp4box_audio_arg. destruct audio_path as [a |]; [| apply echoes_ret].
    apply echoes_bind; [apply echoes_exists | intros present'; apply echoes_ret].
Qed.

Lemma echoes_main args : echoes (main args).
Proof.
  assert (Hwhich : forall tool, echoes (have tool)).
  { intros tool. apply echoes_of_emits, emits_one. intros w t.
    eexists. split; reflexivity. }
  unfold main. cbv zeta.
  apply echoes_bind; [apply Hwhich | intros ffmpeg].
  apply echoes_bind; [destruct ffmpeg; [apply Hwhich | apply echoes_ret] | intros tools].
  destruct (negb tools); [apply echoes_of_emits, emits_raise |].
  apply echoes_bind.
  { unfold pick_packager. apply echoes_bind; [apply Hwhich | intros shaka].
    destruct shaka; [apply echoes_ret |].
    apply echoes_bind; [apply Hwhich | intros mp4box; apply echoes_ret]. }
  intros packager.
  destruct (String.eqb packager ""); [apply echoes_of_emits, emits_raise |].
  apply echoes_bind; [apply echoes_quiet, emits_pick_av1_encoder | intros av1_enc].
  apply echoes_bind.
  { destruct (String.eqb av1_enc "none"); [apply echoes_print | apply echoes_ret]. }
  intros _.
  apply echoes_bind; [apply echoes_quiet, emits_collect_files | intros files].
  destruct files as [| f files]; [apply echoes_print |].
  apply echoes_bind; [apply echoes_print | intros _].
  apply echoes_bind; [| intros _; apply echoes_print].
  apply echoes_for_each. intros src. apply echoes_process_file.
Qed.

(** X17: in a run of [main] every command started with [run], each encode
    and each packaging, comes right after the line that echoes it on the
    console: two angle brackets and the arguments joined by spaces. *)
Theorem main_echoes_commands (args : cli_args) (w : world) :
  echoed (main args w []).2.
Proof.
  destruct (echoes_main args w []) as [new [Heq He]]. simpl in Heq.
  rewrite Heq. exact He.
Qed.
End Echo.

(** ** A taller source keeps the rungs of a smaller one *)

Lemma filter_sublist_mono {A : Type} (f g : A -> bool) (l : list A) :
  (forall x, f x = true -> g x = true) ->
  sublist (List.filter f l) (List.filter g l).
Proof.
  intros Hfg. induction l as [| x l IH]; simpl; [constructor |].
  destruct (f x) eqn:Ef.
  - rewrite (Hfg x Ef). apply sublist_skip, IH.
  - destruct (g x); [apply sublist_cons, IH | exact IH].
Qed.

Lemma ladder_no_fallback (H C : Z) :
  480 <= H -> C = 0 \/ 480 <= C ->
  ladder H C = List.filter (ladder_guard H C) DEFAULT_LADDER.
Proof.
  intros HH HC. destruct (ladder_cases H C) as [[_ Heq] | [Hnil _]]; [exact Heq |].
  exfalso.
  assert (Hin : In 480 (List.filter (ladder_guard H C) DEFAULT_LADDER)).
  { apply List.filter_In. split; [| apply ladder_guard_480; assumption].
    unfold DEFAULT_LADDER. simpl. tauto. }
  rewrite Hnil in Hin. destruct Hin.
Qed.

(** X18: with the same cap (none, or one of at least 480), a source of at
    least 480 lines gets a ladder that every taller source gets too, with
    further rungs possibly added. *)
Theorem ladder_monotone (H H' C : Z) :
  480 <= H -> H <= H' -> C = 0 \/ 480 <= C ->
  sublist (ladder H C) (ladder H' C).
Proof.
  intros HH Hle HC.
  rewrite (ladder_no_fallback H C HH HC), (ladder_no_fallback H' C) by (lia || exact HC).
  apply filter_sublist_mono. intros h Hg.
  apply ladder_guard_spec in Hg. apply ladder_guard_spec.
  destruct Hg as [Hh Hc]. split; [lia | exact Hc].
Qed.

Lemma ladder_monotone_witness :
  sublist (ladder 720 0) (ladder 1080 0).
Proof.
  apply (ladder_monotone 720 1080 0); [lia | lia | left; reflexivity].
Defined.
